(** * Pyestro: inventory resolution and filtering engine

    A shallow embedding of the parts of pyestro that merge inventory
    trees, query the reclass classifier and filter the node set:

    - [pyestro/core/validation.py]   ([InputValidator])
    - [pyestro/core/file_ops.py]     ([FileManager])
    - [pyestro/core/reclass.py]      ([ReclassParser])
    - [pyestro/parsers/reclass_parser.py] ([ReclassManager])
    - [pyestro/core/templates.py]    ([TemplateEngine.validate_project_name])

    Conventions of the embedding.

    - A Python [str] is a [string]; each [ascii] stands for the code
      point of the same number (0..255).  Comparison of strings is
      Python's: lexicographic on code points ([String.le]).
    - Values produced by [json.loads] are terms of [json]; the Python
      operators applied to them ([in], subscripting, [.get], truth value)
      are functions that raise [TypeError]/[AttributeError]/[KeyError]
      where CPython does.  A dict is the list of its items in insertion
      order; that no key occurs twice in what [json.loads] returns is the
      hypothesis [loads_unique] where a statement depends on it.  Numbers
      are integers: the code never looks inside a number.
    - A path is the list of its components; the filesystem is a finite map
      from paths to files and directories.  Permissions, links and races
      with other processes are not modelled, so the only [OSError]s are
      those of a file standing where a directory is needed (or the
      converse).  A path is looked up as it is written: a component [..],
      which pathlib keeps and the operating system resolves, is a name like
      any other.  Statements about what a call leaves alone are made for
      paths without it ([plain]).
    - [Path.rglob] is the list of the entries below a directory as they
      are when the walk starts; the code walks while it copies, which
      differs when the destination of a copy lies inside its source.
    - In a log line an [OSError] stands with the name of its class, not
      with the text the interpreter gives it.
    - [shutil.rmtree] and [Path.unlink] remove entries of the map;
      [ValueError] of [Path.with_suffix] is carried by [OSError] under its
      own name.
    - Effects are explicit: a computation takes the filesystem and returns
      a value or a raised exception, the new filesystem and the trace of
      observable events (log lines, executed command lines).
    - What lies outside the repository is a field of [World]: [shutil.which],
      the reclass and rsync processes and [json.loads]. *)

From stdpp Require Import gmap strings list sorting pretty.
From Stdlib Require Import Ascii String.

Local Open Scope string_scope.

(** ** Python strings *)

Module PyStr.

Definition code (c : ascii) : N := N_of_ascii c.

(** [str.isspace] on the code points below 256. *)
Definition isspace (c : ascii) : bool :=
  let n := code c in
  ((9 <=? n) && (n <=? 13) || (28 <=? n) && (n <=? 32)
   || (n =? 133) || (n =? 160))%N.

Fixpoint lstrip (s : string) : string :=
  match s with
  | String c s' => if isspace c then lstrip s' else s
  | EmptyString => EmptyString
  end.

Fixpoint rstrip (s : string) : string :=
  match s with
  | String c s' =>
      match rstrip s' with
      | EmptyString => if isspace c then EmptyString else String c EmptyString
      | r => String c r
      end
  | EmptyString => EmptyString
  end.

(** [s.strip()] *)
Definition strip (s : string) : string := rstrip (lstrip s).

(** [c in s] for a one-character [c]. *)
Fixpoint contains_char (c : ascii) (s : string) : bool :=
  match s with
  | String d s' => if Ascii.eqb c d then true else contains_char c s'
  | EmptyString => false
  end.

(** [s.replace(c, r)] for a one-character [c]. *)
Fixpoint replace_char (c : ascii) (r : string) (s : string) : string :=
  match s with
  | String d s' =>
      if Ascii.eqb c d then r ++ replace_char c r s'
      else String d (replace_char c r s')
  | EmptyString => EmptyString
  end.

Fixpoint startswith (p s : string) : bool :=
  match p, s with
  | EmptyString, _ => true
  | String a p', String b s' => Ascii.eqb a b && startswith p' s'
  | String _ _, EmptyString => false
  end.

Definition endswith (p s : string) : bool :=
  startswith (String.rev p) (String.rev s).

(** [p in s] for strings: [p] occurs somewhere in [s]. *)
Fixpoint substring_of (p s : string) : bool :=
  startswith p s ||
  match s with
  | String _ s' => substring_of p s'
  | EmptyString => false
  end.

(** [sep.join(l)] *)
Fixpoint join (sep : string) (l : list string) : string :=
  match l with
  | [] => ""
  | [x] => x
  | x :: l' => x ++ sep ++ join sep l'
  end.

(** [s.split()] : the maximal runs of non-blank characters. *)
Fixpoint split_ws_aux (cur : string) (s : string) : list string :=
  match s with
  | String c s' =>
      if isspace c
      then ((if String.eqb cur "" then [] else [String.rev cur]) ++ split_ws_aux "" s')%list
      else split_ws_aux (String c cur) s'
  | EmptyString => if String.eqb cur "" then [] else [String.rev cur]
  end.

Definition split_ws (s : string) : list string := split_ws_aux "" s.

(** [sorted(l)] on strings.  The result of a sort of strings is the one
    ordered permutation of its input, whichever algorithm produces it. *)
Definition sorted (l : list string) : list string := merge_sort String.le l.

(** [s.split(sep)] for a one-character [sep]: the pieces between the
    separators, empty ones included. *)
Fixpoint split_char (sep : ascii) (s : string) : list string :=
  match s with
  | EmptyString => [""]
  | String c s' =>
      if Ascii.eqb c sep then "" :: split_char sep s'
      else match split_char sep s' with
           | piece :: pieces => String c piece :: pieces
           | [] => [String c ""]
           end
  end.

(** The code points of [s]. *)
Definition codes (s : string) : list N := code <$> list_ascii_of_string s.

(** [str.upper] on the code points below 256, as the code points of the
    result: the letters [a]-[z] and the accented letters 224-254 (but the
    division sign 247) move down by 32; the sharp s (223) becomes [SS];
    the micro sign (181) and the y with diaeresis (255) have their capitals
    above 255; every other character is kept. *)
Definition upper_char (c : ascii) : list N :=
  let n := code c in
  if ((97 <=? n) && (n <=? 122))%N then [(n - 32)%N]
  else if (n =? 181)%N then [924%N]
  else if (n =? 223)%N then [83%N; 83%N]
  else if ((224 <=? n) && (n <=? 254) && negb (n =? 247))%N then [(n - 32)%N]
  else if (n =? 255)%N then [376%N]
  else [n].

Fixpoint upper (s : string) : list N :=
  match s with
  | String c s' => (upper_char c ++ upper s')%list
  | EmptyString => []
  end.

(** [len(s.encode('utf-8'))] on the code points below 256. *)
Fixpoint utf8_length (s : string) : nat :=
  match s with
  | String c s' => ((if (code c <? 128)%N then 1 else 2) + utf8_length s')%nat
  | EmptyString => 0%nat
  end.

End PyStr.

(** ** The fragment of [re] the code uses

    The code has three patterns: the two literal character-class patterns
    of [InputValidator] and the pattern [filter_nodes] builds from a
    validated filter.  All are sequences of one-character atoms, each
    taken once or under [*] or [+], between the anchors [^] and [$]. *)

Module Re.

Inductive atom : Type :=
| Lit (c : ascii)
| AnyChar
| CharSet (ranges : list (ascii * ascii)).

Inductive quant : Type := Once | Star | Plus.

Inductive node : Type :=
| Caret
| Dollar
| Rep (a : atom) (q : quant).

Definition regex : Type := list node.

Definition in_range (r : ascii * ascii) (c : ascii) : bool :=
  ((PyStr.code (fst r) <=? PyStr.code c) && (PyStr.code c <=? PyStr.code (snd r)))%N.

(** Without flags [.] matches every character but the newline. *)
Definition atom_ok (a : atom) (c : ascii) : bool :=
  match a with
  | Lit d => Ascii.eqb c d
  | AnyChar => negb (Ascii.eqb c "010")
  | CharSet rs => existsb (fun r => in_range r c) rs
  end.

(** [a*] followed by the continuation [k]. *)
Fixpoint star (k : string -> bool -> bool) (a : atom) (s : string) (bos : bool) : bool :=
  k s bos ||
  match s with
  | String c s' => atom_ok a c && star k a s' false
  | EmptyString => false
  end.

(** Does [r] match at the front of [s]?  [bos] tells whether the front
    of [s] is the beginning of the subject string. *)
Fixpoint match_here (r : regex) (s : string) (bos : bool) : bool :=
  match r with
  | [] => true
  | Caret :: r' => bos && match_here r' s bos
  | Dollar :: r' =>
      (String.eqb s "" || String.eqb s (String "010" "")) && match_here r' s bos
  | Rep a Once :: r' =>
      match s with
      | String c s' => atom_ok a c && match_here r' s' false
      | EmptyString => false
      end
  | Rep a Star :: r' => star (match_here r') a s bos
  | Rep a Plus :: r' =>
      match s with
      | String c s' => atom_ok a c && star (match_here r') a s' false
      | EmptyString => false
      end
  end.

(** [regex.match(s)] as a truth value: a match object or [None]. *)
Definition re_match (r : regex) (s : string) : bool := match_here r s true.

Definition is_alnum (c : ascii) : bool :=
  existsb (fun r => in_range r c) [("a", "z"); ("A", "Z"); ("0", "9")]%char.

(** The atoms [re.compile] reads in a pattern over letters, digits,
    [_], [-] and [.]; any other character is outside the fragment. *)
Definition atom_of_char (c : ascii) : option atom :=
  if Ascii.eqb c "." then Some AnyChar
  else if is_alnum c || Ascii.eqb c "_" || Ascii.eqb c "-" then Some (Lit c)
  else None.

(** [re.compile(p)] on that fragment; [None] is [re.error] (a [*] with
    nothing to repeat) or a pattern outside the fragment. *)
Fixpoint compile (p : string) : option regex :=
  match p with
  | EmptyString => Some []
  | String c p' =>
      match atom_of_char c with
      | None => None
      | Some a =>
          match p' with
          | String "*" p'' => cons (Rep a Star) <$> compile p''
          | _ => cons (Rep a Once) <$> compile p'
          end
      end
  end.

(** [regex.search(s)] as a truth value: a match starting at some
    position of [s]. *)
Fixpoint search_from (r : regex) (s : string) (bos : bool) : bool :=
  match_here r s bos ||
  match s with
  | String _ s' => search_from r s' false
  | EmptyString => false
  end.

Definition search (r : regex) (s : string) : bool := search_from r s true.

End Re.

(** ** Exceptions and results *)

Inductive exn : Type :=
| ValidationError (msg : string)
| TypeError
| AttributeError
| KeyError (key : string)
| ReError
| OSError (what : string).

(** The text of [e] in a log line: the message of a [ValidationError],
    the key of a [KeyError], and the name that stands for the others. *)
Definition exn_str (e : exn) : string :=
  match e with
  | ValidationError msg => msg
  | TypeError => "TypeError"
  | AttributeError => "AttributeError"
  | KeyError key => key
  | ReError => "re.error"
  | OSError what => what
  end.

Inductive res (A : Type) : Type :=
| Ok (a : A)
| Raise (e : exn).
Arguments Ok {A} a.
Arguments Raise {A} e.

(** ** pyestro/core/validation.py *)

Module InputValidator.

Definition name_chars : list (ascii * ascii) :=
  [("a", "z"); ("A", "Z"); ("0", "9"); (".", "."); ("_", "_"); ("-", "-")]%char.

(** [re.compile(r'^[a-zA-Z0-9._-]+$')] *)
Definition NODE_NAME_PATTERN : Re.regex :=
  [Re.Caret; Re.Rep (Re.CharSet name_chars) Re.Plus; Re.Dollar].

(** [r'^[a-zA-Z0-9.*_-]+$'] *)
Definition FILTER_PATTERN : Re.regex :=
  [Re.Caret; Re.Rep (Re.CharSet (name_chars ++ [("*", "*")%char])%list) Re.Plus; Re.Dollar].

Definition sanitize_node_name (node_name : string) : res string :=
  if String.eqb node_name "" then
    Raise (ValidationError "Node name must be a non-empty string")
  else
    let node_name := PyStr.strip node_name in
    if negb (Re.re_match NODE_NAME_PATTERN node_name) then
      Raise (ValidationError ("Invalid node name format: " ++ node_name))
    else if (100 <? String.length node_name)%nat then
      Raise (ValidationError ("Node name too long: " ++ node_name))
    else Ok node_name.

Definition validate_filter_pattern (pattern : string) : res string :=
  let pattern := PyStr.strip pattern in
  if String.eqb pattern "" then
    Raise (ValidationError "Filter pattern cannot be empty")
  else if negb (Re.re_match FILTER_PATTERN pattern) then
    Raise (ValidationError ("Invalid filter pattern: " ++ pattern))
  else Ok pattern.

Definition shell_chars : list (ascii * ascii) :=
  [(";", ";"); ("&", "&"); ("|", "|"); ("`", "`"); ("$", "$");
   ("(", "("); (")", ")"); ("<", "<"); (">", ">")]%char.

(** [re.compile(r'[;&|`$\(\)<>]')] *)
Definition SHELL_BLACKLIST : Re.regex :=
  [Re.Rep (Re.CharSet shell_chars) Re.Once].

Definition sanitize_shell_input (input_str : string) : res string :=
  if Re.search SHELL_BLACKLIST input_str then
    Raise (ValidationError ("Input contains dangerous characters: " ++ input_str))
  else Ok (PyStr.strip input_str).

Definition module_chars : list (ascii * ascii) :=
  [("a", "z"); ("A", "Z"); ("0", "9"); ("_", "_"); (".", ".")]%char.

(** [r'^[a-zA-Z0-9_.]+$'] *)
Definition MODULE_NAME_PATTERN : Re.regex :=
  [Re.Caret; Re.Rep (Re.CharSet module_chars) Re.Plus; Re.Dollar].

Definition validate_ansible_module_name (module_name : string) : res string :=
  if String.eqb module_name "" then
    Raise (ValidationError "Module name must be a non-empty string")
  else
    let module_name := PyStr.strip module_name in
    if negb (Re.re_match MODULE_NAME_PATTERN module_name) then
      Raise (ValidationError ("Invalid Ansible module name: " ++ module_name))
    else Ok module_name.

(** The loop of [sanitize_command_args] over the arguments left, with
    the list [sanitized] built so far. *)
Fixpoint sanitize_args_loop (args sanitized : list string) : res (list string) :=
  match args with
  | [] => Ok sanitized
  | arg :: args' =>
      if Re.search SHELL_BLACKLIST arg then
        Raise (ValidationError ("Argument contains dangerous characters: " ++ arg))
      else sanitize_args_loop args' (sanitized ++ [PyStr.strip arg])%list
  end.

Definition sanitize_command_args (args : list string) : res (list string) :=
  sanitize_args_loop args [].

(** The characters of [invalid_chars]: [<], [>], [:], the double quote,
    [|], [?], [*] and NUL. *)
Definition invalid_chars : list ascii :=
  ["<"; ">"; ":"; "034"; "|"; "?"; "*"; "000"]%char.

Definition reserved_names : list string :=
  ["CON"; "PRN"; "AUX"; "NUL";
   "COM1"; "COM2"; "COM3"; "COM4"; "COM5"; "COM6"; "COM7"; "COM8"; "COM9";
   "LPT1"; "LPT2"; "LPT3"; "LPT4"; "LPT5"; "LPT6"; "LPT7"; "LPT8"; "LPT9"].

Definition validate_path_component (component : string) : bool :=
  if String.eqb component "" then false else
  let component := PyStr.strip component in
  if existsb (fun char => PyStr.contains_char char component) invalid_chars then false
  else if bool_decide (PyStr.upper component ∈ PyStr.codes <$> reserved_names) then false
  else if String.eqb component "." || String.eqb component ".." then false
  else if (255 <? PyStr.utf8_length component)%nat then false
  else true.

End InputValidator.

(** ** Values of [json.loads] and the Python operators used on them *)

#[warnings="-register-all"]
Inductive json : Type :=
| JNull
| JBool (b : bool)
| JNum (z : Z)
| JStr (s : string)
| JList (l : list json)
| JDict (d : list (string * json)).

Module Py.

(** Truth value of an object ([if x], [not x], [x and y]). *)
Definition truthy (v : json) : bool :=
  match v with
  | JNull => false
  | JBool b => b
  | JNum z => negb (z =? 0)%Z
  | JStr s => negb (String.eqb s "")
  | JList l => match l with [] => false | _ => true end
  | JDict d => match d with [] => false | _ => true end
  end.

(** Truth value of an [Optional[str]]. *)
Definition truthy_str (o : option string) : bool :=
  match o with
  | Some s => negb (String.eqb s "")
  | None => false
  end.

(** [v == s] for a string [s]. *)
Definition eq_str (v : json) (s : string) : bool :=
  match v with
  | JStr t => String.eqb t s
  | _ => false
  end.

(** [d[k]] of a dict held as its list of items. *)
Fixpoint lookup (k : string) (d : list (string * json)) : option json :=
  match d with
  | [] => None
  | (k', v) :: d' => if String.eqb k k' then Some v else lookup k d'
  end.

(** [k in v] for a string [k]. *)
Definition contains (k : string) (v : json) : res bool :=
  match v with
  | JDict d => Ok (match lookup k d with Some _ => true | None => false end)
  | JList l => Ok (existsb (fun x => eq_str x k) l)
  | JStr s => Ok (PyStr.substring_of k s)
  | JNull | JBool _ | JNum _ => Raise TypeError
  end.

(** [v[k]] for a string [k]. *)
Definition getitem (v : json) (k : string) : res json :=
  match v with
  | JDict d => match lookup k d with Some x => Ok x | None => Raise (KeyError k) end
  | _ => Raise TypeError
  end.

(** [v.get(k)]; Python's [None] is [JNull]. *)
Definition get (v : json) (k : string) : res json :=
  match v with
  | JDict d => Ok (default JNull (lookup k d))
  | _ => Raise AttributeError
  end.

(** [v.get(k, dflt)] *)
Definition get_default (v : json) (k : string) (dflt : json) : res json :=
  match v with
  | JDict d => Ok (default dflt (lookup k d))
  | _ => Raise AttributeError
  end.

(** [list(v.keys())] *)
Definition keys (v : json) : res (list string) :=
  match v with
  | JDict d => Ok (d.*1)
  | _ => Raise AttributeError
  end.

(** [v.items()] *)
Definition items (v : json) : res (list (string * json)) :=
  match v with
  | JDict d => Ok d
  | _ => Raise AttributeError
  end.

(** [d[k] = v] on the list of items: the value is replaced where the key
    is, or the item is added at the end. *)
Fixpoint setitem (d : list (string * json)) (k : string) (v : json)
    : list (string * json) :=
  match d with
  | [] => [(k, v)]
  | (k', v') :: d' =>
      if String.eqb k k' then (k', v) :: d' else (k', v') :: setitem d' k v
  end.

End Py.

(** ** Paths and the filesystem *)

(** A path is the list of its components below the root. *)
Definition path : Type := list string.

Inductive entry : Type :=
| File (content : string)
| Dir.

Definition fs : Type := gmap path entry.

Module Path.

(** [str(p)] *)
Definition str (p : path) : string :=
  match p with
  | [] => "/"
  | _ => String.concat "" ((fun c => "/" ++ c) <$> p)
  end.

(** [p / name] *)
Definition child (p : path) (name : string) : path := (p ++ [name])%list.

(** [p.parent] *)
Definition parent (p : path) : path := removelast p.

(** [p.name] *)
Definition name (p : path) : string := List.last p "".

(** The root always is a directory. *)
Definition stat (st : fs) (p : path) : option entry :=
  match p with
  | [] => Some Dir
  | _ => st !! p
  end.

Definition exists_ (st : fs) (p : path) : bool :=
  match stat st p with Some _ => true | None => false end.

Definition is_dir (st : fs) (p : path) : bool :=
  match stat st p with Some Dir => true | _ => false end.

Definition is_file (st : fs) (p : path) : bool :=
  match stat st p with Some (File _) => true | _ => false end.

(** [os.mkdir(p)] *)
Definition os_mkdir (st : fs) (p : path) : res fs :=
  match stat st p with
  | Some _ => Raise (OSError "FileExistsError")
  | None =>
      match stat st (parent p) with
      | None => Raise (OSError "FileNotFoundError")
      | Some (File _) => Raise (OSError "NotADirectoryError")
      | Some Dir => Ok (<[p := Dir]> st)
      end
  end.

(** [p.mkdir(exist_ok=True)] *)
Definition mkdir_exist_ok (st : fs) (p : path) : res fs :=
  match os_mkdir st p with
  | Ok st' => Ok st'
  | Raise e => if is_dir st p then Ok st else Raise e
  end.

(** [p.mkdir(parents=True, exist_ok=True)], by recursion on the reversed
    path [rp] as pathlib recurses on [p.parent]. *)
Fixpoint mkdir_parents_rev (st : fs) (rp : list string) : res fs :=
  match rp with
  | [] => Ok st
  | _ :: rparent =>
      let p := rev rp in
      match stat st p with
      | Some Dir => Ok st
      | Some (File _) => Raise (OSError "FileExistsError")
      | None =>
          match stat st (rev rparent) with
          | Some Dir => Ok (<[p := Dir]> st)
          | Some (File _) => Raise (OSError "NotADirectoryError")
          | None =>
              match mkdir_parents_rev st rparent with
              | Ok st' => Ok (<[p := Dir]> st')
              | Raise e => Raise e
              end
          end
      end
  end.

Definition mkdir_parents (st : fs) (p : path) : res fs :=
  mkdir_parents_rev st (rev p).

(** The part of [q] below [p], when [q] is strictly below [p]
    ([q.relative_to(p)] for the results of [p.rglob]). *)
Fixpoint relative_to (q p : path) : option path :=
  match p, q with
  | [], [] => None
  | [], _ => Some q
  | a :: p', b :: q' => if String.eqb a b then relative_to q' p' else None
  | _ :: _, [] => None
  end.

(** Every directory strictly between [p] and [p ++ rel] is a directory:
    the walk from [p] reaches [p ++ rel]. *)
Fixpoint reachable (st : fs) (p : path) (rel : path) : bool :=
  match rel with
  | [] | [_] => true
  | c :: rel' => is_dir st (p ++ [c])%list && reachable st (p ++ [c])%list rel'
  end.

(** [p.rglob("*")] : all entries below [p], with their relative paths,
    as they are when the walk starts.  The order of a directory walk is
    the operating system's. *)
Definition rglob_all (st : fs) (p : path) : list (path * path) :=
  if is_dir st p then
    omap (fun q => match relative_to q p with
                   | Some rel => if reachable st p rel then Some (q, rel) else None
                   | None => None
                   end) (map_to_list st).*1
  else [].

(** [p.rglob("*" + suffix)] : those whose name ends in [suffix]. *)
Definition rglob_suffix (st : fs) (p : path) (suffix : string) : list (path * path) :=
  List.filter (fun qr => PyStr.endswith suffix (name (fst qr))) (rglob_all st p).

(** [PurePath.suffix] : the last dot and what follows it, unless the dot
    is the first or the last character of the name. *)
Fixpoint rfind_dot (s : string) (i : nat) : option nat :=
  match s with
  | EmptyString => None
  | String c s' =>
      match rfind_dot s' (S i) with
      | Some j => Some j
      | None => if Ascii.eqb c "." then Some i else None
      end
  end.

Definition suffix (nm : string) : string :=
  match rfind_dot nm 0 with
  | Some i =>
      if (0 <? i)%nat && (i <? String.length nm - 1)%nat
      then String.substring i (String.length nm - i) nm
      else ""
  | None => ""
  end.

(** [p.with_suffix('')] on the name of [p] (for the empty path pathlib
    raises [ValueError]; the results of [rglob] are not empty). *)
Definition strip_suffix (nm : string) : string :=
  String.substring 0 (String.length nm - String.length (suffix nm)) nm.

Definition with_suffix_empty (p : path) : path :=
  match p with
  | [] => []
  | _ => (removelast p ++ [strip_suffix (name p)])%list
  end.

(** [str] of a relative path. *)
Definition str_rel (p : path) : string := PyStr.join "/" p.

(** [p.unlink()] *)
Definition unlink (st : fs) (p : path) : res fs :=
  match stat st p with
  | Some (File _) => Ok (delete p st)
  | Some Dir => Raise (OSError "IsADirectoryError")
  | None => Raise (OSError "FileNotFoundError")
  end.

(** [q] is [p] or an entry the walk from the directory [p] reaches. *)
Definition in_tree (st : fs) (p q : path) : bool :=
  bool_decide (q = p) ||
  match relative_to q p with
  | Some rel => reachable st p rel
  | None => false
  end.

(** The tree without [p] and without what the walk from [p] reaches. *)
Definition remove_tree (st : fs) (p : path) : fs :=
  filter (fun kv => in_tree st p kv.1 = false) st.

(** [p.with_suffix(suffix)] (CPython 3.8 to 3.13).  pathlib raises
    [ValueError] for a suffix that holds the separator, that does not
    start with a dot or that is a lone dot, and for a path without a name;
    the exception is carried by [OSError] under its own name. *)
Definition with_suffix (p : path) (suffix : string) : res path :=
  if PyStr.contains_char "/" suffix
     || negb (String.eqb suffix "") && negb (PyStr.startswith "." suffix)
     || String.eqb suffix "."
  then Raise (OSError "ValueError")
  else
    let nm := name p in
    if String.eqb nm "" then Raise (OSError "ValueError")
    else Ok (removelast p ++ [(strip_suffix nm ++ suffix)%string])%list.

End Path.

(** ** Computations: filesystem state, exceptions and a trace *)

Inductive event : Type :=
| LogInfo (msg : string)
| LogWarning (msg : string)
| Exec (cmd : list string).

Record out (A : Type) : Type := Out { val : res A; state : fs; trace : list event }.
Arguments Out {A} val state trace.
Arguments val {A} o.
Arguments state {A} o.
Arguments trace {A} o.

Definition M (A : Type) : Type := fs -> out A.

Definition ret {A} (a : A) : M A := fun st => Out (Ok a) st [].

Definition raise {A} (e : exn) : M A := fun st => Out (Raise e) st [].

Definition bind {A B} (m : M A) (f : A -> M B) : M B :=
  fun st =>
    let o := m st in
    match val o with
    | Ok a => let o' := f a (state o) in Out (val o') (state o') (trace o ++ trace o')%list
    | Raise e => Out (Raise e) (state o) (trace o)
    end.

Notation "x <- m ;; k" := (bind m (fun x => k))
  (at level 100, m at next level, right associativity).
Notation "m ;;; k" := (bind m (fun _ => k))
  (at level 100, right associativity).

(** [try: m  except Exception: h] *)
Definition try_except {A} (m : M A) (h : exn -> M A) : M A :=
  fun st =>
    let o := m st in
    match val o with
    | Ok a => o
    | Raise e => let o' := h e (state o) in Out (val o') (state o') (trace o ++ trace o')%list
    end.

Definition emit (e : event) : M unit := fun st => Out (Ok tt) st [e].
Definition log_info (msg : string) : M unit := emit (LogInfo msg).
Definition log_warning (msg : string) : M unit := emit (LogWarning msg).

Definition get_fs : M fs := fun st => Out (Ok st) st [].

(** A filesystem call: it changes the tree or raises and leaves it. *)
Definition fs_call (f : fs -> res fs) : M unit :=
  fun st =>
    match f st with
    | Ok st' => Out (Ok tt) st' []
    | Raise e => Out (Raise e) st []
    end.

Definition lift {A} (r : res A) : M A :=
  match r with
  | Ok a => ret a
  | Raise e => raise e
  end.

(** [for x in l: acc = body(acc, x)] *)
Fixpoint for_each {A B} (l : list A) (acc : B) (body : B -> A -> M B) : M B :=
  match l with
  | [] => ret acc
  | x :: l' => acc' <- body acc x ;; for_each l' acc' body
  end.

(** ** What the program calls outside the repository *)

Inductive completed : Type :=
| CalledProcessError (stderr : string)
| Completed (stdout : string).

Inductive loaded : Type :=
| JSONDecodeError (msg : string)
| Loaded (v : json).

Record World : Type := {
  (** [shutil.which] *)
  which : string -> option string;
  (** The classifier, run on a command line: a query of the inventory on disk. *)
  reclass : list string -> fs -> completed;
  (** rsync, run on a command line. *)
  rsync : list string -> fs -> completed * fs;
  (** [json.loads] *)
  json_loads : string -> loaded
}.

(** [subprocess.run(cmd, capture_output=True, text=True, check=True)] *)
Definition run_reclass (w : World) (cmd : list string) : M completed :=
  fun st => Out (Ok (reclass w cmd st)) st [Exec cmd].

Definition run_rsync (w : World) (cmd : list string) : M completed :=
  fun st => let r := rsync w cmd st in Out (Ok (fst r)) (snd r) [Exec cmd].

(** ** pyestro/core/file_ops.py *)

Module FileManager.

Record t : Type := { dry_run : bool; rsync_path : option string }.

Definition _find_rsync (w : World) : M (option string) :=
  let rsync_path := which w "rsync" in
  (if negb (Py.truthy_str rsync_path)
   then log_warning "rsync executable not found, falling back to Python copy"
   else ret tt) ;;;
  ret rsync_path.

(** [FileManager(dry_run)] *)
Definition init (w : World) (dry_run : bool) : M t :=
  p <- _find_rsync w ;;
  ret {| dry_run := dry_run; rsync_path := p |}.

Definition default_options : string := "-a -m --exclude=.keep".

Definition _rsync_sync (self : t) (w : World) (source destination : path)
    (options : string) : M bool :=
  if negb (Py.truthy_str (rsync_path self)) then ret false else
  let option_list := PyStr.split_ws options in
  let source_str := Path.str source in
  let source_str :=
    if PyStr.endswith "/" source_str then source_str else source_str ++ "/" in
  let cmd := ([default "" (rsync_path self)] ++ option_list
              ++ [source_str; Path.str destination])%list in
  log_info ("Syncing " ++ Path.str source ++ " to " ++ Path.str destination
            ++ " using rsync") ;;;
  if dry_run self then
    log_info ("DRY RUN: Would execute: " ++ PyStr.join " " cmd) ;;;
    ret true
  else
    r <- run_rsync w cmd ;;
    match r with
    | Completed _ =>
        log_info ("Successfully synced " ++ Path.str source ++ " to "
                  ++ Path.str destination) ;;;
        ret true
    | CalledProcessError stderr =>
        log_warning ("rsync failed: " ++ stderr) ;;;
        ret false
    end.

(** [shutil.copy2(src, dst)] *)
Definition copy2 (src dst : path) (st : fs) : res fs :=
  let dst := if Path.is_dir st dst then Path.child dst (Path.name src) else dst in
  match Path.stat st src with
  | Some (File content) =>
      if decide (src = dst) then Raise (OSError "SameFileError") else
      match Path.stat st dst with
      | Some Dir => Raise (OSError "IsADirectoryError")
      | _ =>
          match Path.stat st (Path.parent dst) with
          | Some Dir => Ok (<[dst := File content]> st)
          | Some (File _) => Raise (OSError "NotADirectoryError")
          | None => Raise (OSError "FileNotFoundError")
          end
      end
  | Some Dir => Raise (OSError "IsADirectoryError")
  | None => Raise (OSError "FileNotFoundError")
  end.

(** The body of the copy loop for one [item] of [source.rglob("*")],
    [rel] being [item.relative_to(source)]. *)
Definition copy_item (destination : path) (item rel : path) : M unit :=
  let nm := Path.name item in
  if PyStr.startswith "." nm && bool_decide (nm ∈ [".git"; ".keep"]) then ret tt else
  let dest_path := (destination ++ rel)%list in
  st <- get_fs ;;
  if Path.is_file st item then
    fs_call (fun st => Path.mkdir_parents st (Path.parent dest_path)) ;;;
    fs_call (copy2 item dest_path)
  else if Path.is_dir st item then
    fs_call (fun st => Path.mkdir_parents st dest_path)
  else ret tt.

Definition _python_sync (self : t) (source destination : path) (recursive : bool)
    : M bool :=
  log_info ("Syncing " ++ Path.str source ++ " to " ++ Path.str destination
            ++ " using Python") ;;;
  if dry_run self then
    log_info ("DRY RUN: Would copy " ++ Path.str source ++ " to "
              ++ Path.str destination) ;;;
    ret true
  else
    try_except
      (st <- get_fs ;;
       (if Path.is_file st source then fs_call (copy2 source destination)
        else if Path.is_dir st source && recursive then
          for_each (Path.rglob_all st source) tt
            (fun _ qr => copy_item destination (fst qr) (snd qr))
        else ret tt) ;;;
       log_info ("Successfully synced " ++ Path.str source ++ " to "
                 ++ Path.str destination) ;;;
       ret true)
      (fun e => log_warning ("Python sync failed: " ++ exn_str e) ;;; ret false).

Definition sync_directories (self : t) (w : World) (source destination : path)
    (options : string) (recursive : bool) : M bool :=
  st <- get_fs ;;
  if negb (Path.exists_ st source) then
    log_warning ("Source directory does not exist: " ++ Path.str source) ;;;
    ret false
  else
    fs_call (fun st => Path.mkdir_parents st destination) ;;;
    if Py.truthy_str (rsync_path self)
    then _rsync_sync self w source destination options
    else _python_sync self source destination recursive.

(** [shutil.rmtree(p)].  The root directory itself cannot be removed:
    what it holds is, and then [os.rmdir] raises. *)
Definition rmtree (p : path) : M unit :=
  fun st =>
    match Path.stat st p with
    | Some Dir =>
        match p with
        | [] => Out (Raise (OSError "OSError")) (Path.remove_tree st p) []
        | _ => Out (Ok tt) (Path.remove_tree st p) []
        end
    | Some (File _) => Out (Raise (OSError "NotADirectoryError")) st []
    | None => Out (Raise (OSError "FileNotFoundError")) st []
    end.



Definition default_backup_suffix : string := ".backup".

Definition backup_file (self : t) (file_path : path) (backup_suffix : string) : M bool :=
  st <- get_fs ;;
  if negb (Path.exists_ st file_path) then
    log_warning ("Cannot backup non-existent file: " ++ Path.str file_path) ;;;
    ret false
  else
    backup_path <- lift (Path.with_suffix file_path
                           (Path.suffix (Path.name file_path) ++ backup_suffix)) ;;
    log_info ("Creating backup: " ++ Path.str file_path ++ " -> "
              ++ Path.str backup_path) ;;;
    if dry_run self then
      log_info ("DRY RUN: Would create backup " ++ Path.str backup_path) ;;;
      ret true
    else
      try_except
        (fs_call (copy2 file_path backup_path) ;;; ret true)
        (fun e => log_warning ("Failed to create backup: " ++ exn_str e) ;;; ret false).

Definition ensure_directory (self : t) (dir_path : path) : M bool :=
  st <- get_fs ;;
  if Path.exists_ st dir_path then ret true else
  log_info ("Creating directory: " ++ Path.str dir_path) ;;;
  if dry_run self then
    log_info ("DRY RUN: Would create directory " ++ Path.str dir_path) ;;;
    ret true
  else
    try_except
      (fs_call (fun st => Path.mkdir_parents st dir_path) ;;; ret true)
      (fun e => log_warning ("Failed to create directory " ++ Path.str dir_path
                             ++ ": " ++ exn_str e) ;;;
                ret false).

Definition remove_file (self : t) (file_path : path) : M bool :=
  st <- get_fs ;;
  if negb (Path.exists_ st file_path) then ret true else
  log_info ("Removing file: " ++ Path.str file_path) ;;;
  if dry_run self then
    log_info ("DRY RUN: Would remove file " ++ Path.str file_path) ;;;
    ret true
  else
    try_except
      (fs_call (fun st => Path.unlink st file_path) ;;; ret true)
      (fun e => log_warning ("Failed to remove file " ++ Path.str file_path
                             ++ ": " ++ exn_str e) ;;;
                ret false).

Definition remove_directory (self : t) (dir_path : path) : M bool :=
  st <- get_fs ;;
  if negb (Path.exists_ st dir_path) then ret true else
  log_info ("Removing directory: " ++ Path.str dir_path) ;;;
  if dry_run self then
    log_info ("DRY RUN: Would remove directory " ++ Path.str dir_path) ;;;
    ret true
  else
    try_except
      (rmtree dir_path ;;; ret true)
      (fun e => log_warning ("Failed to remove directory " ++ Path.str dir_path
                             ++ ": " ++ exn_str e) ;;;
                ret false).

End FileManager.

(** ** pyestro/core/reclass.py *)

Module ReclassParser.

Record t : Type := {
  inventory_dir : path;
  dry_run : bool;
  reclass_path : option string
}.

Definition _find_reclass (w : World) : M (option string) :=
  let reclass_path := which w "reclass" in
  (if negb (Py.truthy_str reclass_path)
   then log_warning "reclass executable not found, some functionality will be limited"
   else ret tt) ;;;
  ret reclass_path.

(** [ReclassParser(inventory_dir, dry_run)] *)
Definition init (w : World) (inventory_dir : path) (dry_run : bool) : M t :=
  p <- _find_reclass w ;;
  ret {| inventory_dir := inventory_dir; dry_run := dry_run; reclass_path := p |}.

(** The placeholder of a dry run. *)
Definition dry_node_data : json :=
  JDict [("parameters", JDict []); ("classes", JList []); ("applications", JList [])].

(** The command line of the single-node query. *)
Definition node_cmd (self : t) (node_name : string) : list string :=
  [default "" (reclass_path self); "-b"; Path.str (inventory_dir self);
   "-n"; node_name; "--output-format"; "json"].

Definition get_node_data (self : t) (w : World) (node_name : string)
    : M (option json) :=
  if negb (Py.truthy_str (reclass_path self)) then
    log_warning "reclass not available, cannot get node data" ;;;
    ret None
  else
    match InputValidator.sanitize_node_name node_name with
    | Raise e =>
        log_warning ("Invalid node name: " ++ exn_str e) ;;;
        ret None
    | Ok node_name =>
        let cmd := node_cmd self node_name in
        log_info ("Getting node data for: " ++ node_name) ;;;
        if dry_run self then
          log_info ("DRY RUN: Would execute: " ++ PyStr.join " " cmd) ;;;
          ret (Some dry_node_data)
        else
          r <- run_reclass w cmd ;;
          match r with
          | CalledProcessError stderr =>
              log_warning ("reclass failed for node " ++ node_name ++ ": " ++ stderr) ;;;
              ret None
          | Completed stdout =>
              match json_loads w stdout with
              | JSONDecodeError msg =>
                  log_warning ("Failed to parse reclass output for node "
                               ++ node_name ++ ": " ++ msg) ;;;
                  ret None
              | Loaded v => ret (Some v)
              end
          end
    end.

Definition _scan_nodes_from_filesystem (self : t) : M (list string) :=
  let nodes_dir := Path.child (inventory_dir self) "nodes" in
  st <- get_fs ;;
  if negb (Path.exists_ st nodes_dir) then ret [] else
  nodes <- for_each (Path.rglob_suffix st nodes_dir ".yml") []
             (fun nodes node_file =>
                let rel_path := snd node_file in
                let node_name := Path.str_rel (Path.with_suffix_empty rel_path) in
                ret (nodes ++ [PyStr.replace_char "/" "." node_name])%list) ;;
  ret (PyStr.sorted nodes).

Definition list_nodes (self : t) (w : World) : M (list string) :=
  if negb (Py.truthy_str (reclass_path self)) then
    _scan_nodes_from_filesystem self
  else
    let cmd := [default "" (reclass_path self); "-b"; Path.str (inventory_dir self);
                "--inventory"] in
    log_info "Listing available nodes" ;;;
    if dry_run self then
      log_info ("DRY RUN: Would execute: " ++ PyStr.join " " cmd) ;;;
      ret ["example-node1"; "example-node2"]
    else
      r <- run_reclass w cmd ;;
      match r with
      | CalledProcessError stderr =>
          log_warning ("reclass inventory failed: " ++ stderr) ;;;
          _scan_nodes_from_filesystem self
      | Completed stdout =>
          match json_loads w stdout with
          | JSONDecodeError msg =>
              log_warning ("Failed to parse reclass inventory: " ++ msg) ;;;
              _scan_nodes_from_filesystem self
          | Loaded inventory =>
              nodes_map <- lift (Py.get_default inventory "nodes" (JDict [])) ;;
              nodes <- lift (Py.keys nodes_map) ;;
              ret (PyStr.sorted nodes)
          end
      end.

Definition get_node_parameters (self : t) (w : World) (node_name : string) : M json :=
  node_data <- get_node_data self w node_name ;;
  match node_data with
  | Some d =>
      if Py.truthy d then lift (Py.get_default d "parameters" (JDict []))
      else ret (JDict [])
  | None => ret (JDict [])
  end.

Definition get_node_classes (self : t) (w : World) (node_name : string) : M json :=
  node_data <- get_node_data self w node_name ;;
  match node_data with
  | Some d =>
      if Py.truthy d then lift (Py.get_default d "classes" (JList []))
      else ret (JList [])
  | None => ret (JList [])
  end.

(** The body of the loop over ['nodes', 'classes'] for one [subdir]. *)
Definition merge_subdir (self : t) (w : World) (source_dir target_dir : path)
    (success : bool) (subdir : string) : M bool :=
  let source_subdir := Path.child source_dir subdir in
  let target_subdir := Path.child target_dir subdir in
  st <- get_fs ;;
  if Path.exists_ st source_subdir then
    file_manager <- FileManager.init w (dry_run self) ;;
    result <- FileManager.sync_directories file_manager w source_subdir target_subdir
                FileManager.default_options true ;;
    ret (success && result)
  else ret success.

(** The body of the loop over [source_dirs] for one [source_dir]. *)
Definition merge_source (self : t) (w : World) (target_dir : path)
    (success : bool) (source_dir : path) : M bool :=
  st <- get_fs ;;
  if negb (Path.exists_ st source_dir) then
    log_warning ("Source inventory directory does not exist: " ++ Path.str source_dir) ;;;
    ret success
  else
    for_each ["nodes"; "classes"] success (merge_subdir self w source_dir target_dir).

Definition merge_inventories (self : t) (w : World) (source_dirs : list path)
    (target_dir : path) : M bool :=
  fs_call (fun st => Path.mkdir_parents st target_dir) ;;;
  fs_call (fun st => Path.mkdir_exist_ok st (Path.child target_dir "nodes")) ;;;
  fs_call (fun st => Path.mkdir_exist_ok st (Path.child target_dir "classes")) ;;;
  log_info ("Merging " ++ pretty (List.length source_dirs) ++ " inventory directories into "
            ++ Path.str target_dir) ;;;
  for_each source_dirs true (merge_source self w target_dir).

Definition search_parameter (self : t) (w : World) (parameter_name : string)
    : M (list (string * json)) :=
  nodes <- list_nodes self w ;;
  for_each nodes []
    (fun results node =>
       parameters <- get_node_parameters self w node ;;
       has <- lift (Py.contains parameter_name parameters) ;;
       if has then
         v <- lift (Py.getitem parameters parameter_name) ;;
         ret (Py.setitem results node v)
       else ret results).

(** The loop over [required_dirs] returns at the first directory that
    is missing. *)
Definition validate_inventory (self : t) (w : World) : M bool :=
  st <- get_fs ;;
  if negb (Path.exists_ st (inventory_dir self)) then
    log_warning ("Inventory directory does not exist: " ++ Path.str (inventory_dir self)) ;;;
    ret false
  else
    match List.find (fun dirname =>
                       negb (Path.exists_ st (Path.child (inventory_dir self) dirname)))
                    ["nodes"; "classes"] with
    | Some dirname =>
        log_warning ("Required directory missing: "
                     ++ Path.str (Path.child (inventory_dir self) dirname)) ;;;
        ret false
    | None =>
        nodes <- list_nodes self w ;;
        match nodes with
        | [] =>
            log_warning "No nodes found in inventory" ;;;
            ret false
        | _ =>
            log_info ("Inventory validation passed. Found "
                      ++ pretty (List.length nodes) ++ " nodes.") ;;;
            ret true
        end
    end.

End ReclassParser.

(** ** pyestro/parsers/reclass_parser.py *)

Module ReclassManager.

Record t : Type := {
  inventory_dir : path;
  dry_run : bool;
  reclass_path : option string
}.

Definition _find_reclass (w : World) : M (option string) :=
  let reclass_path := which w "reclass" in
  (if negb (Py.truthy_str reclass_path)
   then log_warning "reclass executable not found in PATH"
   else ret tt) ;;;
  ret reclass_path.

(** [ReclassManager(inventory_dir, dry_run)] *)
Definition init (w : World) (inventory_dir : path) (dry_run : bool) : M t :=
  p <- _find_reclass w ;;
  ret {| inventory_dir := inventory_dir; dry_run := dry_run; reclass_path := p |}.

Definition dry_node_data : json :=
  JDict [("parameters", JDict []); ("classes", JList []); ("applications", JList [])].

Definition dry_inventory_data : json :=
  JDict [("nodes", JDict []); ("classes", JDict [])].

(** The command line of the single-node query. *)
Definition node_cmd (self : t) (node_name : string) : list string :=
  [default "" (reclass_path self); "-b"; Path.str (inventory_dir self);
   "-n"; node_name; "--output"; "json"].

(** The command line of the inventory query. *)
Definition inventory_cmd (self : t) : list string :=
  [default "" (reclass_path self); "-b"; Path.str (inventory_dir self);
   "--inventory"; "--output"; "json"].

Definition get_node_data (self : t) (w : World) (node_name : string)
    : M (option json) :=
  if negb (Py.truthy_str (reclass_path self)) then
    log_warning "reclass not available" ;;;
    ret None
  else
    match InputValidator.sanitize_node_name node_name with
    | Raise (ValidationError msg) =>
        log_warning ("Invalid node name: " ++ msg) ;;;
        ret None
    | Raise e => raise e
    | Ok node_name =>
        let cmd := node_cmd self node_name in
        log_info ("Getting data for node: " ++ node_name) ;;;
        if dry_run self then
          log_info ("DRY RUN: Would execute: " ++ PyStr.join " " cmd) ;;;
          ret (Some dry_node_data)
        else
          r <- run_reclass w cmd ;;
          match r with
          | CalledProcessError stderr =>
              log_warning ("reclass failed for node " ++ node_name ++ ": " ++ stderr) ;;;
              ret None
          | Completed stdout =>
              match json_loads w stdout with
              | JSONDecodeError msg =>
                  log_warning ("Failed to parse reclass output for node "
                               ++ node_name ++ ": " ++ msg) ;;;
                  ret None
              | Loaded v => ret (Some v)
              end
          end
    end.

Definition get_inventory_data (self : t) (w : World) : M (option json) :=
  if negb (Py.truthy_str (reclass_path self)) then
    log_warning "reclass not available" ;;;
    ret None
  else
    let cmd := inventory_cmd self in
    log_info "Getting inventory data" ;;;
    if dry_run self then
      log_info ("DRY RUN: Would execute: " ++ PyStr.join " " cmd) ;;;
      ret (Some dry_inventory_data)
    else
      r <- run_reclass w cmd ;;
      match r with
      | CalledProcessError stderr =>
          log_warning ("reclass inventory failed: " ++ stderr) ;;;
          ret None
      | Completed stdout =>
          match json_loads w stdout with
          | JSONDecodeError msg =>
              log_warning ("Failed to parse reclass inventory output: " ++ msg) ;;;
              ret None
          | Loaded v => ret (Some v)
          end
      end.

(** [data and key in data] for an [Optional] value [data]. *)
Definition present (data : option json) (key : string) : res bool :=
  match data with
  | Some d => if Py.truthy d then Py.contains key d else Ok false
  | None => Ok false
  end.

Definition list_nodes (self : t) (w : World) : M (list string) :=
  inventory_data <- get_inventory_data self w ;;
  has <- lift (present inventory_data "nodes") ;;
  if has then
    nodes <- lift (Py.getitem (default JNull inventory_data) "nodes") ;;
    lift (Py.keys nodes)
  else ret [].

Definition get_node_parameters (self : t) (w : World) (node_name : string) : M json :=
  node_data <- get_node_data self w node_name ;;
  has <- lift (present node_data "parameters") ;;
  if has then lift (Py.getitem (default JNull node_data) "parameters")
  else ret (JDict []).

Definition get_node_classes (self : t) (w : World) (node_name : string) : M json :=
  node_data <- get_node_data self w node_name ;;
  has <- lift (present node_data "classes") ;;
  if has then lift (Py.getitem (default JNull node_data) "classes")
  else ret (JList []).

(** [ "classes" in node_data and class_name in node_data["classes"] ] *)
Definition carries_class (class_name : string) (node_data : json) : res bool :=
  match Py.contains "classes" node_data with
  | Ok true =>
      match Py.getitem node_data "classes" with
      | Ok classes => Py.contains class_name classes
      | Raise e => Raise e
      end
  | Ok false => Ok false
  | Raise e => Raise e
  end.

Definition get_nodes_by_class (self : t) (w : World) (class_name : string)
    : M (list string) :=
  inventory_data <- get_inventory_data self w ;;
  has <- lift (present inventory_data "nodes") ;;
  if negb has then ret [] else
  nodes <- lift (Py.getitem (default JNull inventory_data) "nodes") ;;
  items <- lift (Py.items nodes) ;;
  for_each items []
    (fun matching_nodes item =>
       c <- lift (carries_class class_name (snd item)) ;;
       ret (if c then matching_nodes ++ [fst item] else matching_nodes)%list).

(** The three stages of [filter_nodes], each on the running candidate
    set ([filtered_nodes], a Python [set]). *)

Definition apply_node_filter (node_filter : option string)
    (filtered_nodes : gset string) : M (gset string) :=
  if Py.truthy_str node_filter then
    match InputValidator.validate_filter_pattern (default "" node_filter) with
    | Ok node_filter =>
        if PyStr.contains_char "*" node_filter then
          let pattern := PyStr.replace_char "*" ".*" node_filter in
          match Re.compile pattern with
          | Some regex =>
              ret (filter (fun n => Re.re_match regex n = true) filtered_nodes)
          | None => raise ReError
          end
        else ret (filter (fun n => n = node_filter) filtered_nodes)
    | Raise (ValidationError msg) =>
        log_warning ("Invalid node filter: " ++ msg) ;;;
        ret filtered_nodes
    | Raise e => raise e
    end
  else ret filtered_nodes.

Definition apply_class_filter (self : t) (w : World) (class_filter : option string)
    (filtered_nodes : gset string) : M (gset string) :=
  if Py.truthy_str class_filter then
    match InputValidator.validate_filter_pattern (default "" class_filter) with
    | Ok class_filter =>
        l <- get_nodes_by_class self w class_filter ;;
        let nodes_with_class : gset string := list_to_set l in
        ret (filtered_nodes ∩ nodes_with_class)
    | Raise (ValidationError msg) =>
        log_warning ("Invalid class filter: " ++ msg) ;;;
        ret filtered_nodes
    | Raise e => raise e
    end
  else ret filtered_nodes.

(** The iteration order of a Python set is unspecified; the loop over
    [filtered_nodes] runs in the order of [elements]. *)
Definition apply_project_filter (self : t) (w : World) (project_filter : option string)
    (filtered_nodes : gset string) : M (gset string) :=
  if Py.truthy_str project_filter then
    match InputValidator.validate_filter_pattern (default "" project_filter) with
    | Ok project_filter =>
        for_each (elements filtered_nodes) (∅ : gset string)
          (fun project_nodes node =>
             params <- get_node_parameters self w node ;;
             v <- lift (Py.get params "project") ;;
             ret (if Py.eq_str v project_filter
                  then project_nodes ∪ {[node]} else project_nodes))
    | Raise (ValidationError msg) =>
        log_warning ("Invalid project filter: " ++ msg) ;;;
        ret filtered_nodes
    | Raise e => raise e
    end
  else ret filtered_nodes.

Definition filter_nodes (self : t) (w : World)
    (node_filter class_filter project_filter : option string) : M (list string) :=
  all_nodes <- list_nodes self w ;;
  if negb (Py.truthy_str node_filter || Py.truthy_str class_filter
           || Py.truthy_str project_filter)
  then ret all_nodes
  else
    let filtered_nodes : gset string := list_to_set all_nodes in
    filtered_nodes <- apply_node_filter node_filter filtered_nodes ;;
    filtered_nodes <- apply_class_filter self w class_filter filtered_nodes ;;
    filtered_nodes <- apply_project_filter self w project_filter filtered_nodes ;;
    ret (PyStr.sorted (elements filtered_nodes)).

Definition list_classes (self : t) (w : World) : M (list string) :=
  inventory_data <- get_inventory_data self w ;;
  has <- lift (present inventory_data "classes") ;;
  if has then
    classes <- lift (Py.getitem (default JNull inventory_data) "classes") ;;
    lift (Py.keys classes)
  else ret [].

(** The loop of [search_parameter] over [path_parts]: it goes down one
    mapping for each part and ends with [None] where a part is not a key
    of a mapping.  ([None] is [JNull].) *)
Fixpoint navigate (path_parts : list string) (current : json) : json :=
  match path_parts with
  | [] => current
  | part :: rest =>
      match current with
      | JDict d =>
          match Py.lookup part d with
          | Some v => navigate rest v
          | None => JNull
          end
      | _ => JNull
      end
  end.

(** The navigation tests [isinstance(current, dict)] before it
    subscripts, so the [except (KeyError, TypeError)] around it catches
    nothing. *)
Definition search_parameter (self : t) (w : World) (parameter_path : string)
    : M (list (string * json)) :=
  inventory_data <- get_inventory_data self w ;;
  has <- lift (present inventory_data "nodes") ;;
  if negb has then ret [] else
  let path_parts := PyStr.split_char ":" parameter_path in
  nodes <- lift (Py.getitem (default JNull inventory_data) "nodes") ;;
  items <- lift (Py.items nodes) ;;
  for_each items []
    (fun results item =>
       has_parameters <- lift (Py.contains "parameters" (snd item)) ;;
       if negb has_parameters then ret results else
       current <- lift (Py.getitem (snd item) "parameters") ;;
       let current := navigate path_parts current in
       ret (match current with
            | JNull => results
            | _ => Py.setitem results (fst item) current
            end)).

Definition validate_inventory (self : t) (w : World) : M (list string) :=
  st <- get_fs ;;
  if negb (Path.exists_ st (inventory_dir self)) then
    ret ["Inventory directory does not exist: " ++ Path.str (inventory_dir self)]
  else if negb (Py.truthy_str (reclass_path self)) then
    ret ["reclass executable not found"]
  else
    inventory_data <- get_inventory_data self w ;;
    let errors :=
      match inventory_data with
      | None | Some JNull => ["Failed to load inventory data from reclass"]
      | Some _ => []
      end in
    st <- get_fs ;;
    for_each ["nodes"; "classes"] errors
      (fun errors dir_name =>
         let dir_path := Path.child (inventory_dir self) dir_name in
         if negb (Path.exists_ st dir_path)
         then ret (errors ++ [("Required directory missing: " ++ Path.str dir_path)%string])%list
         else ret errors).

End ReclassManager.

(** ** pyestro/core/templates.py *)

Module TemplateEngine.

Definition validate_project_name (name : string) : bool :=
  if String.eqb name "" then false
  else if negb (InputValidator.validate_path_component name) then false
  else if PyStr.startswith "." name || PyStr.startswith "-" name then false
  else if (100 <? String.length name)%nat then false
  else true.

End TemplateEngine.

(** * Vocabulary of the specification *)

(** ** The naming grammar: letters, digits, dot, hyphen, underscore;
       non-empty; at most 100 characters *)

Fixpoint str_forall (p : ascii -> bool) (s : string) : bool :=
  match s with
  | EmptyString => true
  | String c s' => p c && str_forall p s'
  end.

Definition name_char (c : ascii) : bool :=
  existsb (fun r => Re.in_range r c) InputValidator.name_chars.

Definition filter_char (c : ascii) : bool :=
  name_char c || Ascii.eqb c "*".

Definition node_name_grammar (s : string) : bool :=
  negb (String.eqb s "") && str_forall name_char s && (String.length s <=? 100)%nat.

Definition filter_grammar (s : string) : bool :=
  negb (String.eqb s "") && str_forall filter_char s.

(** ** Documents of the classifier, as the interface describes them *)

Definition is_dict (v : json) : bool :=
  match v with JDict _ => true | _ => false end.

Definition is_list (v : json) : bool :=
  match v with JList _ => true | _ => false end.

(** The value under [key], when there is one, satisfies [p]. *)
Definition field (key : string) (p : json -> bool) (d : list (string * json)) : bool :=
  match Py.lookup key d with
  | Some v => p v
  | None => true
  end.

(** A single-node document: a mapping whose [classes] is a list and whose
    [parameters] is a mapping. *)
Definition node_document (v : json) : bool :=
  match v with
  | JDict d => field "classes" is_list d && field "parameters" is_dict d
  | _ => false
  end.

(** An inventory document: a mapping whose [nodes] maps each node name to
    a node document. *)
Definition inventory_document (v : json) : bool :=
  match v with
  | JDict d =>
      field "nodes"
        (fun ns => match ns with
                   | JDict es => forallb (fun e => node_document (snd e)) es
                   | _ => false
                   end) d
  | _ => false
  end.

(** No mapping inside [v] has a key twice, as in every value that
    [json.loads] returns. *)
Fixpoint unique_keys (v : json) : bool :=
  match v with
  | JDict d => bool_decide (NoDup d.*1) && forallb (fun e => unique_keys e.2) d
  | JList l => forallb unique_keys l
  | _ => true
  end.

(** [json.loads] of [w] returns such values only. *)
Definition loads_unique (w : World) : Prop :=
  forall s v, json_loads w s = Loaded v -> unique_keys v = true.

(** Strictly ascending in Python's order on strings. *)
Definition strictly_sorted (l : list string) : Prop :=
  StronglySorted (strict String.le) l.

(** The sorted, duplicate-free list of the names in [l]. *)
Definition normalise (l : list string) : list string :=
  PyStr.sorted (elements (list_to_set l : gset string)).

Definition res_map {A B} (f : A -> B) (r : res A) : res B :=
  match r with
  | Ok a => Ok (f a)
  | Raise e => Raise e
  end.

(** No command was executed. *)
Definition no_exec (tr : list event) : Prop :=
  forall cmd, Exec cmd ∉ tr.

(** Whenever the classifier answers [cmd] with a parseable document, the
    document satisfies [p]. *)
Definition answers_with (w : World) (cmd : list string) (p : json -> bool) : Prop :=
  forall st stdout v,
    reclass w cmd st = Completed stdout -> json_loads w stdout = Loaded v -> p v = true.


(** The document a single-node query is answered with: the classifier is
    installed, the name without surrounding blanks is in the grammar, the
    run is no dry run, the classifier completes and its output parses. *)
Definition node_answer (reclass_path : option string) (dry_run : bool) (w : World)
    (cmd : string -> list string) (name : string) (st : fs) : option json :=
  if Py.truthy_str reclass_path && node_name_grammar (PyStr.strip name) && negb dry_run then
    match reclass w (cmd (PyStr.strip name)) st with
    | Completed stdout =>
        match json_loads w stdout with
        | Loaded v => Some v
        | JSONDecodeError _ => None
        end
    | CalledProcessError _ => None
    end
  else None.


(** The classifier answers the queries of [self] with documents of the
    documented shape. *)
Definition documented (self : ReclassManager.t) (w : World) : Prop :=
  answers_with w (ReclassManager.inventory_cmd self) inventory_document /\
  forall n, answers_with w (ReclassManager.node_cmd self n) node_document.

(** The items of the [nodes] mapping of the inventory, in the order the
    classifier lists them. *)
Definition inventory_nodes (self : ReclassManager.t) (w : World) (st : fs)
    : list (string * json) :=
  match val (ReclassManager.get_inventory_data self w st) with
  | Ok (Some (JDict d)) =>
      match Py.lookup "nodes" d with
      | Some (JDict ns) => ns
      | _ => []
      end
  | _ => []
  end.

(** The [classes] sequence of a node entry. *)
Definition node_classes (node_data : json) : list json :=
  match node_data with
  | JDict d =>
      match Py.lookup "classes" d with
      | Some (JList cs) => cs
      | _ => []
      end
  | _ => []
  end.

(** The entries the classifier lists: the items of the [nodes] mapping of
    its answer to the inventory query, in its order.  Nothing is listed
    without the classifier, in a dry run, when the classifier fails or when
    its output does not parse. *)
Definition listed (self : ReclassManager.t) (w : World) (st : fs)
    : list (string * json) :=
  if Py.truthy_str (ReclassManager.reclass_path self) && negb (ReclassManager.dry_run self)
  then
    match reclass w (ReclassManager.inventory_cmd self) st with
    | Completed stdout =>
        match json_loads w stdout with
        | Loaded (JDict d) =>
            match Py.lookup "nodes" d with
            | Some (JDict ns) => ns
            | _ => []
            end
        | _ => []
        end
    | CalledProcessError _ => []
    end
  else [].

(** Node [n] is listed with [class_name] among its classes. *)
Definition carries (self : ReclassManager.t) (w : World) (st : fs)
    (n class_name : string) : Prop :=
  exists node_data,
    (n, node_data) ∈ listed self w st /\ JStr class_name ∈ node_classes node_data.

(** The parameters the classifier resolves for the node named [n]: the
    [parameters] mapping of its answer to the single-node query. *)
Definition node_parameters (self : ReclassManager.t) (w : World) (st : fs) (n : string)
    : option (list (string * json)) :=
  match reclass w (ReclassManager.node_cmd self n) st with
  | Completed stdout =>
      match json_loads w stdout with
      | Loaded (JDict d) =>
          match Py.lookup "parameters" d with
          | Some (JDict ps) => Some ps
          | _ => None
          end
      | _ => None
      end
  | CalledProcessError _ => None
  end.

(** The parameters of node [n] have the top-level key [project] with the
    value [project_name]. *)
Definition in_project (self : ReclassManager.t) (w : World) (st : fs)
    (n project_name : string) : Prop :=
  exists ps,
    node_parameters self w st n = Some ps /\
    Py.lookup "project" ps = Some (JStr project_name).

(** A filter that is given: not [None] and not the empty string. *)
Definition any_filter (node_filter class_filter project_filter : option string) : bool :=
  Py.truthy_str node_filter || Py.truthy_str class_filter || Py.truthy_str project_filter.

(** The value a filter works with: the given value without surrounding
    blanks.  A filter that is absent, empty or outside the filter grammar
    has none, and filters nothing. *)
Definition effective (filter_value : option string) : option string :=
  match filter_value with
  | Some s =>
      if negb (String.eqb s "") && filter_grammar (PyStr.strip s) then Some (PyStr.strip s)
      else None
  | None => None
  end.

(** ** The stages of the filtering orchestrator as set operations *)

Definition class_member (class_name : string) (node_data : json) : bool :=
  existsb (fun x => Py.eq_str x class_name) (node_classes node_data).

Definition project_is (self : ReclassManager.t) (w : World) (st : fs)
    (n project_name : string) : bool :=
  match val (ReclassManager.get_node_parameters self w n st) with
  | Ok (JDict ps) => Py.eq_str (default JNull (Py.lookup "project" ps)) project_name
  | _ => false
  end.

(** A stage narrows the candidates by [keep] when its filter is given and
    valid, and passes them through otherwise. *)
Definition stage (filter_value : option string) (keep : string -> gset string -> gset string)
    (candidates : gset string) : gset string :=
  if Py.truthy_str filter_value then
    match InputValidator.validate_filter_pattern (default "" filter_value) with
    | Ok q => keep q candidates
    | Raise _ => candidates
    end
  else candidates.

Definition keep_name (q : string) (candidates : gset string) : gset string :=
  if PyStr.contains_char "*" q then
    match Re.compile (PyStr.replace_char "*" ".*" q) with
    | Some regex => filter (fun n => Re.re_match regex n = true) candidates
    | None => candidates
    end
  else filter (fun n => n = q) candidates.

Definition keep_class (self : ReclassManager.t) (w : World) (st : fs)
    (q : string) (candidates : gset string) : gset string :=
  candidates ∩
  list_to_set (fst <$> List.filter (fun e => class_member q (snd e)) (inventory_nodes self w st)).

Definition keep_project (self : ReclassManager.t) (w : World) (st : fs)
    (q : string) (candidates : gset string) : gset string :=
  filter (fun n => project_is self w st n q = true) candidates.

(** The outcome of a filtering run in which one filter was invalid,
    against the run with that filter left out: the same result when
    another filter is given ([others]), its sorted duplicate-free form when
    none is; the warning is logged; no exception given a documented
    classifier. *)
Definition skipped (self : ReclassManager.t) (w : World) (st : fs)
    (with_invalid omitted : M (list string)) (others : bool) (warning : string) : Prop :=
  val (with_invalid st) =
    (if others then val (omitted st) else res_map normalise (val (omitted st))) /\
  (forall l, val (with_invalid st) = Ok l -> LogWarning warning ∈ trace (with_invalid st)) /\
  (documented self w -> exists l, val (with_invalid st) = Ok l).

(** ** Wildcard patterns as the specification reads them *)

(** [k] holds of [n] or of what is left of [n] after dropping some
    characters: a [*] followed by [k]. *)
Fixpoint skip (k : string -> bool) (n : string) : bool :=
  k n ||
  match n with
  | String _ n' => skip k n'
  | EmptyString => false
  end.

(** The start of [n] matches [p], each [*] of [p] standing for any
    sequence of characters and every other character for itself. *)
Fixpoint glob_prefix (p n : string) : bool :=
  match p with
  | EmptyString => true
  | String c p' =>
      if Ascii.eqb c "*" then skip (glob_prefix p') n
      else match n with
           | String d n' => Ascii.eqb c d && glob_prefix p' n'
           | EmptyString => false
           end
  end.

(** The regular expression [re.compile] reads in a validated filter after
    the replacement of [*] by [.*]. *)
Fixpoint translate (q : string) : Re.regex :=
  match q with
  | EmptyString => []
  | String c q' =>
      (if Ascii.eqb c "*" then Re.Rep Re.AnyChar Re.Star
       else if Ascii.eqb c "." then Re.Rep Re.AnyChar Re.Once
       else Re.Rep (Re.Lit c) Re.Once) :: translate q'
  end.

(** ** Node names of the filesystem scan *)

Definition no_separator (component : string) : Prop :=
  PyStr.contains_char "/" component = false.

(** No component of a path of the tree contains the separator. *)
Definition wf_fs (st : fs) : Prop :=
  map_Forall (fun p _ => Forall no_separator p) st.

(** The node name of a file at the relative path [rel]: the components of
    [rel], the extension of the last one stripped, joined by dots. *)
Definition dotted_name (rel : path) : string :=
  PyStr.join "." (removelast rel ++ [Path.strip_suffix (List.last rel "")])%list.

(** What the scan discovers: the entries below [nodes/] whose name ends in
    [.yml], with their paths relative to [nodes/]. *)
Definition discovered (inventory_dir : path) (st : fs) : list (path * path) :=
  let nodes_dir := Path.child inventory_dir "nodes" in
  if Path.exists_ st nodes_dir then Path.rglob_suffix st nodes_dir ".yml" else [].

(** An inventory tree with two node files, one in a subdirectory, and a
    file that is not a node file. *)
Definition scanned_tree : fs :=
  <[ ["srv"; "inventory"; "nodes"; "web"; "w1.prod.yml"] := File "classes: [web]" ]>
  (<[ ["srv"; "inventory"; "nodes"; "web"] := Dir ]>
  (<[ ["srv"; "inventory"; "nodes"; "db.yml"] := File "classes: [db]" ]>
  (<[ ["srv"; "inventory"; "nodes"; "README.md"] := File "" ]>
  (<[ ["srv"; "inventory"; "nodes"] := Dir ]>
  (<[ ["srv"; "inventory"] := Dir ]>
  (<[ ["srv"] := Dir ]> ∅)))))).

Definition offline_parser : ReclassParser.t :=
  {| ReclassParser.inventory_dir := ["srv"; "inventory"];
     ReclassParser.dry_run := false;
     ReclassParser.reclass_path := None |}.

(** ** Merging: what is kept of the tree, and what a best-effort merge is *)

(** Every directory of [st] is a directory of [st']. *)
Definition dirs_kept (st st' : fs) : Prop :=
  forall p, Path.is_dir st p = true -> Path.is_dir st' p = true.

(** [st] and [st'] have the same files with the same contents. *)
Definition same_files (st st' : fs) : Prop :=
  forall p content, Path.stat st' p = Some (File content) <-> Path.stat st p = Some (File content).

(** rsync removes no directory. *)
Definition rsync_keeps_dirs (w : World) : Prop :=
  forall cmd st, dirs_kept st (snd (rsync w cmd st)).

(** The three directory creations that open [merge_inventories]. *)
Definition prepare_target (target_dir : path) (st : fs) : res fs :=
  match Path.mkdir_parents st target_dir with
  | Ok st1 =>
      match Path.mkdir_exist_ok st1 (Path.child target_dir "nodes") with
      | Ok st2 => Path.mkdir_exist_ok st2 (Path.child target_dir "classes")
      | Raise e => Raise e
      end
  | Raise e => Raise e
  end.

(** Whether the three creations succeed, and the tree they leave. *)
Definition can_prepare (target_dir : path) (st : fs) : bool :=
  match prepare_target target_dir st with
  | Ok _ => true
  | Raise _ => false
  end.

Definition prepared (target_dir : path) (st : fs) : fs :=
  match prepare_target target_dir st with
  | Ok st' => st'
  | Raise _ => st
  end.













Definition out_map {A B} (f : A -> B) (o : out A) : out B :=
  Out (res_map f (val o)) (state o) (trace o).

(** A computation that leaves the filesystem as it found it. *)
Definition readonly {A} (m : M A) : Prop := forall st, state (m st) = st.

(** A computation that removes no directory. *)
Definition keeps_dirs {A} (m : M A) : Prop := forall st, dirs_kept st (state (m st)).

(** ** Characters the shell gives a meaning to *)

Definition shell_char (c : ascii) : bool :=
  existsb (Ascii.eqb c) [";"; "&"; "|"; "`"; "$"; "("; ")"; "<"; ">"]%char.

(** No character of [s] is one of them. *)
Definition shell_safe (s : string) : bool :=
  str_forall (fun c => negb (shell_char c)) s.

(** Letters, digits, underscore and dot. *)
Definition module_char (c : ascii) : bool :=
  Re.is_alnum c || Ascii.eqb c "_" || Ascii.eqb c ".".

Definition module_name_grammar (s : string) : bool :=
  negb (String.eqb s "") && str_forall module_char s.

(** The first character, if there is one, is no blank. *)
Definition starts_clean (s : string) : bool :=
  match s with
  | String c _ => negb (PyStr.isspace c)
  | EmptyString => true
  end.

(** ** Trees *)

(** A tree: every entry lies in a directory. *)
Definition closed_tree (st : fs) : Prop :=
  map_Forall (fun q _ => Path.is_dir st (Path.parent q) = true) st.

(** No component of [p] is [..]: the entry [p] names is found by looking
    [p] up as it is written. *)
Definition plain (p : path) : Prop := ".." ∉ p.

(** A file manager that really copies, with and without rsync. *)
Definition python_file_manager : FileManager.t :=
  {| FileManager.dry_run := false; FileManager.rsync_path := None |}.

(** The name of a directory entry: not empty and without separator. *)
Definition component (nm : string) : bool :=
  negb (String.eqb nm "") && negb (PyStr.contains_char "/" nm).

(** A backup suffix pathlib accepts after any name: it starts with a dot,
    is more than the dot and holds no separator. *)
Definition backup_suffix_ok (suffix : string) : bool :=
  PyStr.startswith "." suffix && negb (String.eqb suffix ".")
  && negb (PyStr.contains_char "/" suffix).

(** The sibling of [p] whose name is the whole name of [p] followed by
    [suffix]. *)
Definition backup_path (p : path) (suffix : string) : path :=
  (Path.parent p ++ [(Path.name p ++ suffix)%string])%list.

(** A tree with a configuration file. *)
Definition config_tree : fs :=
  <[ ["srv"; "pyestro.json"] := File "{}" ]> (<[ ["srv"] := Dir ]> ∅).


(** Nothing of [st] is removed, and what does not lie at or below [d]
    is in [st'] as it is in [st]. *)
Definition grows_below (d : path) (st st' : fs) : Prop :=
  (forall p, Path.exists_ st p = true -> Path.exists_ st' p = true) /\
  (forall p, ~ d `prefix_of` p -> Path.exists_ st p = true -> Path.stat st' p = Path.stat st p).

(** A computation that only adds to the tree, and changes existing
    entries at or below [d] only. *)
Definition adds_below {A} (d : path) (m : M A) : Prop :=
  forall st, grows_below d st (state (m st)).

(** ** What the Python copy carries over *)

(** Neither path lies at or below the other. *)
Definition apart (p q : path) : Prop :=
  ~ p `prefix_of` q /\ ~ q `prefix_of` p.

(** The names the copy loop does not pass over. *)
Definition copied_name (nm : string) : bool :=
  negb (String.eqb nm ".git" || String.eqb nm ".keep").

(** Where [source] has a file [destination] has no directory, and where
    [source] has a directory [destination] has no file. *)
Definition compatible (st : fs) (source destination : path) : Prop :=
  forall rel, rel <> [] ->
    match Path.stat st (source ++ rel)%list with
    | Some (File _) => Path.is_dir st (destination ++ rel)%list = false
    | Some Dir => Path.is_file st (destination ++ rel)%list = false
    | None => True
    end.

(** From [s] to [s'] entries changed only below [destination], each to
    what [st] has at the same place below [source]; a file was only
    written for a file with a copied name, a directory was only made
    where nothing was. *)
Definition mirrors (st : fs) (source destination : path) (s s' : fs) : Prop :=
  forall x,
    Path.stat s' x = Path.stat s x \/
    exists r, r <> [] /\ x = (destination ++ r)%list /\
      Path.stat s' x = Path.stat st (source ++ r)%list /\
      match Path.stat st (source ++ r)%list with
      | Some (File _) => copied_name (Path.name (source ++ r)%list) = true
      | Some Dir => Path.stat s x = None
      | None => False
      end.

(** A source tree with a node file, a [.keep] marker and a [.git]
    directory, and an empty directory to copy to. *)
Definition checkout_tree : fs :=
  <[ ["repo"; ".git"; "config"] := File "[core]" ]>
  (<[ ["repo"; ".git"] := Dir ]>
  (<[ ["repo"; "nodes"; "x.yml"] := File "classes: [web]" ]>
  (<[ ["repo"; "nodes"; ".keep"] := File "" ]>
  (<[ ["repo"; "nodes"] := Dir ]>
  (<[ ["repo"] := Dir ]>
  (<[ ["merged"] := Dir ]> ∅)))))).

(** A filter value that is [given] or left out. *)
Definition weaker (filter_value given : option string) : Prop :=
  filter_value = given \/ filter_value = None.

(** A computation that returns [a], leaves the tree as it is and runs no
    command. *)
Definition quiet {A} (m : M A) (a : A) : Prop :=
  forall st, exists tr, m st = Out (Ok a) st tr /\ no_exec tr.

(** The value at the nested keys [parts] of [v]: each key but the last
    leads to a mapping. *)
Fixpoint dig (parts : list string) (v : json) : option json :=
  match parts with
  | [] => Some v
  | key :: rest =>
      match v with
      | JDict d =>
          match Py.lookup key d with
          | Some x => dig rest x
          | None => None
          end
      | _ => None
      end
  end.

Definition no_colon (part : string) : Prop :=
  PyStr.contains_char ":" part = false.

(** A node whose parameters nest a value two keys deep, one whose value
    there is null, and one without the first key. *)
Definition nested_nodes : list (string * json) :=
  [("n1", JDict [("classes", JList []);
                 ("parameters", JDict [("app", JDict [("port", JNum 8080)])])]);
   ("n2", JDict [("classes", JList []);
                 ("parameters", JDict [("app", JDict [("port", JNull)])])]);
   ("n3", JDict [("classes", JList []); ("parameters", JDict [])])].

(** Every command the computation runs satisfies [allowed]. *)
Definition runs_only {A} (allowed : list string -> Prop) (m : M A) : Prop :=
  forall st cmd, Exec cmd ∈ trace (m st) -> allowed cmd.

(** The command lines of [self]: the inventory query, and the query of a
    node whose name is in the naming grammar. *)
Definition manager_query (self : ReclassManager.t) (cmd : list string) : Prop :=
  cmd = ReclassManager.inventory_cmd self \/
  exists n, node_name_grammar n = true /\ cmd = ReclassManager.node_cmd self n.



(** ** Names of devices *)

(** The letters [a]-[z] moved to [A]-[Z], every other character kept. *)
Definition ascii_upper_char (c : ascii) : ascii :=
  let n := PyStr.code c in
  if ((97 <=? n) && (n <=? 122))%N then ascii_of_N (n - 32) else c.

Fixpoint ascii_upper (s : string) : string :=
  match s with
  | String c s' => String (ascii_upper_char c) (ascii_upper s')
  | EmptyString => EmptyString
  end.

(** A capital letter or a digit. *)
Definition capital_or_digit (c : ascii) : bool :=
  existsb (fun r => Re.in_range r c) [("A", "Z"); ("0", "9")]%char.

(** ** A classifier given by a table of its answers *)

Fixpoint strip_prefix (p s : string) : option string :=
  match p, s with
  | EmptyString, _ => Some s
  | String a p', String b s' => if Ascii.eqb a b then strip_prefix p' s' else None
  | String _ _, EmptyString => None
  end.

(** The classifier answers the inventory query with [inventory] and the
    query for a node of [node_docs] with its document; it fails for any
    other node.  Its output is the name of the document, which [json_loads]
    resolves. *)
Definition table_world (inventory : json) (node_docs : list (string * json)) : World :=
  {| which := fun prog => Some ("/usr/bin/" ++ prog);
     reclass := fun cmd _ =>
       match cmd with
       | _ :: _ :: _ :: flag :: rest =>
           if String.eqb flag "--inventory" then Completed "inventory"
           else if String.eqb flag "-n" then
             match rest with
             | n :: _ =>
                 match Py.lookup n node_docs with
                 | Some _ => Completed ("node " ++ n)
                 | None => CalledProcessError ("Node " ++ n ++ " not found")
                 end
             | [] => CalledProcessError "usage"
             end
           else CalledProcessError "usage"
       | _ => CalledProcessError "usage"
       end;
     rsync := fun _ st => (Completed "", st);
     json_loads := fun out =>
       if String.eqb out "inventory" then Loaded inventory
       else match strip_prefix "node " out with
            | Some n =>
                match Py.lookup n node_docs with
                | Some d => Loaded d
                | None => JSONDecodeError "Expecting value"
                end
            | None => JSONDecodeError "Expecting value"
            end |}.

Definition node_doc (classes : list string) (project : string) : json :=
  JDict [("classes", JList (JStr <$> classes));
         ("parameters", JDict [("project", JStr project)]);
         ("applications", JList [])].

Definition inventory_of (node_docs : list (string * json)) : json :=
  JDict [("nodes", JDict node_docs); ("classes", JDict [])].

Definition fleet_world (node_docs : list (string * json)) : World :=
  table_world (inventory_of node_docs) node_docs.

(** The three nodes of the filter-precedence example, listed by the
    classifier in the order a3, a1, a2. *)
Definition three_nodes : list (string * json) :=
  [("a3", node_doc ["web"] "p2"); ("a1", node_doc ["web"] "p1");
   ("a2", node_doc ["db"] "p1")].

(** Two nodes whose names differ in the character a dot of a pattern
    falls on. *)
Definition dotted_nodes : list (string * json) :=
  [("webX01", node_doc ["web"] "p1"); ("web.01", node_doc ["web"] "p1");
   ("db.01", node_doc ["db"] "p1")].

Definition web_nodes : list (string * json) :=
  [("web-02", node_doc ["web"] "p1"); ("db-01", node_doc ["db"] "p1");
   ("web-01", node_doc ["web"] "p1"); ("web-010", node_doc ["web"] "p1")].

(** A tree with one inventory source, [repo-b]; [repo-a] and the target
    [merged] do not exist. *)
Definition source_tree : fs :=
  <[ ["repo-b"; "nodes"; "x.yml"] := File "classes: [web]" ]>
  (<[ ["repo-b"; "nodes"] := Dir ]>
  (<[ ["repo-b"] := Dir ]> ∅)).


Definition dry_parser : ReclassParser.t :=
  {| ReclassParser.inventory_dir := ["merged"];
     ReclassParser.dry_run := true;
     ReclassParser.reclass_path := Some "/usr/bin/reclass" |}.

Definition dry_file_manager : FileManager.t :=
  {| FileManager.dry_run := true; FileManager.rsync_path := Some "/usr/bin/rsync" |}.

Definition live_manager : ReclassManager.t :=
  {| ReclassManager.inventory_dir := ["srv"; "inventory"];
     ReclassManager.dry_run := false;
     ReclassManager.reclass_path := Some "/usr/bin/reclass" |}.



(** A classifier that lists a node whose name holds a blank. *)
Definition spaced_nodes : list (string * json) :=
  [("a 1", node_doc ["web"] "p1"); ("a2", node_doc ["db"] "p1")].


(** * Proofs *)

(** ** Validation on examples *)

Example sanitize_ok : InputValidator.sanitize_node_name "web-01.example" = Ok "web-01.example".
Proof. reflexivity. Qed.

Example sanitize_strips : InputValidator.sanitize_node_name " web-01 " = Ok "web-01".
Proof. reflexivity. Qed.

Example sanitize_rejects_star :
  InputValidator.sanitize_node_name "web-*" = Raise (ValidationError "Invalid node name format: web-*").
Proof. reflexivity. Qed.

Example filter_pattern_ok : InputValidator.validate_filter_pattern "web-*" = Ok "web-*".
Proof. reflexivity. Qed.

Example filter_pattern_shell :
  InputValidator.validate_filter_pattern "web;rm" = Raise (ValidationError "Invalid filter pattern: web;rm").
Proof. reflexivity. Qed.


(** ** The monad *)

Lemma val_bind {A B} (m : M A) (f : A -> M B) st :
  val (bind m f st) =
  match val (m st) with
  | Ok a => val (f a (state (m st)))
  | Raise e => Raise e
  end.
Proof. unfold bind. destruct (val (m st)); reflexivity. Qed.

Lemma state_bind {A B} (m : M A) (f : A -> M B) st :
  state (bind m f st) =
  match val (m st) with
  | Ok a => state (f a (state (m st)))
  | Raise e => state (m st)
  end.
Proof. unfold bind. destruct (val (m st)); reflexivity. Qed.

Lemma trace_bind {A B} (m : M A) (f : A -> M B) st :
  trace (bind m f st) =
  match val (m st) with
  | Ok a => (trace (m st) ++ trace (f a (state (m st))))%list
  | Raise e => trace (m st)
  end.
Proof. unfold bind. destruct (val (m st)); reflexivity. Qed.

Lemma bind_out {A B} (m : M A) (k : A -> M B) st a st' tr :
  m st = Out (Ok a) st' tr ->
  bind m k st = Out (val (k a st')) (state (k a st')) (tr ++ trace (k a st'))%list.
Proof. intros H. unfold bind. rewrite H. reflexivity. Qed.

Lemma bind_get_fs {B} (k : fs -> M B) st : bind get_fs k st = k st st.
Proof. unfold bind, get_fs. cbn. destruct (k st st). reflexivity. Qed.

Lemma readonly_ret {A} (a : A) : readonly (ret a).
Proof. intros st. reflexivity. Qed.

Lemma readonly_raise {A} e : readonly (@raise A e).
Proof. intros st. reflexivity. Qed.

Lemma readonly_lift {A} (r : res A) : readonly (lift r).
Proof. destruct r; intros st; reflexivity. Qed.

Lemma readonly_emit e : readonly (emit e).
Proof. intros st. reflexivity. Qed.

Lemma readonly_run_reclass w cmd : readonly (run_reclass w cmd).
Proof. intros st. reflexivity. Qed.

Lemma readonly_get_fs : readonly get_fs.
Proof. intros st. reflexivity. Qed.

Lemma readonly_bind {A B} (m : M A) (f : A -> M B) :
  readonly m -> (forall a, readonly (f a)) -> readonly (bind m f).
Proof.
  intros Hm Hf st. rewrite state_bind. rewrite Hm.
  destruct (val (m st)); [apply Hf | reflexivity].
Qed.

Lemma readonly_for_each {A B} (l : list A) (body : B -> A -> M B) :
  (forall acc x, readonly (body acc x)) -> forall acc, readonly (for_each l acc body).
Proof.
  intros Hbody. induction l as [|x l IH]; intros acc; simpl.
  - apply readonly_ret.
  - apply readonly_bind; [apply Hbody | intros a; apply IH].
Qed.

Lemma val_bind_ro {A B} (m : M A) (f : A -> M B) st :
  readonly m ->
  val (bind m f st) =
  match val (m st) with
  | Ok a => val (f a st)
  | Raise e => Raise e
  end.
Proof. intros Hm. rewrite val_bind, Hm. reflexivity. Qed.

Lemma trace_bind_ro {A B} (m : M A) (f : A -> M B) st :
  readonly m ->
  trace (bind m f st) =
  match val (m st) with
  | Ok a => (trace (m st) ++ trace (f a st))%list
  | Raise e => trace (m st)
  end.
Proof. intros Hm. rewrite trace_bind, Hm. reflexivity. Qed.

Ltac ro_step :=
  first [ apply readonly_bind; [|intros ?]
        | apply readonly_for_each; intros ? ?
        | apply readonly_ret | apply readonly_raise | apply readonly_lift
        | apply readonly_emit | apply readonly_run_reclass | apply readonly_get_fs
        | match goal with |- readonly (if ?b then _ else _) => destruct b end
        | match goal with |- readonly (match ?x with _ => _ end) => destruct x end ].

Ltac ro := unfold log_info, log_warning; repeat ro_step.

Lemma get_node_data_ro self w n : readonly (ReclassManager.get_node_data self w n).
Proof. unfold ReclassManager.get_node_data. ro. Qed.

Lemma get_inventory_data_ro self w : readonly (ReclassManager.get_inventory_data self w).
Proof. unfold ReclassManager.get_inventory_data. ro. Qed.

Lemma list_nodes_ro self w : readonly (ReclassManager.list_nodes self w).
Proof.
  unfold ReclassManager.list_nodes.
  apply readonly_bind; [apply get_inventory_data_ro | intros ?]. ro.
Qed.

Lemma get_node_parameters_ro self w n : readonly (ReclassManager.get_node_parameters self w n).
Proof.
  unfold ReclassManager.get_node_parameters.
  apply readonly_bind; [apply get_node_data_ro | intros ?]. ro.
Qed.

Lemma get_nodes_by_class_ro self w c : readonly (ReclassManager.get_nodes_by_class self w c).
Proof.
  unfold ReclassManager.get_nodes_by_class.
  apply readonly_bind; [apply get_inventory_data_ro | intros ?]. ro.
Qed.

(** ** Strings and the validation patterns *)

Lemma rstrip_last x t c : PyStr.rstrip x = t ++ String c "" -> PyStr.isspace c = false.
Proof.
  revert t. induction x as [|a x IH]; intros t H; simpl in H.
  - destruct t; discriminate.
  - destruct (PyStr.rstrip x) as [|b r] eqn:Hr.
    + destruct (PyStr.isspace a) eqn:Ha; [destruct t; discriminate|].
      destruct t as [|a' t]; simpl in H.
      * injection H as <-. exact Ha.
      * injection H as _ H. destruct t; discriminate.
    + destruct t as [|a' t]; simpl in H; [discriminate|].
      injection H as _ H. apply (IH t). symmetry in H. symmetry. exact H.
Qed.

Lemma strip_last x t c : PyStr.strip x = t ++ String c "" -> PyStr.isspace c = false.
Proof. apply rstrip_last. Qed.

(** What [^[class]+$] accepts: a non-empty run of the class, possibly
    followed by one final newline. *)
Lemma star_cons k a c s b :
  Re.star k a (String c s) b = k (String c s) b || (Re.atom_ok a c && Re.star k a s false).
Proof. reflexivity. Qed.

Lemma match_dollar s b :
  Re.match_here [Re.Dollar] s b = (String.eqb s "" || String.eqb s (String "010" "")) && true.
Proof. reflexivity. Qed.

Lemma star_class_dollar cs s b :
  Re.star (Re.match_here [Re.Dollar]) (Re.CharSet cs) s b = true ->
  exists t, str_forall (Re.atom_ok (Re.CharSet cs)) t = true /\
            (s = t \/ s = t ++ String "010" "").
Proof.
  revert b. induction s as [|c s IH]; intros b H.
  - exists "". split; [reflexivity | left; reflexivity].
  - rewrite star_cons, match_dollar in H. apply orb_true_iff in H as [H|H].
    + rewrite andb_true_r in H. exists "". split; [reflexivity|].
      right. apply orb_true_iff in H as [H|H]; apply String.eqb_eq in H;
        [discriminate | exact H].
    + apply andb_true_iff in H as [Hc H]. apply IH in H as (t & Ht & Hs).
      exists (String c t). split.
      * simpl. simpl in Hc. rewrite Hc. exact Ht.
      * destruct Hs as [-> | ->]; [left | right]; reflexivity.
Qed.

Lemma class_pattern_accepts cs s :
  Re.re_match [Re.Caret; Re.Rep (Re.CharSet cs) Re.Plus; Re.Dollar] s = true ->
  exists t, t <> "" /\ str_forall (Re.atom_ok (Re.CharSet cs)) t = true /\
            (s = t \/ s = t ++ String "010" "").
Proof.
  unfold Re.re_match. simpl. destruct s as [|c s]; [discriminate|].
  intros H. apply andb_true_iff in H as [Hc H].
  apply star_class_dollar in H as (t & Ht & Hs).
  exists (String c t). split; [discriminate|]. split.
  - simpl. simpl in Hc. rewrite Hc. exact Ht.
  - destruct Hs as [-> | ->]; [left | right]; reflexivity.
Qed.

Lemma class_pattern_stripped cs x :
  Re.re_match [Re.Caret; Re.Rep (Re.CharSet cs) Re.Plus; Re.Dollar] (PyStr.strip x) = true ->
  PyStr.strip x <> "" /\ str_forall (Re.atom_ok (Re.CharSet cs)) (PyStr.strip x) = true.
Proof.
  intros H. apply class_pattern_accepts in H as (t & Hne & Ht & [Hs | Hs]).
  - rewrite Hs. split; assumption.
  - apply strip_last in Hs. discriminate.
Qed.

Lemma star_class_dollar_intro cs s b :
  str_forall (Re.atom_ok (Re.CharSet cs)) s = true ->
  Re.star (Re.match_here [Re.Dollar]) (Re.CharSet cs) s b = true.
Proof.
  revert b. induction s as [|c s IH]; intros b H; [reflexivity|].
  rewrite star_cons. cbn [str_forall] in H. apply andb_true_iff in H as [Hc H].
  rewrite Hc, (IH false H). apply orb_true_r.
Qed.

Lemma class_pattern_intro cs t :
  t <> "" -> str_forall (Re.atom_ok (Re.CharSet cs)) t = true ->
  Re.re_match [Re.Caret; Re.Rep (Re.CharSet cs) Re.Plus; Re.Dollar] t = true.
Proof.
  intros Hne H. destruct t as [|c t]; [congruence|].
  unfold Re.re_match. cbn [Re.match_here andb].
  cbn [str_forall] in H. apply andb_true_iff in H as [Hc H].
  rewrite Hc. apply star_class_dollar_intro, H.
Qed.

Lemma str_forall_ext p q s :
  (forall c, p c = q c) -> str_forall p s = str_forall q s.
Proof. intros H. induction s as [|c s IH]; simpl; [reflexivity|]. rewrite H, IH. reflexivity. Qed.

Lemma star_only_char c :
  Re.in_range ("*", "*")%char c = Ascii.eqb c "*".
Proof.
  unfold Re.in_range, PyStr.code. cbn [fst snd].
  destruct (Ascii.eqb_spec c "*") as [-> | Hne]; [reflexivity|].
  apply andb_false_iff.
  destruct (N.leb_spec (N_of_ascii "*") (N_of_ascii c)) as [H1|]; [|left; reflexivity].
  destruct (N.leb_spec (N_of_ascii c) (N_of_ascii "*")) as [H2|]; [|right; reflexivity].
  exfalso. apply Hne. rewrite <- (ascii_N_embedding c), <- (ascii_N_embedding "*").
  f_equal. lia.
Qed.

Lemma filter_class_char c :
  Re.atom_ok (Re.CharSet (InputValidator.name_chars ++ [("*", "*")%char])) c = filter_char c.
Proof.
  unfold filter_char, name_char, Re.atom_ok. rewrite existsb_app.
  f_equal. cbn [existsb]. rewrite orb_false_r. apply star_only_char.
Qed.

(** [sanitize_node_name] accepts exactly when the stripped input is in
    the naming grammar, and returns the stripped input. *)
Lemma sanitize_node_name_ok n m :
  InputValidator.sanitize_node_name n = Ok m ->
  m = PyStr.strip n /\ node_name_grammar m = true.
Proof.
  unfold InputValidator.sanitize_node_name.
  destruct (String.eqb n ""); [discriminate|].
  destruct (Re.re_match InputValidator.NODE_NAME_PATTERN (PyStr.strip n)) eqn:Hre;
    [|discriminate]. simpl.
  destruct (100 <? String.length (PyStr.strip n))%nat eqn:Hlen; [discriminate|].
  intros [= <-]. split; [reflexivity|].
  apply class_pattern_stripped in Hre as [Hne Hall].
  unfold node_name_grammar. apply andb_true_iff. split; [apply andb_true_iff; split|].
  - apply negb_true_iff. apply String.eqb_neq. exact Hne.
  - exact Hall.
  - apply Nat.leb_le. apply Nat.ltb_ge in Hlen. exact Hlen.
Qed.

Lemma sanitize_node_name_raises n e :
  InputValidator.sanitize_node_name n = Raise e -> exists msg, e = ValidationError msg.
Proof.
  unfold InputValidator.sanitize_node_name.
  repeat match goal with |- context [if ?b then _ else _] => destruct b end;
    intros [= <-]; eauto.
Qed.

Lemma sanitize_node_name_rejects n :
  node_name_grammar (PyStr.strip n) = false ->
  exists msg, InputValidator.sanitize_node_name n = Raise (ValidationError msg).
Proof.
  intros H. destruct (InputValidator.sanitize_node_name n) as [m|e] eqn:Hs.
  - apply sanitize_node_name_ok in Hs as [-> Hg]. congruence.
  - apply sanitize_node_name_raises in Hs as Hm. destruct Hm as [msg ->]. eauto.
Qed.

Lemma sanitize_node_name_accepts n :
  node_name_grammar (PyStr.strip n) = true ->
  InputValidator.sanitize_node_name n = Ok (PyStr.strip n).
Proof.
  intros H. destruct (InputValidator.sanitize_node_name n) as [m|e] eqn:Hs.
  - apply sanitize_node_name_ok in Hs as [-> _]. reflexivity.
  - exfalso. revert Hs. unfold InputValidator.sanitize_node_name.
    unfold node_name_grammar in H.
    apply andb_true_iff in H as [H Hlen]. apply andb_true_iff in H as [Hne Hall].
    apply negb_true_iff, String.eqb_neq in Hne.
    destruct (String.eqb_spec n "") as [-> | _]; [exfalso; apply Hne; reflexivity|].
    unfold InputValidator.NODE_NAME_PATTERN.
    rewrite (class_pattern_intro InputValidator.name_chars (PyStr.strip n) Hne Hall).
    cbn [negb]. apply Nat.leb_le in Hlen.
    destruct (Nat.ltb_spec 100 (String.length (PyStr.strip n))); [lia | discriminate].
Qed.

Lemma validate_filter_pattern_ok p q :
  InputValidator.validate_filter_pattern p = Ok q ->
  q = PyStr.strip p /\ filter_grammar q = true.
Proof.
  unfold InputValidator.validate_filter_pattern.
  destruct (String.eqb (PyStr.strip p) "") eqn:He; [discriminate|].
  destruct (Re.re_match InputValidator.FILTER_PATTERN (PyStr.strip p)) eqn:Hre;
    [|discriminate]. simpl.
  intros [= <-]. split; [reflexivity|].
  apply class_pattern_stripped in Hre as [Hne Hall].
  unfold filter_grammar. rewrite He. simpl.
  rewrite <- Hall. apply str_forall_ext. intros c. symmetry. apply filter_class_char.
Qed.

Lemma validate_filter_pattern_raises p e :
  InputValidator.validate_filter_pattern p = Raise e -> exists msg, e = ValidationError msg.
Proof.
  unfold InputValidator.validate_filter_pattern.
  repeat match goal with |- context [if ?b then _ else _] => destruct b end;
    intros [= <-]; eauto.
Qed.

Lemma validate_filter_pattern_accepts p :
  filter_grammar (PyStr.strip p) = true ->
  InputValidator.validate_filter_pattern p = Ok (PyStr.strip p).
Proof.
  intros H. destruct (InputValidator.validate_filter_pattern p) as [q|e] eqn:Hv.
  - apply validate_filter_pattern_ok in Hv as [-> _]. reflexivity.
  - exfalso. revert Hv. unfold InputValidator.validate_filter_pattern.
    unfold filter_grammar in H. apply andb_true_iff in H as [Hne Hall].
    apply negb_true_iff in Hne. rewrite Hne.
    unfold InputValidator.FILTER_PATTERN. rewrite class_pattern_intro; [discriminate | |].
    + apply String.eqb_neq, Hne.
    + erewrite str_forall_ext; [exact Hall | apply filter_class_char].
Qed.

Lemma validate_filter_pattern_refuses p :
  filter_grammar (PyStr.strip p) = false ->
  exists msg, InputValidator.validate_filter_pattern p = Raise (ValidationError msg).
Proof.
  intros H. destruct (InputValidator.validate_filter_pattern p) as [q|e] eqn:Hv.
  - apply validate_filter_pattern_ok in Hv as [-> Hg]. congruence.
  - apply validate_filter_pattern_raises in Hv as Hm. destruct Hm as [msg ->]. eauto.
Qed.

(** ** Traces *)

Ltac solve_no_exec :=
  let cmd := fresh "cmd" in
  let Hin := fresh "Hin" in
  intros cmd Hin;
  repeat (apply elem_of_cons in Hin as [Hin|Hin]; [discriminate|]);
  apply elem_of_nil in Hin; exact Hin.

Lemma no_exec_app tr1 tr2 : no_exec tr1 -> no_exec tr2 -> no_exec (tr1 ++ tr2).
Proof.
  intros H1 H2 cmd Hin. apply elem_of_app in Hin as [Hin|Hin];
    [exact (H1 cmd Hin) | exact (H2 cmd Hin)].
Qed.

(** ** The single-node query *)

Lemma manager_get_node_data_val self w name st :
  val (ReclassManager.get_node_data self w name st) =
  if negb (Py.truthy_str (ReclassManager.reclass_path self)) then Ok None else
  match InputValidator.sanitize_node_name name with
  | Raise _ => Ok None
  | Ok n =>
      if ReclassManager.dry_run self then Ok (Some ReclassManager.dry_node_data) else
      match reclass w (ReclassManager.node_cmd self n) st with
      | CalledProcessError _ => Ok None
      | Completed stdout =>
          match json_loads w stdout with
          | JSONDecodeError _ => Ok None
          | Loaded v => Ok (Some v)
          end
      end
  end.
Proof.
  unfold ReclassManager.get_node_data.
  destruct (negb _); [reflexivity|].
  destruct (InputValidator.sanitize_node_name name) as [n|e] eqn:Hs.
  - destruct (ReclassManager.dry_run self); [reflexivity|].
    unfold bind, run_reclass, log_info, emit. cbn.
    destruct (reclass w _ st); [reflexivity|].
    destruct (json_loads w stdout); reflexivity.
  - apply sanitize_node_name_raises in Hs as [msg ->]. reflexivity.
Qed.



Lemma present_dict d key :
  ReclassManager.present (Some (JDict d)) key =
  Ok (match Py.lookup key d with Some _ => true | None => false end).
Proof. destruct d as [|[k v] d]; reflexivity. Qed.

Lemma manager_accessor_shape self w name st key (p : json -> bool) (dflt : json) :
  (forall n, answers_with w (ReclassManager.node_cmd self n) node_document) ->
  (forall d, node_document (JDict d) = true -> field key p d = true) ->
  p dflt = true ->
  field key p [("parameters", JDict []); ("classes", JList []); ("applications", JList [])] = true ->
  exists v,
    val ((node_data <- ReclassManager.get_node_data self w name ;;
          has <- lift (ReclassManager.present node_data key) ;;
          if has then lift (Py.getitem (default JNull node_data) key) else ret dflt) st)
    = Ok v /\ p v = true.
Proof.
  intros Hw Hfield Hdflt Hdry.
  rewrite val_bind_ro by apply get_node_data_ro.
  assert (Hshape : forall v, val (ReclassManager.get_node_data self w name st) = Ok (Some v) ->
                             exists d, v = JDict d /\ field key p d = true).
  { intros v. rewrite manager_get_node_data_val.
    destruct (negb _); [discriminate|].
    destruct (InputValidator.sanitize_node_name name) as [n|e]; [|discriminate].
    destruct (ReclassManager.dry_run self).
    - intros [= <-]. eexists. split; [reflexivity | exact Hdry].
    - destruct (reclass w _ st) as [|stdout] eqn:Hr; [discriminate|].
      destruct (json_loads w stdout) as [|v'] eqn:Hl; [discriminate|].
      intros [= <-]. pose proof (Hw n st stdout v' Hr Hl) as Hdoc.
      destruct v' as [| | | | |d]; try discriminate. eauto. }
  destruct (val (ReclassManager.get_node_data self w name st)) as [[v|]|e] eqn:Hv.
  - destruct (Hshape v eq_refl) as (d & -> & Hf).
    rewrite val_bind_ro by apply readonly_lift. rewrite present_dict.
    unfold field in Hf. cbn. destruct (Py.lookup key d) as [x|] eqn:Hx.
    + cbn. eauto.
    + cbn. eauto.
  - cbn. eauto.
  - rewrite manager_get_node_data_val in Hv.
    repeat match type of Hv with
           | context [if ?b then _ else _] => destruct b
           | context [match ?x with _ => _ end] => destruct x
           end; discriminate.
Qed.


Lemma node_document_parameters d : node_document (JDict d) = true -> field "parameters" is_dict d = true.
Proof. intros H. apply andb_true_iff in H as [_ H]. exact H. Qed.


Lemma is_dict_inv v : is_dict v = true -> exists d, v = JDict d.
Proof. destruct v; try discriminate. eauto. Qed.


Lemma lookup_forallb (p : json -> bool) key (d : list (string * json)) v :
  forallb (fun e => p (snd e)) d = true -> Py.lookup key d = Some v -> p v = true.
Proof.
  induction d as [|[k x] d IH]; [discriminate|]. cbn.
  intros H. apply andb_true_iff in H as [Hx Hd].
  destruct (String.eqb key k); [intros [= <-]; exact Hx | apply IH; exact Hd].
Qed.

Lemma table_world_loads_node inv docs n :
  json_loads (table_world inv docs) ("node " ++ n) =
  match Py.lookup n docs with
  | Some d => Loaded d
  | None => JSONDecodeError "Expecting value"
  end.
Proof. reflexivity. Qed.

(** In a table world the query for a node is answered with its document. *)
Lemma table_world_node_answers inv docs rp dir flag n :
  forallb (fun e => node_document (snd e)) docs = true ->
  answers_with (table_world inv docs) [rp; "-b"; dir; "-n"; n; flag; "json"] node_document.
Proof.
  intros Hdocs st stdout v Hr Hl. cbn in Hr.
  destruct (Py.lookup n docs) as [d|] eqn:Hn; [|discriminate].
  injection Hr as <-. rewrite table_world_loads_node, Hn in Hl. injection Hl as <-.
  exact (lookup_forallb _ _ _ _ Hdocs Hn).
Qed.

(** The data of the single-node query, by its answer. *)
Lemma manager_node_data_answer self w name st :
  val (ReclassManager.get_node_data self w name st) =
  match node_answer (ReclassManager.reclass_path self) (ReclassManager.dry_run self) w
          (ReclassManager.node_cmd self) name st with
  | Some doc => Ok (Some doc)
  | None =>
      if Py.truthy_str (ReclassManager.reclass_path self)
         && node_name_grammar (PyStr.strip name) && ReclassManager.dry_run self
      then Ok (Some ReclassManager.dry_node_data) else Ok None
  end.
Proof.
  rewrite manager_get_node_data_val. unfold node_answer.
  destruct (Py.truthy_str _); [|reflexivity]. cbn [negb andb].
  destruct (node_name_grammar (PyStr.strip name)) eqn:Hg.
  - rewrite (sanitize_node_name_accepts _ Hg).
    destruct (ReclassManager.dry_run self); [reflexivity|]. cbn [negb andb].
    destruct (reclass w _ st) as [|stdout]; [reflexivity|].
    destruct (json_loads w stdout); reflexivity.
  - destruct (sanitize_node_name_rejects _ Hg) as [msg ->]. reflexivity.
Qed.


(** What the accessors of [ReclassManager] make of the data of the query. *)
Lemma manager_accessor_val self w name st key (dflt : json) :
  val ((node_data <- ReclassManager.get_node_data self w name ;;
        has <- lift (ReclassManager.present node_data key) ;;
        if has then lift (Py.getitem (default JNull node_data) key) else ret dflt) st)
  = match val (ReclassManager.get_node_data self w name st) with
    | Ok (Some (JDict d)) => Ok (default dflt (Py.lookup key d))
    | Ok (Some v) =>
        if Py.truthy v then
          match Py.contains key v with
          | Ok true => Raise TypeError
          | Ok false => Ok dflt
          | Raise e => Raise e
          end
        else Ok dflt
    | Ok None => Ok dflt
    | Raise e => Raise e
    end.
Proof.
  rewrite val_bind_ro by apply get_node_data_ro.
  destruct (val (ReclassManager.get_node_data self w name st)) as [[v|]|e]; [| reflexivity..].
  rewrite val_bind_ro by apply readonly_lift.
  destruct v as [|b|z|s|l|d].
  - reflexivity.
  - destruct b; reflexivity.
  - cbn. destruct (z =? 0)%Z; reflexivity.
  - cbn. destruct (String.eqb s ""); [reflexivity|]. cbn.
    destruct (PyStr.substring_of key s); reflexivity.
  - destruct l as [|x l]; [reflexivity|]. cbn [ReclassManager.present Py.truthy Py.contains].
    destruct (existsb _ _); reflexivity.
  - rewrite present_dict. cbn [lift ret val].
    destruct (Py.lookup key d) as [x|] eqn:Hx; cbn; rewrite ?Hx; reflexivity.
Qed.





(** ** Validation before the classifier is run *)

(** C7, as stated, fails: an input with surrounding blanks is outside the
    naming grammar, yet it is stripped, accepted and the classifier is run
    on the stripped name. *)
Lemma get_node_data_strips_before_validating :
  ~ (forall self w name st,
       node_name_grammar name = false ->
       val (ReclassManager.get_node_data self w name st) = Ok None /\
       no_exec (trace (ReclassManager.get_node_data self w name st))).
Proof.
  intros H.
  destruct (H live_manager (fleet_world three_nodes) " a1" ∅ eq_refl) as [Hval _].
  vm_compute in Hval. discriminate.
Qed.

(** C7, amended: for every input whose stripped form is outside the naming
    grammar, [get_node_data] returns [None] and no command is executed. *)
Theorem get_node_data_rejects_invalid_names self w name st :
  node_name_grammar (PyStr.strip name) = false ->
  val (ReclassManager.get_node_data self w name st) = Ok None /\
  no_exec (trace (ReclassManager.get_node_data self w name st)) /\
  state (ReclassManager.get_node_data self w name st) = st.
Proof.
  intros Hg. apply sanitize_node_name_rejects in Hg as [msg Hs].
  unfold ReclassManager.get_node_data. rewrite Hs.
  destruct (negb _); cbn; (split; [reflexivity|split; [solve_no_exec|reflexivity]]).
Qed.

Lemma get_node_data_rejects_invalid_names_witness :
  node_name_grammar (PyStr.strip "web01;reboot") = false /\
  val (ReclassManager.get_node_data live_manager (fleet_world three_nodes) "web01;reboot" ∅)
  = Ok None.
Proof.
  split; [reflexivity|].
  apply (get_node_data_rejects_invalid_names live_manager (fleet_world three_nodes)
           "web01;reboot" ∅). reflexivity.
Defined.

(** ** Directory synchronisation *)

(** C9: when the source does not exist [sync_directories] returns false,
    whatever the dry-run flag; it only logs a warning. *)
Theorem sync_directories_missing_source self w source destination options recursive st :
  Path.exists_ st source = false ->
  FileManager.sync_directories self w source destination options recursive st
  = Out (Ok false) st [LogWarning ("Source directory does not exist: " ++ Path.str source)].
Proof.
  intros H. unfold FileManager.sync_directories, bind, get_fs. cbn.
  rewrite H. reflexivity.
Qed.

Lemma sync_directories_missing_source_witness :
  val (FileManager.sync_directories
         {| FileManager.dry_run := true; FileManager.rsync_path := Some "/usr/bin/rsync" |}
         (fleet_world []) ["missing"] ["target"] FileManager.default_options true ∅)
  = Ok false.
Proof.
  rewrite (sync_directories_missing_source _ _ ["missing"] ["target"] _ true ∅);
    reflexivity.
Defined.

(** ** Sorting *)

Lemma elem_of_sorted x l : x ∈ PyStr.sorted l <-> x ∈ l.
Proof. unfold PyStr.sorted. rewrite merge_sort_Permutation. reflexivity. Qed.

Lemma NoDup_sorted l : NoDup l -> NoDup (PyStr.sorted l).
Proof. unfold PyStr.sorted. rewrite merge_sort_Permutation. auto. Qed.

Lemma StronglySorted_strict {A} (R : relation A) `{!AntiSymm (=) R} l :
  StronglySorted R l -> NoDup l -> StronglySorted (strict R) l.
Proof.
  induction 1 as [|x l Hl IH Hx]; intros Hnd; constructor.
  - apply IH. apply NoDup_cons in Hnd as [_ Hnd]. exact Hnd.
  - apply NoDup_cons in Hnd as [Hnotin _].
    apply Forall_forall. intros y Hy. split.
    + rewrite Forall_forall in Hx. apply Hx. exact Hy.
    + intros Hyx. rewrite Forall_forall in Hx.
      assert (x = y) as -> by (apply (anti_symm R); auto).
      contradiction.
Qed.

Lemma sorted_elements_strictly (s : gset string) :
  strictly_sorted (PyStr.sorted (elements s)).
Proof.
  apply (StronglySorted_strict String.le).
  - apply StronglySorted_merge_sort; apply _.
  - apply NoDup_sorted, NoDup_elements.
Qed.

Lemma strictly_sorted_NoDup l : strictly_sorted l -> NoDup l.
Proof.
  induction 1 as [|x l Hl IH Hx]; constructor; [|exact IH].
  intros Hin. rewrite Forall_forall in Hx. destruct (Hx x Hin) as [H1 H2]. auto.
Qed.

Lemma normalise_sorted (s : gset string) :
  normalise (PyStr.sorted (elements s)) = PyStr.sorted (elements s).
Proof.
  unfold normalise. f_equal. f_equal. apply set_eq. intros x.
  rewrite elem_of_list_to_set, elem_of_sorted, elem_of_elements. reflexivity.
Qed.

Lemma elem_of_normalise x l : x ∈ normalise l <-> x ∈ l.
Proof.
  unfold normalise. rewrite elem_of_sorted, elem_of_elements, elem_of_list_to_set.
  reflexivity.
Qed.

(** ** The pattern built from a validated node filter *)

Lemma name_char_atom c :
  filter_char c = true -> Ascii.eqb c "*" = false ->
  Re.atom_of_char c = Some (if Ascii.eqb c "." then Re.AnyChar else Re.Lit c).
Proof.
  destruct c as [[] [] [] [] [] [] [] []]; vm_compute; intros H1 H2;
    first [reflexivity | discriminate].
Qed.

Lemma compile_once c a p :
  Re.atom_of_char c = Some a ->
  (forall p', p <> String "*" p') ->
  Re.compile (String c p) = cons (Re.Rep a Re.Once) <$> Re.compile p.
Proof.
  intros Ha Hp. cbn [Re.compile]. rewrite Ha.
  destruct p as [|d p']; [reflexivity|].
  destruct d as [[] [] [] [] [] [] [] []]; try reflexivity.
  exfalso. apply (Hp p'). reflexivity.
Qed.

Lemma replace_star_head q p' :
  PyStr.replace_char "*" ".*" q <> String "*" p'.
Proof.
  destruct q as [|c q]; [discriminate|]. cbn [PyStr.replace_char].
  destruct (Ascii.eqb_spec "*" c) as [<- | Hne]; [discriminate|].
  intros [= ->]. contradiction.
Qed.

(** [re.compile] reads the pattern built from a validated filter as
    [translate] says. *)
Lemma compile_replace q :
  str_forall filter_char q = true ->
  Re.compile (PyStr.replace_char "*" ".*" q) = Some (translate q).
Proof.
  induction q as [|c q IH]; intros H; [reflexivity|].
  cbn [str_forall] in H. apply andb_true_iff in H as [Hc Hq].
  specialize (IH Hq). cbn [PyStr.replace_char translate].
  destruct (Ascii.eqb_spec "*" c) as [<- | Hne].
  - change (".*" ++ PyStr.replace_char "*" ".*" q)
      with (String "." (String "*" (PyStr.replace_char "*" ".*" q))).
    cbn [Re.compile]. change (Re.atom_of_char ".") with (Some Re.AnyChar).
    cbn match. rewrite IH. reflexivity.
  - assert (Hs : Ascii.eqb c "*" = false) by (apply Ascii.eqb_neq; congruence).
    rewrite Hs.
    erewrite compile_once; [| apply name_char_atom; assumption | apply replace_star_head].
    rewrite IH. cbn. destruct (Ascii.eqb c "."); reflexivity.
Qed.

(** ** Loops *)

Lemma for_each_pure {A B} (l : list A) (g : B -> A -> B) (body : B -> A -> M B) st acc :
  (forall acc x, readonly (body acc x)) ->
  (forall acc x, x ∈ l -> val (body acc x st) = Ok (g acc x)) ->
  val (for_each l acc body st) = Ok (fold_left g l acc).
Proof.
  intros Hro. revert acc. induction l as [|x l IH]; intros acc Hval; [reflexivity|].
  cbn [for_each fold_left]. rewrite val_bind_ro by apply Hro.
  rewrite Hval by apply list_elem_of_here.
  apply IH. intros acc' y Hy. apply Hval. apply list_elem_of_further. exact Hy.
Qed.

Lemma bind_ok_inv {A B} (m : M A) (f : A -> M B) st b :
  val (bind m f st) = Ok b ->
  exists a, val (m st) = Ok a /\ val (f a (state (m st))) = Ok b /\
            trace (bind m f st) = (trace (m st) ++ trace (f a (state (m st))))%list.
Proof.
  rewrite val_bind, trace_bind. destruct (val (m st)) as [a|e]; [|discriminate].
  intros H. exists a. auto.
Qed.

(** ** The inventory query *)

Lemma manager_get_inventory_data_val self w st :
  val (ReclassManager.get_inventory_data self w st) =
  if negb (Py.truthy_str (ReclassManager.reclass_path self)) then Ok None else
  if ReclassManager.dry_run self then Ok (Some ReclassManager.dry_inventory_data) else
  match reclass w (ReclassManager.inventory_cmd self) st with
  | CalledProcessError _ => Ok None
  | Completed stdout =>
      match json_loads w stdout with
      | JSONDecodeError _ => Ok None
      | Loaded v => Ok (Some v)
      end
  end.
Proof.
  unfold ReclassManager.get_inventory_data.
  destruct (negb _); [reflexivity|].
  destruct (ReclassManager.dry_run self); [reflexivity|].
  unfold bind, run_reclass, log_info, emit. cbn.
  destruct (reclass w _ st); [reflexivity|].
  destruct (json_loads w stdout); reflexivity.
Qed.

Lemma inventory_data_shape self w st :
  documented self w ->
  val (ReclassManager.get_inventory_data self w st) = Ok None \/
  exists d, val (ReclassManager.get_inventory_data self w st) = Ok (Some (JDict d)) /\
            inventory_document (JDict d) = true.
Proof.
  intros [Hinv _]. rewrite manager_get_inventory_data_val.
  destruct (negb _); [left; reflexivity|].
  destruct (ReclassManager.dry_run self); [right; eexists; split; reflexivity|].
  destruct (reclass w _ st) as [|stdout] eqn:Hr; [left; reflexivity|].
  destruct (json_loads w stdout) as [|v] eqn:Hl; [left; reflexivity|].
  pose proof (Hinv st stdout v Hr Hl) as Hdoc.
  destruct v as [| | | | |d]; try discriminate. right. eauto.
Qed.

(** The [nodes] entry of an inventory document and its items. *)
Lemma inventory_nodes_entry self w st d :
  val (ReclassManager.get_inventory_data self w st) = Ok (Some (JDict d)) ->
  inventory_document (JDict d) = true ->
  match Py.lookup "nodes" d with
  | Some v => v = JDict (inventory_nodes self w st)
  | None => inventory_nodes self w st = []
  end /\
  forallb (fun e => node_document (snd e)) (inventory_nodes self w st) = true.
Proof.
  intros Hv Hdoc. unfold inventory_nodes. rewrite Hv.
  unfold inventory_document, field in Hdoc.
  destruct (Py.lookup "nodes" d) as [v|]; [|split; reflexivity].
  destruct v as [| | | | |es]; try discriminate. split; [reflexivity | exact Hdoc].
Qed.

Lemma list_nodes_val self w st :
  documented self w ->
  val (ReclassManager.list_nodes self w st) = Ok (inventory_nodes self w st).*1.
Proof.
  intros Hdoc. unfold ReclassManager.list_nodes.
  rewrite val_bind_ro by apply get_inventory_data_ro.
  destruct (inventory_data_shape self w st Hdoc) as [Hv | (d & Hv & Hd)].
  - unfold inventory_nodes. rewrite Hv. reflexivity.
  - destruct (inventory_nodes_entry self w st d Hv Hd) as [Hn _]. rewrite Hv.
    rewrite val_bind_ro by apply readonly_lift. rewrite present_dict. cbn [lift ret val].
    destruct (Py.lookup "nodes" d) as [v|] eqn:Hl.
    + subst v. cbn. rewrite Hl. reflexivity.
    + rewrite Hn. reflexivity.
Qed.

(** What the inventory query yields is what the classifier lists. *)
Lemma inventory_nodes_listed self w st : inventory_nodes self w st = listed self w st.
Proof.
  unfold inventory_nodes, listed. rewrite manager_get_inventory_data_val.
  destruct (Py.truthy_str _); [|reflexivity]. cbn [negb andb].
  destruct (ReclassManager.dry_run self); [reflexivity|]. cbn [negb].
  destruct (reclass w _ st) as [|stdout]; [reflexivity|].
  destruct (json_loads w stdout) as [|v]; [reflexivity|].
  destruct v; reflexivity.
Qed.

Lemma eq_str_true v s : Py.eq_str v s = true <-> v = JStr s.
Proof.
  destruct v; cbn; try (split; [discriminate | intros [=]]).
  rewrite String.eqb_eq. split; [intros ->; reflexivity | intros [= ->]; reflexivity].
Qed.

Lemma class_member_spec c node_data :
  class_member c node_data = true <-> JStr c ∈ node_classes node_data.
Proof.
  unfold class_member. rewrite existsb_exists. split.
  - intros (x & Hin & Hx). apply eq_str_true in Hx as ->.
    apply list_elem_of_In. exact Hin.
  - intros Hin. exists (JStr c). split; [apply list_elem_of_In; exact Hin|].
    apply eq_str_true. reflexivity.
Qed.

Lemma carries_class_val c node_data :
  node_document node_data = true ->
  ReclassManager.carries_class c node_data = Ok (class_member c node_data).
Proof.
  destruct node_data as [| | | | |d]; try discriminate. intros Hdoc.
  apply andb_true_iff in Hdoc as [Hc _]. unfold field in Hc.
  unfold ReclassManager.carries_class, class_member, node_classes. cbn [Py.contains Py.getitem].
  destruct (Py.lookup "classes" d) as [v|]; [|reflexivity].
  destruct v as [| | | | l |]; try discriminate. reflexivity.
Qed.

Lemma fold_left_collect {A} (P : A -> bool) (f : A -> string) (l : list A) acc :
  fold_left (fun acc x => if P x then acc ++ [f x] else acc)%list l acc
  = (acc ++ (f <$> List.filter P l))%list.
Proof.
  revert acc. induction l as [|x l IH]; intros acc; cbn [fold_left List.filter].
  - cbn. rewrite app_nil_r. reflexivity.
  - rewrite IH. destruct (P x); [|reflexivity].
    cbn. rewrite <- app_assoc. reflexivity.
Qed.

Lemma get_nodes_by_class_val self w c st :
  documented self w ->
  val (ReclassManager.get_nodes_by_class self w c st)
  = Ok (fst <$> List.filter (fun e => class_member c (snd e)) (inventory_nodes self w st)).
Proof.
  intros Hdoc. unfold ReclassManager.get_nodes_by_class.
  rewrite val_bind_ro by apply get_inventory_data_ro.
  destruct (inventory_data_shape self w st Hdoc) as [Hv | (d & Hv & Hd)].
  - unfold inventory_nodes. rewrite Hv. reflexivity.
  - destruct (inventory_nodes_entry self w st d Hv Hd) as [Hn Hall]. rewrite Hv.
    rewrite val_bind_ro by apply readonly_lift. rewrite present_dict. cbn [lift ret val].
    destruct (Py.lookup "nodes" d) as [v|] eqn:Hl.
    + subst v. cbn [negb]. rewrite val_bind_ro by apply readonly_lift.
      cbn [default from_option id Py.getitem]. rewrite Hl. cbn [lift ret val].
      rewrite val_bind_ro by apply readonly_lift. cbn [Py.items lift ret val].
      erewrite (for_each_pure _
                  (fun acc item => if class_member c (snd item)
                                   then acc ++ [fst item] else acc)%list).
      * rewrite (fold_left_collect (fun e => class_member c (snd e)) fst). reflexivity.
      * intros acc x. ro.
      * intros acc x Hx. rewrite val_bind_ro by apply readonly_lift.
        rewrite carries_class_val; [reflexivity|].
        rewrite forallb_forall in Hall. apply Hall. apply list_elem_of_In. exact Hx.
    + rewrite Hn. reflexivity.
Qed.

(** ** The stages of [filter_nodes] *)

Lemma apply_node_filter_ro nf s : readonly (ReclassManager.apply_node_filter nf s).
Proof. unfold ReclassManager.apply_node_filter. ro. Qed.

Lemma apply_class_filter_ro self w cf s :
  readonly (ReclassManager.apply_class_filter self w cf s).
Proof.
  unfold ReclassManager.apply_class_filter.
  destruct (Py.truthy_str cf); [|ro].
  destruct (InputValidator.validate_filter_pattern _) as [q|[]]; try solve [ro].
  apply readonly_bind; [apply get_nodes_by_class_ro | intros ?; ro].
Qed.

Lemma project_body_ro self w q (acc : gset string) node :
  readonly (params <- ReclassManager.get_node_parameters self w node ;;
            v <- lift (Py.get params "project") ;;
            ret (if Py.eq_str v q then acc ∪ {[node]} else acc)).
Proof. apply readonly_bind; [apply get_node_parameters_ro | intros ?; ro]. Qed.

Lemma apply_project_filter_ro self w pf s :
  readonly (ReclassManager.apply_project_filter self w pf s).
Proof.
  unfold ReclassManager.apply_project_filter.
  destruct (Py.truthy_str pf); [|ro].
  destruct (InputValidator.validate_filter_pattern _) as [q|[]]; try solve [ro].
  apply readonly_for_each. intros acc node. apply project_body_ro.
Qed.

Lemma filter_grammar_chars q : filter_grammar q = true -> str_forall filter_char q = true.
Proof. intros H. apply andb_true_iff in H as [_ H]. exact H. Qed.

Lemma filter_grammar_nonempty q : filter_grammar q = true -> q <> "".
Proof.
  intros H. apply andb_true_iff in H as [H _].
  apply negb_true_iff, String.eqb_neq in H. exact H.
Qed.

Lemma valid_filter_given q :
  InputValidator.validate_filter_pattern q = Ok q -> Py.truthy_str (Some q) = true.
Proof.
  intros H. apply validate_filter_pattern_ok in H as [_ H].
  apply filter_grammar_nonempty in H. cbn. apply negb_true_iff, String.eqb_neq. exact H.
Qed.

Lemma apply_node_filter_val nf s st :
  val (ReclassManager.apply_node_filter nf s st) = Ok (stage nf keep_name s).
Proof.
  unfold ReclassManager.apply_node_filter, stage.
  destruct (Py.truthy_str nf); [|reflexivity].
  destruct (InputValidator.validate_filter_pattern _) as [q|e] eqn:Hv.
  - apply validate_filter_pattern_ok in Hv as [_ Hg].
    apply filter_grammar_chars, compile_replace in Hg.
    unfold keep_name. destruct (PyStr.contains_char "*" q); [|reflexivity].
    rewrite Hg. reflexivity.
  - apply validate_filter_pattern_raises in Hv as [msg ->]. reflexivity.
Qed.

Lemma apply_class_filter_val self w cf s st :
  documented self w ->
  val (ReclassManager.apply_class_filter self w cf s st) = Ok (stage cf (keep_class self w st) s).
Proof.
  intros Hdoc. unfold ReclassManager.apply_class_filter, stage.
  destruct (Py.truthy_str cf); [|reflexivity].
  destruct (InputValidator.validate_filter_pattern _) as [q|e] eqn:Hv.
  - rewrite val_bind_ro by apply get_nodes_by_class_ro.
    rewrite get_nodes_by_class_val by exact Hdoc. reflexivity.
  - apply validate_filter_pattern_raises in Hv as [msg ->]. reflexivity.
Qed.

Lemma get_node_parameters_dict self w n st :
  documented self w ->
  exists ps, val (ReclassManager.get_node_parameters self w n st) = Ok (JDict ps).
Proof.
  intros [_ Hnode].
  destruct (manager_accessor_shape self w n st "parameters" is_dict (JDict []) Hnode
              node_document_parameters eq_refl eq_refl) as (v & Hv & Hs).
  apply is_dict_inv in Hs as [d ->]. exists d. exact Hv.
Qed.

Lemma fold_left_keep (P : string -> bool) (l : list string) (acc : gset string) x :
  x ∈ fold_left (fun acc n => if P n then acc ∪ {[n]} else acc) l acc
  <-> x ∈ acc \/ (x ∈ l /\ P x = true).
Proof.
  revert acc. induction l as [|y l IH]; intros acc; cbn [fold_left].
  - rewrite elem_of_nil. tauto.
  - rewrite IH, elem_of_cons. destruct (P y) eqn:Hy.
    + rewrite elem_of_union, elem_of_singleton. split.
      * intros [[H | ->] | [H1 H2]]; auto.
      * intros [H | [[-> | H1] H2]]; auto.
    + split.
      * intros [H | [H1 H2]]; auto.
      * intros [H | [[-> | H1] H2]]; auto. congruence.
Qed.

Lemma apply_project_filter_val self w pf s st :
  documented self w ->
  val (ReclassManager.apply_project_filter self w pf s st)
  = Ok (stage pf (keep_project self w st) s).
Proof.
  intros Hdoc. unfold ReclassManager.apply_project_filter, stage.
  destruct (Py.truthy_str pf); [|reflexivity].
  destruct (InputValidator.validate_filter_pattern _) as [q|e] eqn:Hv.
  - erewrite (for_each_pure _
                (fun acc n => if project_is self w st n q then acc ∪ {[n]} else acc)).
    + f_equal. apply set_eq. intros x. rewrite fold_left_keep.
      unfold keep_project. rewrite elem_of_filter, elem_of_elements, elem_of_empty. tauto.
    + intros acc node. apply project_body_ro.
    + intros acc node _. rewrite val_bind_ro by apply get_node_parameters_ro.
      unfold project_is.
      destruct (get_node_parameters_dict self w node st Hdoc) as [ps ->]. reflexivity.
  - apply validate_filter_pattern_raises in Hv as [msg ->]. reflexivity.
Qed.

(** What [filter_nodes] returns, given a classifier of the documented
    shape. *)
Lemma filter_nodes_val self w nf cf pf st :
  documented self w ->
  val (ReclassManager.filter_nodes self w nf cf pf st) =
  Ok (if any_filter nf cf pf
      then PyStr.sorted (elements
             (stage pf (keep_project self w st)
                (stage cf (keep_class self w st)
                   (stage nf keep_name (list_to_set (inventory_nodes self w st).*1)))))
      else (inventory_nodes self w st).*1).
Proof.
  intros Hdoc. unfold ReclassManager.filter_nodes.
  rewrite val_bind_ro by apply list_nodes_ro. rewrite list_nodes_val by exact Hdoc.
  fold (any_filter nf cf pf). destruct (any_filter nf cf pf); [|reflexivity].
  cbn [negb].
  rewrite val_bind_ro by apply apply_node_filter_ro. rewrite apply_node_filter_val.
  rewrite val_bind_ro by apply apply_class_filter_ro.
  rewrite apply_class_filter_val by exact Hdoc.
  rewrite val_bind_ro by apply apply_project_filter_ro.
  rewrite apply_project_filter_val by exact Hdoc. reflexivity.
Qed.

Lemma filter_nodes_unfold self w nf cf pf st :
  val (ReclassManager.filter_nodes self w nf cf pf st) =
  match val (ReclassManager.list_nodes self w st) with
  | Raise e => Raise e
  | Ok all_nodes =>
      if any_filter nf cf pf then
        match val (ReclassManager.apply_class_filter self w cf
                     (stage nf keep_name (list_to_set all_nodes)) st) with
        | Raise e => Raise e
        | Ok s2 =>
            match val (ReclassManager.apply_project_filter self w pf s2 st) with
            | Raise e => Raise e
            | Ok s3 => Ok (PyStr.sorted (elements s3))
            end
        end
      else Ok all_nodes
  end.
Proof.
  unfold ReclassManager.filter_nodes.
  rewrite val_bind_ro by apply list_nodes_ro.
  destruct (val (ReclassManager.list_nodes self w st)) as [all_nodes|e]; [|reflexivity].
  fold (any_filter nf cf pf). destruct (any_filter nf cf pf); [|reflexivity]. cbn [negb].
  rewrite val_bind_ro by apply apply_node_filter_ro. rewrite apply_node_filter_val.
  rewrite val_bind_ro by apply apply_class_filter_ro.
  destruct (val (ReclassManager.apply_class_filter _ _ _ _ st)) as [s2|e]; [|reflexivity].
  rewrite val_bind_ro by apply apply_project_filter_ro.
  destruct (val (ReclassManager.apply_project_filter _ _ _ _ st)) as [s3|e]; reflexivity.
Qed.

(** ** Table worlds are documented *)

Lemma fleet_world_documented self docs :
  forallb (fun e => node_document (snd e)) docs = true ->
  documented self (fleet_world docs).
Proof.
  intros Hdocs. split.
  - intros st stdout v Hr Hl. cbn in Hr. injection Hr as <-.
    cbn in Hl. injection Hl as <-. exact Hdocs.
  - intros n. apply table_world_node_answers. exact Hdocs.
Qed.

(** ** Keys of parsed mappings *)

Lemma unique_keys_NoDup d : unique_keys (JDict d) = true -> NoDup d.*1.
Proof.
  cbn [unique_keys]. intros H. apply andb_true_iff in H as [H _].
  apply bool_decide_eq_true in H. exact H.
Qed.

Lemma unique_keys_lookup d k x :
  unique_keys (JDict d) = true -> Py.lookup k d = Some x -> unique_keys x = true.
Proof.
  cbn [unique_keys]. intros H. apply andb_true_iff in H as [_ H].
  intros Hl. exact (lookup_forallb unique_keys k d x H Hl).
Qed.

Lemma table_world_loads_unique inv docs :
  unique_keys inv = true -> unique_keys (JDict docs) = true ->
  loads_unique (table_world inv docs).
Proof.
  intros Hinv Hdocs s v. cbn [json_loads table_world].
  destruct (String.eqb s "inventory"); [intros [= <-]; exact Hinv|].
  destruct (strip_prefix "node " s) as [n|]; [|discriminate].
  destruct (Py.lookup n docs) as [d|] eqn:Hn; [|discriminate].
  intros [= <-]. exact (unique_keys_lookup _ _ _ Hdocs Hn).
Qed.

(** The names [list_nodes] returns are the keys of a parsed mapping. *)
Lemma list_nodes_NoDup self w st l :
  loads_unique w -> val (ReclassManager.list_nodes self w st) = Ok l -> NoDup l.
Proof.
  intros Hw. unfold ReclassManager.list_nodes.
  rewrite val_bind_ro by apply get_inventory_data_ro.
  assert (Hu : forall v, val (ReclassManager.get_inventory_data self w st) = Ok (Some v) ->
                         unique_keys v = true).
  { intros v. rewrite manager_get_inventory_data_val.
    destruct (negb _); [discriminate|].
    destruct (ReclassManager.dry_run self); [intros [= <-]; reflexivity|].
    destruct (reclass w _ st) as [|stdout]; [discriminate|].
    destruct (json_loads w stdout) as [|v'] eqn:Hl; [discriminate|].
    intros [= <-]. exact (Hw _ _ Hl). }
  destruct (val (ReclassManager.get_inventory_data self w st)) as [[v|]|e];
    [| intros [= <-]; constructor | discriminate].
  specialize (Hu v eq_refl).
  rewrite val_bind_ro by apply readonly_lift.
  destruct (ReclassManager.present (Some v) "nodes") as [[|]|e] eqn:Hp; cbn [lift ret raise val];
    [| intros [= <-]; constructor | discriminate].
  rewrite val_bind_ro by apply readonly_lift. cbn [default from_option id].
  destruct v as [| | | | |d]; try discriminate.
  cbn [Py.getitem]. destruct (Py.lookup "nodes" d) as [x|] eqn:Hx; [|discriminate].
  cbn [lift ret val]. destruct x as [| | | | |ns]; try discriminate.
  cbn [Py.keys lift ret val]. intros [= <-].
  apply unique_keys_NoDup. exact (unique_keys_lookup _ _ _ Hu Hx).
Qed.

(** ** Order of the result *)

(** C1, as stated, fails: with no filter the listing is returned as the
    classifier gave it, here a3, a1, a2. *)
Lemma filter_nodes_without_filter_unsorted :
  ~ (forall self w nf cf pf st l,
       val (ReclassManager.filter_nodes self w nf cf pf st) = Ok l -> strictly_sorted l).
Proof.
  intros H.
  specialize (H live_manager (fleet_world three_nodes) None None None ∅
                ["a3"; "a1"; "a2"] eq_refl).
  inversion H as [|x l Hl Hx]; subst.
  inversion Hx as [|y l' [Hle _] _]; subst.
  exact Hle.
Qed.

(** C1, amended: the list returned by [filter_nodes] is free of
    duplicates for every filter specification, the names being the keys of
    a parsed mapping; with at least one filter given it is strictly sorted,
    whatever the order of the listing; with no filter given it is the
    listing itself, in the classifier's order.  With a documented classifier
    the operation returns. *)
Theorem filter_nodes_order self w nf cf pf st :
  loads_unique w ->
  (forall l,
     val (ReclassManager.filter_nodes self w nf cf pf st) = Ok l ->
     NoDup l /\
     (any_filter nf cf pf = true -> strictly_sorted l) /\
     (any_filter nf cf pf = false -> val (ReclassManager.list_nodes self w st) = Ok l)) /\
  (documented self w -> exists l, val (ReclassManager.filter_nodes self w nf cf pf st) = Ok l).
Proof.
  intros Hw. split.
  - intros l. rewrite filter_nodes_unfold.
    destruct (val (ReclassManager.list_nodes self w st)) as [all_nodes|e] eqn:Hall;
      [|discriminate].
    destruct (any_filter nf cf pf).
    + destruct (val (ReclassManager.apply_class_filter _ _ _ _ st)) as [s2|e]; [|discriminate].
      destruct (val (ReclassManager.apply_project_filter _ _ _ _ st)) as [s3|e];
        [|discriminate].
      intros [= <-]. split; [|split].
      * apply strictly_sorted_NoDup, sorted_elements_strictly.
      * intros _. apply sorted_elements_strictly.
      * discriminate.
    + intros [= <-]. split; [|split].
      * exact (list_nodes_NoDup self w st _ Hw Hall).
      * discriminate.
      * reflexivity.
  - intros Hdoc. rewrite filter_nodes_val by exact Hdoc. eauto.
Qed.

Lemma filter_nodes_order_witness :
  let run nf := val (ReclassManager.filter_nodes live_manager (fleet_world three_nodes)
                       nf None None ∅) in
  (run (Some "a*") = Ok ["a1"; "a2"; "a3"] /\
   NoDup ["a1"; "a2"; "a3"] /\ strictly_sorted ["a1"; "a2"; "a3"]) /\
  (run None = Ok ["a3"; "a1"; "a2"] /\ NoDup ["a3"; "a1"; "a2"]).
Proof.
  intros run.
  assert (Hw : loads_unique (fleet_world three_nodes)).
  { apply table_world_loads_unique; vm_compute; reflexivity. }
  split.
  - destruct (filter_nodes_order live_manager (fleet_world three_nodes)
                (Some "a*") None None ∅ Hw) as [H _].
    destruct (H ["a1"; "a2"; "a3"] eq_refl) as (Hn & Hs & _).
    split; [reflexivity|]. split; [exact Hn | apply Hs; reflexivity].
  - destruct (filter_nodes_order live_manager (fleet_world three_nodes)
                None None None ∅ Hw) as [H _].
    destruct (H ["a3"; "a1"; "a2"] eq_refl) as (Hn & _).
    split; [reflexivity | exact Hn].
Defined.

(** ** Class and project filters *)

Lemma elem_of_keep_class self w st q (s : gset string) n :
  n ∈ keep_class self w st q s <-> n ∈ s /\ carries self w st n q.
Proof.
  unfold keep_class, carries. rewrite <- inventory_nodes_listed.
  rewrite elem_of_intersection, elem_of_list_to_set.
  rewrite list_elem_of_fmap. split.
  - intros (Hs & [k v] & -> & Hin). split; [exact Hs|].
    apply list_elem_of_In, filter_In in Hin as [Hin Hc].
    exists v. split; [apply list_elem_of_In; exact Hin | apply class_member_spec; exact Hc].
  - intros (Hs & v & Hin & Hc). split; [exact Hs|]. exists (n, v). split; [reflexivity|].
    apply list_elem_of_In, filter_In. split; [apply list_elem_of_In; exact Hin|].
    apply class_member_spec. exact Hc.
Qed.

Lemma stage_effective fv keep (s : gset string) :
  stage fv keep s = match effective fv with Some q => keep q s | None => s end.
Proof.
  unfold stage, effective. destruct fv as [p|]; [|reflexivity].
  cbn [Py.truthy_str default from_option id].
  destruct (negb (String.eqb p "")); [|reflexivity]. cbn [andb].
  destruct (filter_grammar (PyStr.strip p)) eqn:Hg.
  - rewrite (validate_filter_pattern_accepts _ Hg). reflexivity.
  - destruct (validate_filter_pattern_refuses _ Hg) as [msg ->]. reflexivity.
Qed.

Lemma effective_absent fv : Py.truthy_str fv = false -> effective fv = None.
Proof.
  destruct fv as [p|]; [|reflexivity]. cbn. intros H. rewrite H. reflexivity.
Qed.

(** An inventory with a node is the answer of an installed classifier
    that was really run. *)
Lemma inventory_nodes_live self w st n :
  n ∈ (inventory_nodes self w st).*1 ->
  Py.truthy_str (ReclassManager.reclass_path self) = true /\
  ReclassManager.dry_run self = false.
Proof.
  unfold inventory_nodes. rewrite manager_get_inventory_data_val.
  destruct (Py.truthy_str _); cbn [negb]; [|intros H; inversion H].
  destruct (ReclassManager.dry_run self); [intros H; inversion H | auto].
Qed.

(** For a listed node the test of the project filter reads the answer of
    the classifier to the query for the name without surrounding blanks. *)
Lemma project_is_listed self w st n q :
  documented self w ->
  n ∈ (inventory_nodes self w st).*1 ->
  project_is self w st n q = true <->
  node_name_grammar (PyStr.strip n) = true /\ in_project self w st (PyStr.strip n) q.
Proof.
  intros [_ Hdoc] Hin. apply inventory_nodes_live in Hin as [Hrp Hdry].
  unfold project_is, ReclassManager.get_node_parameters.
  rewrite manager_accessor_val, manager_node_data_answer. unfold node_answer.
  rewrite Hrp, Hdry. cbn [andb negb]. rewrite andb_false_r.
  unfold in_project, node_parameters.
  destruct (node_name_grammar (PyStr.strip n)); cbn [andb].
  2:{ split; [discriminate | intros [H _]; discriminate]. }
  destruct (reclass w _ st) as [stderr|stdout] eqn:Hr.
  { split; [discriminate | intros (_ & ps & H & _); discriminate]. }
  destruct (json_loads w stdout) as [msg|doc] eqn:Hl.
  { split; [discriminate | intros (_ & ps & H & _); discriminate]. }
  pose proof (Hdoc _ _ _ _ Hr Hl) as Hshape.
  destruct doc as [| | | | |d]; try discriminate.
  apply node_document_parameters in Hshape. unfold field in Hshape.
  destruct (Py.lookup "parameters" d) as [x|].
  - apply is_dict_inv in Hshape as [ps ->]. cbn [default from_option id].
    rewrite eq_str_true. split.
    + intros H. split; [reflexivity|]. exists ps. split; [reflexivity|].
      destruct (Py.lookup "project" ps); cbn in H; congruence.
    + intros (_ & ps' & [= <-] & H). rewrite H. reflexivity.
  - cbn. split; [discriminate | intros (_ & ps & H & _); discriminate].
Qed.

Lemma carries_existsb self w st n q :
  carries self w st n q ->
  existsb (fun e => String.eqb e.1 n && class_member q e.2) (inventory_nodes self w st) = true.
Proof.
  intros (node_data & Hin & Hc). rewrite <- inventory_nodes_listed in Hin.
  apply existsb_exists. exists (n, node_data).
  split; [apply list_elem_of_In; exact Hin|]. cbn [fst snd].
  rewrite String.eqb_refl. apply class_member_spec. exact Hc.
Qed.

Lemma carries_listed self w st n q :
  carries self w st n q -> n ∈ (inventory_nodes self w st).*1.
Proof.
  intros (v & Hin & _). rewrite <- inventory_nodes_listed in Hin.
  apply list_elem_of_fmap. exists (n, v). auto.
Qed.

Lemma stage_valid q keep (s : gset string) :
  InputValidator.validate_filter_pattern q = Ok q -> stage (Some q) keep s = keep q s.
Proof.
  intros Hv. unfold stage. rewrite (valid_filter_given q Hv). cbn [default from_option id].
  rewrite Hv. reflexivity.
Qed.

(** C2, as stated, fails: a class filter given with surrounding blanks
    keeps the nodes of the class without them, and a listed node whose name
    is outside the naming grammar does not pass the project filter,
    whatever its parameters are. *)
Lemma class_filter_value_is_stripped :
  ~ (forall self w st class_name l,
       documented self w ->
       val (ReclassManager.filter_nodes self w None (Some class_name) None st) = Ok l ->
       forall n, n ∈ l <-> carries self w st n class_name) /\
  ~ (forall self w st project_name l,
       documented self w ->
       val (ReclassManager.filter_nodes self w None None (Some project_name) st) = Ok l ->
       forall n, n ∈ l <->
                 n ∈ (listed self w st).*1 /\ in_project self w st n project_name).
Proof.
  split.
  - intros H.
    assert (Hrun : val (ReclassManager.filter_nodes live_manager (fleet_world three_nodes)
                          None (Some " web ") None ∅) = Ok ["a1"; "a3"]) by reflexivity.
    specialize (H live_manager (fleet_world three_nodes) ∅ " web " ["a1"; "a3"]
                  (fleet_world_documented live_manager three_nodes eq_refl) Hrun "a1").
    destruct H as [H _]. apply carries_existsb in H; [|repeat constructor].
    vm_compute in H. discriminate H.
  - intros H.
    assert (Hrun : val (ReclassManager.filter_nodes live_manager (fleet_world spaced_nodes)
                          None None (Some "p1") ∅) = Ok ["a2"]) by reflexivity.
    specialize (H live_manager (fleet_world spaced_nodes) ∅ "p1" ["a2"]
                  (fleet_world_documented live_manager spaced_nodes eq_refl) Hrun "a 1").
    destruct H as [_ H].
    assert (Hin : "a 1" ∈ ["a2"]).
    { apply H. split; [vm_compute; left|].
      exists [("project", JStr "p1")]. split; reflexivity. }
    apply elem_of_cons in Hin as [Hin | Hin]; [discriminate | inversion Hin].
Qed.

(** C2, amended: a filter works with its value without surrounding
    blanks, and a filter whose value is absent, empty or outside the filter
    grammar filters nothing.  A listed node passes the class filter exactly
    when that value is an element of the classes sequence of its inventory
    entry; it passes the project filter exactly when its name without
    surrounding blanks is in the naming grammar and the parameters the
    classifier resolves for that name have the top-level key [project] with
    exactly that value.  On the three nodes of the example, class web and
    project p1 leave a1, project p1 alone leaves a1 and a2. *)
Theorem class_and_project_filters self w st class_filter project_filter :
  documented self w ->
  (exists l,
     val (ReclassManager.filter_nodes self w None class_filter project_filter st) = Ok l /\
     forall n, n ∈ l <->
       n ∈ (listed self w st).*1 /\
       match effective class_filter with
       | Some class_name => carries self w st n class_name
       | None => True
       end /\
       match effective project_filter with
       | Some project_name =>
           node_name_grammar (PyStr.strip n) = true /\
           in_project self w st (PyStr.strip n) project_name
       | None => True
       end) /\
  val (ReclassManager.filter_nodes live_manager (fleet_world three_nodes)
         None (Some "web") (Some "p1") ∅) = Ok ["a1"] /\
  val (ReclassManager.filter_nodes live_manager (fleet_world three_nodes)
         None None (Some "p1") ∅) = Ok ["a1"; "a2"].
Proof.
  intros Hdoc. split; [|split; reflexivity].
  rewrite filter_nodes_val by exact Hdoc. eexists. split; [reflexivity|]. intros n.
  rewrite <- inventory_nodes_listed. unfold any_filter. cbn [Py.truthy_str orb].
  destruct (Py.truthy_str class_filter || Py.truthy_str project_filter) eqn:Hany.
  - rewrite elem_of_sorted, elem_of_elements, !stage_effective. cbn [effective].
    destruct (effective project_filter) as [q|]; destruct (effective class_filter) as [c|].
    + unfold keep_project. rewrite elem_of_filter, elem_of_keep_class, elem_of_list_to_set.
      split.
      * intros (Hp & Hl & Hc). apply (project_is_listed _ _ _ _ _ Hdoc Hl) in Hp. tauto.
      * intros (Hl & Hc & Hp). apply (project_is_listed _ _ _ _ _ Hdoc Hl) in Hp. tauto.
    + unfold keep_project. rewrite elem_of_filter, elem_of_list_to_set.
      split.
      * intros (Hp & Hl). apply (project_is_listed _ _ _ _ _ Hdoc Hl) in Hp. tauto.
      * intros (Hl & _ & Hp). apply (project_is_listed _ _ _ _ _ Hdoc Hl) in Hp. tauto.
    + rewrite elem_of_keep_class, elem_of_list_to_set. tauto.
    + rewrite elem_of_list_to_set. tauto.
  - apply orb_false_iff in Hany as [Hc Hp].
    rewrite (effective_absent _ Hc), (effective_absent _ Hp). tauto.
Qed.

Lemma class_and_project_filters_witness :
  exists l,
    val (ReclassManager.filter_nodes live_manager (fleet_world three_nodes)
           None (Some " web ") (Some "p1") ∅) = Ok l /\
    forall n, n ∈ l <->
      n ∈ (listed live_manager (fleet_world three_nodes) ∅).*1 /\
      carries live_manager (fleet_world three_nodes) ∅ n "web" /\
      node_name_grammar (PyStr.strip n) = true /\
      in_project live_manager (fleet_world three_nodes) ∅ (PyStr.strip n) "p1".
Proof.
  destruct (class_and_project_filters live_manager (fleet_world three_nodes) ∅
              (Some " web ") (Some "p1")) as [H _].
  - apply fleet_world_documented. reflexivity.
  - exact H.
Defined.

(** ** Invalid filters *)

Section Invalid.

Variables (bad msg : string).
Hypothesis given : bad <> "".
Hypothesis invalid :
  InputValidator.validate_filter_pattern bad = Raise (ValidationError msg).

Lemma invalid_truthy : Py.truthy_str (Some bad) = true.
Proof. cbn. apply negb_true_iff, String.eqb_neq. exact given. Qed.

Lemma stage_invalid keep (s : gset string) : stage (Some bad) keep s = s.
Proof.
  unfold stage. rewrite invalid_truthy. cbn [default from_option id].
  rewrite invalid. reflexivity.
Qed.

Lemma apply_node_filter_invalid s st :
  ReclassManager.apply_node_filter (Some bad) s st
  = Out (Ok s) st [LogWarning ("Invalid node filter: " ++ msg)].
Proof.
  unfold ReclassManager.apply_node_filter. rewrite invalid_truthy.
  cbn [default from_option id]. rewrite invalid. reflexivity.
Qed.

Lemma apply_class_filter_invalid self w s st :
  ReclassManager.apply_class_filter self w (Some bad) s st
  = Out (Ok s) st [LogWarning ("Invalid class filter: " ++ msg)].
Proof.
  unfold ReclassManager.apply_class_filter. rewrite invalid_truthy.
  cbn [default from_option id]. rewrite invalid. reflexivity.
Qed.

Lemma apply_project_filter_invalid self w s st :
  ReclassManager.apply_project_filter self w (Some bad) s st
  = Out (Ok s) st [LogWarning ("Invalid project filter: " ++ msg)].
Proof.
  unfold ReclassManager.apply_project_filter. rewrite invalid_truthy.
  cbn [default from_option id]. rewrite invalid. reflexivity.
Qed.

End Invalid.

Lemma apply_class_filter_absent self w cf s st :
  Py.truthy_str cf = false ->
  ReclassManager.apply_class_filter self w cf s st = Out (Ok s) st [].
Proof. intros H. unfold ReclassManager.apply_class_filter. rewrite H. reflexivity. Qed.

Lemma apply_project_filter_absent self w pf s st :
  Py.truthy_str pf = false ->
  ReclassManager.apply_project_filter self w pf s st = Out (Ok s) st [].
Proof. intros H. unfold ReclassManager.apply_project_filter. rewrite H. reflexivity. Qed.

Lemma stage_absent f keep (s : gset string) : Py.truthy_str f = false -> stage f keep s = s.
Proof. intros H. unfold stage. rewrite H. reflexivity. Qed.

(** A run with a filter given ends in [sorted], so sorting its result
    again changes nothing. *)
Lemma filter_nodes_normal self w nf cf pf st :
  any_filter nf cf pf = true ->
  res_map normalise (val (ReclassManager.filter_nodes self w nf cf pf st))
  = val (ReclassManager.filter_nodes self w nf cf pf st).
Proof.
  intros Hany. rewrite filter_nodes_unfold, Hany.
  destruct (val (ReclassManager.list_nodes self w st)); [|reflexivity].
  destruct (val (ReclassManager.apply_class_filter _ _ _ _ st)); [|reflexivity].
  destruct (val (ReclassManager.apply_project_filter _ _ _ _ st)); [|reflexivity].
  cbn. rewrite normalise_sorted. reflexivity.
Qed.

(** The trace of a successful run contains the trace of each stage. *)
Lemma filter_nodes_trace self w nf cf pf st l :
  any_filter nf cf pf = true ->
  val (ReclassManager.filter_nodes self w nf cf pf st) = Ok l ->
  exists s1 s2 tr0 tr3,
    trace (ReclassManager.filter_nodes self w nf cf pf st) =
    (tr0 ++ trace (ReclassManager.apply_node_filter nf s1 st)
         ++ trace (ReclassManager.apply_class_filter self w cf (stage nf keep_name s1) st)
         ++ trace (ReclassManager.apply_project_filter self w pf s2 st) ++ tr3)%list.
Proof.
  intros Hany. unfold ReclassManager.filter_nodes. intros H.
  apply bind_ok_inv in H as (all_nodes & _ & H & ->).
  rewrite list_nodes_ro in *. fold (any_filter nf cf pf) in *. rewrite Hany in *.
  cbn [negb] in *.
  apply bind_ok_inv in H as (s1 & H1 & H & ->). rewrite apply_node_filter_ro in *.
  rewrite apply_node_filter_val in H1. injection H1 as <-.
  apply bind_ok_inv in H as (s2 & H2 & H & ->). rewrite apply_class_filter_ro in *.
  apply bind_ok_inv in H as (s3 & H3 & H & ->). rewrite apply_project_filter_ro in *.
  exists (list_to_set all_nodes), s2. eexists. eexists. reflexivity.
Qed.

Lemma any_filter_l bad cf pf : bad <> "" -> any_filter (Some bad) cf pf = true.
Proof. intros H. unfold any_filter. rewrite (invalid_truthy bad H). reflexivity. Qed.

Lemma any_filter_m bad nf pf : bad <> "" -> any_filter nf (Some bad) pf = true.
Proof.
  intros H. unfold any_filter. rewrite (invalid_truthy bad H).
  rewrite orb_true_r. reflexivity.
Qed.

Lemma any_filter_r bad nf cf : bad <> "" -> any_filter nf cf (Some bad) = true.
Proof. intros H. unfold any_filter. rewrite (invalid_truthy bad H). apply orb_true_r. Qed.

(** C4, as stated, fails: an invalid class filter given alone returns the
    sorted listing, the run without it returns the listing in the
    classifier's order. *)
Lemma invalid_only_filter_sorts_the_listing :
  InputValidator.validate_filter_pattern "web;rm"
  = Raise (ValidationError "Invalid filter pattern: web;rm") /\
  val (ReclassManager.filter_nodes live_manager (fleet_world three_nodes)
         None (Some "web;rm") None ∅) = Ok ["a1"; "a2"; "a3"] /\
  val (ReclassManager.filter_nodes live_manager (fleet_world three_nodes)
         None None None ∅) = Ok ["a3"; "a1"; "a2"] /\
  val (ReclassManager.filter_nodes live_manager (fleet_world three_nodes)
         None (Some "web;rm") None ∅)
  <> val (ReclassManager.filter_nodes live_manager (fleet_world three_nodes)
            None None None ∅).
Proof. repeat split; try reflexivity. vm_compute. discriminate. Qed.

(** C4, amended: a given filter value that fails validation is skipped
    with a warning and never raises or empties the result; the result
    equals that of the run without it when another filter is given, and is
    its sorted duplicate-free form (the same node names) when the invalid
    filter was the only one. *)
Theorem invalid_filter_is_skipped self w st nf cf pf bad msg :
  bad <> "" ->
  InputValidator.validate_filter_pattern bad = Raise (ValidationError msg) ->
  skipped self w st
    (ReclassManager.filter_nodes self w (Some bad) cf pf)
    (ReclassManager.filter_nodes self w None cf pf)
    (Py.truthy_str cf || Py.truthy_str pf)
    ("Invalid node filter: " ++ msg) /\
  skipped self w st
    (ReclassManager.filter_nodes self w nf (Some bad) pf)
    (ReclassManager.filter_nodes self w nf None pf)
    (Py.truthy_str nf || Py.truthy_str pf)
    ("Invalid class filter: " ++ msg) /\
  skipped self w st
    (ReclassManager.filter_nodes self w nf cf (Some bad))
    (ReclassManager.filter_nodes self w nf cf None)
    (Py.truthy_str nf || Py.truthy_str cf)
    ("Invalid project filter: " ++ msg).
Proof.
  intros Hgiven Hbad. split; [|split]; (split; [|split]).
  - (* node filter: value *)
    rewrite !filter_nodes_unfold, (any_filter_l bad cf pf Hgiven).
    unfold any_filter. cbn [Py.truthy_str orb].
    destruct (val (ReclassManager.list_nodes self w st)) as [all_nodes|e];
      [|destruct (_ || _); reflexivity].
    rewrite (stage_invalid bad msg Hgiven Hbad), (stage_absent None) by reflexivity.
    destruct (Py.truthy_str cf) eqn:Hcf; [reflexivity|].
    destruct (Py.truthy_str pf) eqn:Hpf; [reflexivity|]. cbn [orb].
    rewrite apply_class_filter_absent by exact Hcf. cbn [val].
    rewrite apply_project_filter_absent by exact Hpf. reflexivity.
  - intros l Hl.
    destruct (filter_nodes_trace _ _ _ _ _ _ _ (any_filter_l bad cf pf Hgiven) Hl)
      as (s1 & s2 & tr0 & tr3 & ->).
    rewrite (apply_node_filter_invalid bad msg Hgiven Hbad). cbn [trace].
    rewrite !elem_of_app, list_elem_of_singleton. auto.
  - intros Hdoc. rewrite filter_nodes_val by exact Hdoc. eauto.
  - (* class filter: value *)
    rewrite !filter_nodes_unfold, (any_filter_m bad nf pf Hgiven).
    unfold any_filter. cbn [Py.truthy_str orb]. rewrite orb_false_r.
    destruct (val (ReclassManager.list_nodes self w st)) as [all_nodes|e];
      [|destruct (_ || _); reflexivity].
    rewrite (apply_class_filter_invalid bad msg Hgiven Hbad). cbn [val].
    destruct (Py.truthy_str nf) eqn:Hnf.
    + cbn [orb]. rewrite apply_class_filter_absent by reflexivity. reflexivity.
    + cbn [orb]. destruct (Py.truthy_str pf) eqn:Hpf.
      * rewrite apply_class_filter_absent by reflexivity. reflexivity.
      * rewrite (stage_absent nf) by exact Hnf.
        rewrite apply_project_filter_absent by exact Hpf. reflexivity.
  - intros l Hl.
    destruct (filter_nodes_trace _ _ _ _ _ _ _ (any_filter_m bad nf pf Hgiven) Hl)
      as (s1 & s2 & tr0 & tr3 & ->).
    rewrite (apply_class_filter_invalid bad msg Hgiven Hbad). cbn [trace].
    rewrite !elem_of_app, list_elem_of_singleton. auto.
  - intros Hdoc. rewrite filter_nodes_val by exact Hdoc. eauto.
  - (* project filter: value *)
    rewrite !filter_nodes_unfold, (any_filter_r bad nf cf Hgiven).
    unfold any_filter. cbn [Py.truthy_str orb]. rewrite orb_false_r.
    destruct (val (ReclassManager.list_nodes self w st)) as [all_nodes|e];
      [|destruct (_ || _); reflexivity].
    destruct (Py.truthy_str nf) eqn:Hnf.
    + cbn [orb].
      destruct (val (ReclassManager.apply_class_filter _ _ _ _ st)) as [s2|e]; [|reflexivity].
      rewrite (apply_project_filter_invalid bad msg Hgiven Hbad).
      rewrite apply_project_filter_absent by reflexivity. reflexivity.
    + cbn [orb]. destruct (Py.truthy_str cf) eqn:Hcf.
      * destruct (val (ReclassManager.apply_class_filter _ _ _ _ st)) as [s2|e];
          [|reflexivity].
        rewrite (apply_project_filter_invalid bad msg Hgiven Hbad).
        rewrite apply_project_filter_absent by reflexivity. reflexivity.
      * rewrite (stage_absent nf) by exact Hnf.
        rewrite apply_class_filter_absent by exact Hcf. cbn [val].
        rewrite (apply_project_filter_invalid bad msg Hgiven Hbad). reflexivity.
  - intros l Hl.
    destruct (filter_nodes_trace _ _ _ _ _ _ _ (any_filter_r bad nf cf Hgiven) Hl)
      as (s1 & s2 & tr0 & tr3 & ->).
    rewrite (apply_project_filter_invalid bad msg Hgiven Hbad). cbn [trace].
    rewrite !elem_of_app, list_elem_of_singleton. auto.
  - intros Hdoc. rewrite filter_nodes_val by exact Hdoc. eauto.
Qed.

Lemma invalid_filter_is_skipped_witness :
  skipped live_manager (fleet_world three_nodes) ∅
    (ReclassManager.filter_nodes live_manager (fleet_world three_nodes)
       (Some "a*") (Some "web;rm") None)
    (ReclassManager.filter_nodes live_manager (fleet_world three_nodes)
       (Some "a*") None None)
    true
    "Invalid class filter: Invalid filter pattern: web;rm".
Proof.
  destruct (invalid_filter_is_skipped live_manager (fleet_world three_nodes) ∅
              (Some "a*") None None "web;rm" "Invalid filter pattern: web;rm")
    as (_ & H & _).
  - discriminate.
  - reflexivity.
  - exact H.
Defined.

(** ** Node-name patterns *)


(** Without a [*] the filter keeps the one name equal to it. *)
Lemma keep_name_exact q (s : gset string) n :
  PyStr.contains_char "*" q = false ->
  n ∈ keep_name q s <-> n ∈ s /\ n = q.
Proof.
  intros H. unfold keep_name. rewrite H, elem_of_filter. tauto.
Qed.

Lemma star_skip (k : string -> bool -> bool) (k' : string -> bool) n b :
  (forall m b', PyStr.contains_char "010" m = false -> k m b' = k' m) ->
  PyStr.contains_char "010" n = false ->
  Re.star k Re.AnyChar n b = skip k' n.
Proof.
  intros Hk. revert b. induction n as [|d n IH]; intros b Hn.
  - cbn. rewrite Hk by reflexivity. reflexivity.
  - cbn [Re.star skip]. rewrite Hk by exact Hn. f_equal.
    cbn [PyStr.contains_char] in Hn.
    destruct (Ascii.eqb "010" d) eqn:Hd; [discriminate|].
    cbn [Re.atom_ok]. rewrite Ascii.eqb_sym, Hd. cbn [negb andb].
    apply IH. exact Hn.
Qed.

(** On a pattern without a dot, and names without a newline, the compiled
    pattern matches as the specification reads the wildcard. *)
Lemma translate_glob q :
  str_forall filter_char q = true ->
  PyStr.contains_char "." q = false ->
  forall n b, PyStr.contains_char "010" n = false ->
              Re.match_here (translate q) n b = glob_prefix q n.
Proof.
  induction q as [|c q IH]; intros Hq Hdot n b Hn; [reflexivity|].
  cbn [str_forall] in Hq. apply andb_true_iff in Hq as [Hc Hq].
  cbn [PyStr.contains_char] in Hdot.
  destruct (Ascii.eqb "." c) eqn:Hcd; [discriminate|].
  specialize (IH Hq Hdot). cbn [translate glob_prefix].
  destruct (Ascii.eqb c "*") eqn:Hs.
  - cbn [Re.match_here]. apply star_skip; [|exact Hn].
    intros m b' Hm. apply IH. exact Hm.
  - rewrite Ascii.eqb_sym, Hcd. cbn [Re.match_here].
    destruct n as [|d n]; [reflexivity|].
    cbn [PyStr.contains_char] in Hn.
    destruct (Ascii.eqb "010" d); [discriminate|].
    cbn [Re.atom_ok]. rewrite (Ascii.eqb_sym d c). f_equal. apply IH. exact Hn.
Qed.

Lemma keep_name_glob q (s : gset string) n :
  InputValidator.validate_filter_pattern q = Ok q ->
  PyStr.contains_char "*" q = true ->
  PyStr.contains_char "." q = false ->
  PyStr.contains_char "010" n = false ->
  n ∈ keep_name q s <-> n ∈ s /\ glob_prefix q n = true.
Proof.
  intros Hv Hstar Hdot Hn. apply validate_filter_pattern_ok in Hv as [_ Hg].
  apply filter_grammar_chars in Hg.
  unfold keep_name. rewrite Hstar, (compile_replace q Hg), elem_of_filter.
  unfold Re.re_match. rewrite (translate_glob q Hg Hdot n true Hn). tauto.
Qed.

(** The examples of the wildcard property hold. *)
Lemma wildcard_examples :
  val (ReclassManager.filter_nodes live_manager (fleet_world web_nodes)
         (Some "web-*") None None ∅) = Ok ["web-01"; "web-010"; "web-02"] /\
  val (ReclassManager.filter_nodes live_manager (fleet_world web_nodes)
         (Some "web-01") None None ∅) = Ok ["web-01"].
Proof. split; reflexivity. Qed.

(** C3 fails on the code for a pattern with a dot and a [*]: the dot of
    the filter [web.0*], which passes validation, is compiled as [.] and
    matches any character, so the node webX01 passes the filter, while the
    pattern read with [*] as the only wildcard matches web.01 and not
    webX01.  Without the [*] the same dot is literal. *)
Theorem dot_in_wildcard_filter_matches_any_character :
  InputValidator.validate_filter_pattern "web.0*" = Ok "web.0*" /\
  val (ReclassManager.filter_nodes live_manager (fleet_world dotted_nodes)
         (Some "web.0*") None None ∅) = Ok ["web.01"; "webX01"] /\
  glob_prefix "web.0*" "web.01" = true /\
  glob_prefix "web.0*" "webX01" = false /\
  val (ReclassManager.filter_nodes live_manager (fleet_world dotted_nodes)
         (Some "web.01") None None ∅) = Ok ["web.01"].
Proof. repeat split; reflexivity. Qed.

(** ** The filesystem scan *)

Lemma string_app_assoc (a b c : string) : (a ++ b) ++ c = a ++ (b ++ c).
Proof.
  induction a as [|d a IH]; [reflexivity|].
  change (String d a ++ b) with (String d (a ++ b)).
  change (String d (a ++ b) ++ c) with (String d ((a ++ b) ++ c)).
  rewrite IH. reflexivity.
Qed.

Lemma replace_char_app c r a b :
  PyStr.replace_char c r (a ++ b) = PyStr.replace_char c r a ++ PyStr.replace_char c r b.
Proof.
  induction a as [|d a IH]; [reflexivity|].
  change (String d a ++ b) with (String d (a ++ b)). cbn [PyStr.replace_char].
  rewrite IH. destruct (Ascii.eqb c d); [|reflexivity].
  rewrite string_app_assoc. reflexivity.
Qed.

Lemma replace_char_absent c r a :
  PyStr.contains_char c a = false -> PyStr.replace_char c r a = a.
Proof.
  induction a as [|d a IH]; [reflexivity|]. cbn.
  destruct (Ascii.eqb c d); [discriminate|]. intros H. rewrite IH by exact H. reflexivity.
Qed.

Lemma replace_join (comps : list string) :
  Forall no_separator comps ->
  PyStr.replace_char "/" "." (PyStr.join "/" comps) = PyStr.join "." comps.
Proof.
  induction 1 as [|x l Hx Hl IH]; [reflexivity|].
  destruct l as [|y l]; [apply replace_char_absent; exact Hx|].
  change (PyStr.join "/" (x :: y :: l)) with (x ++ "/" ++ PyStr.join "/" (y :: l)).
  change (PyStr.join "." (x :: y :: l)) with (x ++ "." ++ PyStr.join "." (y :: l)).
  rewrite !replace_char_app, IH, (replace_char_absent _ _ x Hx). reflexivity.
Qed.

Lemma for_each_append {A} (f : A -> string) (l : list A) (acc : list string) st :
  for_each l acc (fun nodes x => ret (nodes ++ [f x])%list) st
  = Out (Ok (acc ++ (f <$> l))%list) st [].
Proof.
  revert acc. induction l as [|x l IH]; intros acc.
  - cbn. rewrite app_nil_r. reflexivity.
  - cbn [for_each]. unfold bind. cbn. rewrite IH. cbn.
    rewrite <- app_assoc. reflexivity.
Qed.

Lemma relative_to_app q p rel : Path.relative_to q p = Some rel -> q = (p ++ rel)%list.
Proof.
  revert q. induction p as [|a p IH]; intros q H.
  - destruct q; [discriminate|]. injection H as <-. reflexivity.
  - destruct q as [|b q]; [discriminate|]. cbn in H.
    destruct (String.eqb_spec a b) as [<- | ]; [|discriminate].
    cbn. f_equal. apply IH. exact H.
Qed.

Lemma rglob_all_in st p q rel :
  (q, rel) ∈ Path.rglob_all st p -> q = (p ++ rel)%list /\ is_Some (st !! q).
Proof.
  unfold Path.rglob_all. destruct (Path.is_dir st p); [|intros H; inversion H].
  rewrite list_elem_of_omap. intros (q' & Hq' & H). cbn beta in H.
  destruct (Path.relative_to q' p) as [rel'|] eqn:Hrel; [|discriminate].
  destruct (Path.reachable st p rel'); [|discriminate].
  injection H as -> ->. split; [apply relative_to_app; exact Hrel|].
  apply list_elem_of_fmap in Hq' as ([k e] & -> & Hke).
  apply elem_of_map_to_list in Hke. exists e. exact Hke.
Qed.

Lemma discovered_components inventory_dir st q rel :
  wf_fs st -> (q, rel) ∈ discovered inventory_dir st -> Forall no_separator rel.
Proof.
  intros Hwf. unfold discovered, Path.rglob_suffix.
  destruct (Path.exists_ st _); [|intros H; inversion H].
  intros H. apply list_elem_of_In, filter_In in H as [H _].
  apply list_elem_of_In, rglob_all_in in H as [-> [e He]].
  apply Hwf in He. apply Forall_app in He as [_ He]. exact He.
Qed.

Lemma no_separator_substring n m s :
  no_separator s -> no_separator (String.substring n m s).
Proof.
  unfold no_separator. revert n m. induction s as [|c s IH]; intros n m H.
  - destruct n, m; reflexivity.
  - cbn [PyStr.contains_char] in H.
    destruct (Ascii.eqb "/" c) eqn:Hc; [discriminate|].
    destruct n as [|n]; destruct m as [|m];
      cbn [String.substring PyStr.contains_char]; try reflexivity.
    + rewrite Hc. apply IH. exact H.
    + apply IH. exact H.
    + apply IH. exact H.
Qed.

Lemma with_suffix_components rel :
  Forall no_separator rel -> Forall no_separator (Path.with_suffix_empty rel).
Proof.
  intros H. unfold Path.with_suffix_empty. destruct rel as [|c rel]; [constructor|].
  apply Forall_app. split.
  - apply Forall_forall. intros x Hx. rewrite Forall_forall in H. apply H.
    apply list_elem_of_In. apply list_elem_of_In in Hx.
    clear -Hx. revert c Hx. induction rel as [|d rel IH]; intros c Hx; [destruct Hx|].
    cbn [removelast] in Hx. destruct Hx as [<- | Hx]; [left; reflexivity|].
    right. apply IH. exact Hx.
  - constructor; [|constructor]. apply no_separator_substring.
    rewrite Forall_forall in H. apply H. unfold Path.name.
    apply list_elem_of_In. clear. revert c. induction rel as [|d rel IH]; intros c.
    + left. reflexivity.
    + right. apply (IH d).
Qed.

Lemma with_suffix_dotted rel :
  PyStr.join "." (Path.with_suffix_empty rel) = dotted_name rel.
Proof. destruct rel; reflexivity. Qed.

Lemma scan_nodes self st :
  wf_fs st ->
  ReclassParser._scan_nodes_from_filesystem self st
  = Out (Ok (PyStr.sorted
               ((fun qr => dotted_name (snd qr))
                  <$> discovered (ReclassParser.inventory_dir self) st))) st [].
Proof.
  intros Hwf. unfold ReclassParser._scan_nodes_from_filesystem.
  assert (Hd := discovered_components (ReclassParser.inventory_dir self) st).
  unfold discovered in *. unfold bind, get_fs. cbn.
  destruct (Path.exists_ st _); [|reflexivity]. cbn.
  rewrite (for_each_append
             (fun node_file =>
                PyStr.replace_char "/" "."
                  (Path.str_rel (Path.with_suffix_empty (snd node_file))))).
  cbn. f_equal. f_equal. f_equal.
  apply list_fmap_ext. intros i [q rel] Hi. cbn.
  unfold Path.str_rel. rewrite replace_join; [apply with_suffix_dotted|].
  apply with_suffix_components. apply (Hd q rel Hwf).
  eapply list_elem_of_lookup_2. exact Hi.
Qed.

(** C8: when the classifier is not available, [list_nodes] scans the
    [nodes] subtree and returns, sorted, the dotted name of each entry it
    discovers there: the components of the relative path, the extension
    stripped, joined by dots.  Nothing is executed or changed. *)
Theorem list_nodes_scans_without_classifier self w st :
  Py.truthy_str (ReclassParser.reclass_path self) = false ->
  wf_fs st ->
  exists l,
    ReclassParser.list_nodes self w st = Out (Ok l) st [] /\
    l ≡ₚ (fun qr => dotted_name (snd qr)) <$> discovered (ReclassParser.inventory_dir self) st /\
    Sorted String.le l.
Proof.
  intros Hrp Hwf. unfold ReclassParser.list_nodes. rewrite Hrp. cbn [negb].
  rewrite (scan_nodes self st Hwf). eexists. split; [reflexivity|]. split.
  - unfold PyStr.sorted. apply merge_sort_Permutation.
  - unfold PyStr.sorted. apply Sorted_merge_sort. apply _.
Qed.

Lemma wf_fs_empty : wf_fs ∅.
Proof. apply map_Forall_empty. Qed.

Lemma wf_fs_insert st p e : Forall no_separator p -> wf_fs st -> wf_fs (<[p := e]> st).
Proof. intros Hp Hst. apply map_Forall_insert_2; assumption. Qed.

Lemma scanned_tree_wf : wf_fs scanned_tree.
Proof.
  unfold scanned_tree.
  repeat (apply wf_fs_insert; [repeat constructor|]). apply wf_fs_empty.
Qed.

Lemma list_nodes_scans_without_classifier_witness :
  exists l,
    ReclassParser.list_nodes offline_parser (fleet_world []) scanned_tree
    = Out (Ok l) scanned_tree [] /\
    l ≡ₚ (fun qr => dotted_name (snd qr))
           <$> discovered (ReclassParser.inventory_dir offline_parser) scanned_tree /\
    Sorted String.le l.
Proof.
  apply (list_nodes_scans_without_classifier offline_parser (fleet_world []) scanned_tree).
  - reflexivity.
  - exact scanned_tree_wf.
Defined.

Example scan_example :
  val (ReclassParser.list_nodes offline_parser (fleet_world []) scanned_tree)
  = Ok ["db"; "web.w1.prod"].
Proof. vm_compute. reflexivity. Qed.

(** The extension of a name [base.yml] is [.yml]: stripping it leaves
    [base]. *)
Lemma rfind_dot_yml base i :
  Path.rfind_dot (base ++ ".yml") i = Some (i + String.length base)%nat.
Proof.
  revert i. induction base as [|c base IH]; intros i.
  - cbn. f_equal. lia.
  - change (String c base ++ ".yml") with (String c (base ++ ".yml")).
    cbn [Path.rfind_dot]. rewrite IH. cbn. f_equal. lia.
Qed.

Lemma length_app_yml base : String.length (base ++ ".yml") = (String.length base + 4)%nat.
Proof. induction base as [|c base IH]; [reflexivity|]. cbn. rewrite <- IH. reflexivity. Qed.

Lemma substring_app_l base rest :
  String.substring 0 (String.length base) (base ++ rest) = base.
Proof.
  induction base as [|c base IH]; [destruct rest; reflexivity|].
  change (String c base ++ rest) with (String c (base ++ rest)).
  cbn [String.length String.substring]. f_equal. exact IH.
Qed.

Lemma substring_all rest : String.substring 0 (String.length rest) rest = rest.
Proof. induction rest as [|d rest IH]; [reflexivity|]. cbn. f_equal. exact IH. Qed.

Lemma substring_app_r base rest :
  String.substring (String.length base) (String.length rest) (base ++ rest) = rest.
Proof.
  induction base as [|c base IH]; [apply substring_all|].
  change (String c base ++ rest) with (String c (base ++ rest)).
  cbn [String.length String.substring]. exact IH.
Qed.

Lemma strip_suffix_yml base :
  base <> "" -> Path.strip_suffix (base ++ ".yml") = base.
Proof.
  intros Hne.
  assert (Hlen : (0 < String.length base)%nat)
    by (destruct base; [contradiction | cbn; lia]).
  unfold Path.strip_suffix, Path.suffix.
  rewrite rfind_dot_yml, length_app_yml. cbn [Nat.add].
  replace (0 <? String.length base)%nat with true by (symmetry; apply Nat.ltb_lt; lia).
  replace (String.length base <? String.length base + 4 - 1)%nat with true
    by (symmetry; apply Nat.ltb_lt; lia).
  cbn [andb].
  replace (String.length base + 4 - String.length base)%nat
    with (String.length ".yml") by (cbn; lia).
  rewrite substring_app_r.
  replace (String.length base + 4 - String.length ".yml")%nat
    with (String.length base) by (cbn; lia).
  apply substring_app_l.
Qed.

(** ** The filesystem *)

Lemma stat_insert st q e p :
  Path.stat (<[q := e]> st) p =
  match p with
  | [] => Some Dir
  | _ => if decide (q = p) then Some e else Path.stat st p
  end.
Proof.
  destruct p as [|c p]; [reflexivity|]. cbn [Path.stat].
  destruct (decide (q = c :: p)) as [-> | Hne].
  - apply lookup_insert_eq.
  - apply lookup_insert_ne. exact Hne.
Qed.

Lemma dirs_kept_refl st : dirs_kept st st.
Proof. intros p H. exact H. Qed.

Lemma dirs_kept_trans st1 st2 st3 : dirs_kept st1 st2 -> dirs_kept st2 st3 -> dirs_kept st1 st3.
Proof. intros H1 H2 p H. apply H2, H1, H. Qed.

Lemma same_files_refl st : same_files st st.
Proof. intros p c. reflexivity. Qed.

Lemma same_files_trans st1 st2 st3 : same_files st1 st2 -> same_files st2 st3 -> same_files st1 st3.
Proof.
  intros H1 H2 p c. split; intros H.
  - apply H1, H2, H.
  - apply H2, H1, H.
Qed.

Lemma dirs_kept_insert_dir st q : dirs_kept st (<[q := Dir]> st).
Proof.
  intros p. unfold Path.is_dir. rewrite stat_insert.
  destruct p as [|c p]; [reflexivity|]. destruct (decide (q = c :: p)); auto.
Qed.

(** Creating a directory where there is no file changes no file. *)
Lemma same_files_insert_dir st q :
  (forall content, Path.stat st q <> Some (File content)) -> same_files st (<[q := Dir]> st).
Proof.
  intros Hq p content. rewrite stat_insert.
  destruct p as [|c p]; [reflexivity|].
  destruct (decide (q = c :: p)) as [-> | Hne]; [|reflexivity].
  split; [discriminate|]. intros H. exfalso. exact (Hq content H).
Qed.

(** Writing a file where there is no directory removes no directory. *)
Lemma dirs_kept_insert_file st q content :
  Path.stat st q <> Some Dir -> dirs_kept st (<[q := File content]> st).
Proof.
  intros Hq p. unfold Path.is_dir. rewrite stat_insert.
  destruct p as [|c p]; [reflexivity|].
  destruct (decide (q = c :: p)) as [-> | Hne]; [|auto].
  destruct (Path.stat st (c :: p)) as [[]|]; try discriminate. contradiction.
Qed.

Lemma os_mkdir_ok st p st' :
  Path.os_mkdir st p = Ok st' -> dirs_kept st st' /\ same_files st st'.
Proof.
  unfold Path.os_mkdir. destruct (Path.stat st p) eqn:Hp; [discriminate|].
  destruct (Path.stat st (Path.parent p)) as [[]|]; try discriminate.
  intros [= <-]. split; [apply dirs_kept_insert_dir|].
  apply same_files_insert_dir. intros c. rewrite Hp. discriminate.
Qed.

Lemma mkdir_exist_ok_ok st p st' :
  Path.mkdir_exist_ok st p = Ok st' ->
  dirs_kept st st' /\ same_files st st' /\ Path.is_dir st' p = true.
Proof.
  unfold Path.mkdir_exist_ok. destruct (Path.os_mkdir st p) as [s|e] eqn:Hm.
  - intros [= <-]. destruct (os_mkdir_ok _ _ _ Hm) as [H1 H2].
    split; [exact H1|]. split; [exact H2|].
    revert Hm. unfold Path.os_mkdir. destruct (Path.stat st p); [discriminate|].
    destruct (Path.stat st (Path.parent p)) as [[]|]; try discriminate.
    intros [= <-]. unfold Path.is_dir. rewrite stat_insert.
    destruct p; [reflexivity|]. rewrite decide_True by reflexivity. reflexivity.
  - destruct (Path.is_dir st p) eqn:Hd; [|discriminate]. intros [= <-].
    split; [apply dirs_kept_refl|]. split; [apply same_files_refl | exact Hd].
Qed.

Lemma mkdir_parents_rev_ok st rp st' :
  Path.mkdir_parents_rev st rp = Ok st' ->
  dirs_kept st st' /\ same_files st st' /\ Path.is_dir st' (rev rp) = true.
Proof.
  revert st'. induction rp as [|c rp IH]; intros st'.
  - intros [= <-]. split; [apply dirs_kept_refl|]. split; [apply same_files_refl|].
    reflexivity.
  - cbn [Path.mkdir_parents_rev]. cbv zeta.
    destruct (Path.stat st (rev (c :: rp))) as [[]|] eqn:Hp; [discriminate| |].
    + intros [= <-]. split; [apply dirs_kept_refl|]. split; [apply same_files_refl|].
      unfold Path.is_dir. rewrite Hp. reflexivity.
    + assert (Hnew : forall s, Path.is_dir (<[rev (c :: rp) := Dir]> s) (rev (c :: rp)) = true).
      { intros s. unfold Path.is_dir. rewrite stat_insert.
        destruct (rev (c :: rp)); [reflexivity|].
        rewrite decide_True by reflexivity. reflexivity. }
      destruct (Path.stat st (rev rp)) as [[]|] eqn:Hparent; [discriminate| |].
      * intros [= <-]. split; [apply dirs_kept_insert_dir|]. split; [|apply Hnew].
        apply (same_files_insert_dir st (rev (c :: rp))).
        intros content. rewrite Hp. discriminate.
      * destruct (Path.mkdir_parents_rev st rp) as [s|e]; [|discriminate].
        intros [= <-]. destruct (IH s eq_refl) as (Hd & Hf & _).
        split; [eapply dirs_kept_trans; [exact Hd | apply dirs_kept_insert_dir]|].
        split; [|apply Hnew].
        eapply same_files_trans; [exact Hf|].
        apply (same_files_insert_dir s (rev (c :: rp))). intros content Hc.
        apply Hf in Hc. rewrite Hp in Hc. discriminate.
Qed.

Lemma mkdir_parents_ok st p st' :
  Path.mkdir_parents st p = Ok st' ->
  dirs_kept st st' /\ same_files st st' /\ Path.is_dir st' p = true.
Proof.
  unfold Path.mkdir_parents. intros H. apply mkdir_parents_rev_ok in H.
  rewrite rev_involutive in H. exact H.
Qed.

(** On an existing directory [mkdir(parents=True, exist_ok=True)] does
    nothing. *)
Lemma mkdir_parents_existing st p :
  Path.is_dir st p = true -> Path.mkdir_parents st p = Ok st.
Proof.
  unfold Path.mkdir_parents, Path.is_dir. intros H.
  destruct (rev p) as [|c rp] eqn:Hrev; [reflexivity|].
  cbn [Path.mkdir_parents_rev]. rewrite <- Hrev, rev_involutive.
  destruct (Path.stat st p) as [[]|]; try discriminate. reflexivity.
Qed.

Lemma prepare_target_ok target st st' :
  prepare_target target st = Ok st' ->
  dirs_kept st st' /\ same_files st st' /\
  Path.is_dir st' (Path.child target "nodes") = true /\
  Path.is_dir st' (Path.child target "classes") = true.
Proof.
  unfold prepare_target.
  destruct (Path.mkdir_parents st target) as [s1|] eqn:H1; [|discriminate].
  destruct (Path.mkdir_exist_ok s1 (Path.child target "nodes")) as [s2|] eqn:H2; [|discriminate].
  intros H3.
  apply mkdir_parents_ok in H1 as (Hd1 & Hf1 & _).
  apply mkdir_exist_ok_ok in H2 as (Hd2 & Hf2 & Hn).
  apply mkdir_exist_ok_ok in H3 as (Hd3 & Hf3 & Hc).
  split; [eauto using dirs_kept_trans|]. split; [eauto using same_files_trans|].
  split; [apply Hd3; exact Hn | exact Hc].
Qed.

(** ** Computations that remove no directory *)

Lemma keeps_dirs_readonly {A} (m : M A) : readonly m -> keeps_dirs m.
Proof. intros H st. rewrite H. apply dirs_kept_refl. Qed.

Lemma keeps_dirs_bind {A B} (m : M A) (f : A -> M B) :
  keeps_dirs m -> (forall a, keeps_dirs (f a)) -> keeps_dirs (bind m f).
Proof.
  intros Hm Hf st. rewrite state_bind. destruct (val (m st)) as [a|e]; [|apply Hm].
  eapply dirs_kept_trans; [apply Hm | apply Hf].
Qed.

Lemma keeps_dirs_try_except {A} (m : M A) (h : exn -> M A) :
  keeps_dirs m -> (forall e, keeps_dirs (h e)) -> keeps_dirs (try_except m h).
Proof.
  intros Hm Hh st. unfold try_except. destruct (val (m st)) as [a|e] eqn:Hv; [apply Hm|].
  cbn [state]. eapply dirs_kept_trans; [apply Hm | apply Hh].
Qed.

Lemma keeps_dirs_fs_call (f : fs -> res fs) :
  (forall st st', f st = Ok st' -> dirs_kept st st') -> keeps_dirs (fs_call f).
Proof.
  intros Hf st. unfold fs_call. destruct (f st) as [st'|e] eqn:H; cbn [state].
  - apply Hf. exact H.
  - apply dirs_kept_refl.
Qed.

Lemma keeps_dirs_for_each {A B} (l : list A) (body : B -> A -> M B) :
  (forall acc x, keeps_dirs (body acc x)) -> forall acc, keeps_dirs (for_each l acc body).
Proof.
  intros Hbody. induction l as [|x l IH]; intros acc; cbn [for_each].
  - apply keeps_dirs_readonly, readonly_ret.
  - apply keeps_dirs_bind; [apply Hbody | intros a; apply IH].
Qed.

Lemma copy2_keeps_dirs src dst st st' :
  FileManager.copy2 src dst st = Ok st' -> dirs_kept st st'.
Proof.
  unfold FileManager.copy2.
  set (d := if Path.is_dir st dst then Path.child dst (Path.name src) else dst).
  destruct (Path.stat st src) as [[content|]|]; try discriminate.
  destruct (decide (src = d)); [discriminate|].
  destruct (Path.stat st d) as [[|]|] eqn:Hd; try discriminate.
  - destruct (Path.stat st (Path.parent d)) as [[]|]; try discriminate.
    intros [= <-]. apply dirs_kept_insert_file. rewrite Hd. discriminate.
  - destruct (Path.stat st (Path.parent d)) as [[]|]; try discriminate.
    intros [= <-]. apply dirs_kept_insert_file. rewrite Hd. discriminate.
Qed.

Lemma keeps_dirs_mkdir_parents p :
  keeps_dirs (fs_call (fun st => Path.mkdir_parents st p)).
Proof. apply keeps_dirs_fs_call. intros st st' H. apply mkdir_parents_ok in H. tauto. Qed.

Lemma copy_item_keeps_dirs destination item rel :
  keeps_dirs (FileManager.copy_item destination item rel).
Proof.
  unfold FileManager.copy_item.
  destruct (_ && _); [apply keeps_dirs_readonly, readonly_ret|].
  apply keeps_dirs_bind; [apply keeps_dirs_readonly, readonly_get_fs | intros st].
  destruct (Path.is_file st item).
  - apply keeps_dirs_bind; [apply keeps_dirs_mkdir_parents | intros _].
    apply keeps_dirs_fs_call. apply copy2_keeps_dirs.
  - destruct (Path.is_dir st item); [apply keeps_dirs_mkdir_parents|].
    apply keeps_dirs_readonly, readonly_ret.
Qed.

Lemma python_sync_keeps_dirs self source destination recursive :
  keeps_dirs (FileManager._python_sync self source destination recursive).
Proof.
  unfold FileManager._python_sync.
  apply keeps_dirs_bind; [apply keeps_dirs_readonly; ro | intros _].
  destruct (FileManager.dry_run self); [apply keeps_dirs_readonly; ro|].
  apply keeps_dirs_try_except; [|intros e; apply keeps_dirs_readonly; ro].
  apply keeps_dirs_bind; [apply keeps_dirs_readonly, readonly_get_fs | intros st].
  apply keeps_dirs_bind; [|intros _; apply keeps_dirs_readonly; ro].
  destruct (Path.is_file st source).
  - apply keeps_dirs_fs_call. apply copy2_keeps_dirs.
  - destruct (_ && _); [|apply keeps_dirs_readonly, readonly_ret].
    apply keeps_dirs_for_each. intros acc x. apply copy_item_keeps_dirs.
Qed.

Lemma val_try_except {A} (m : M A) (h : exn -> M A) st :
  val (try_except m h st) =
  match val (m st) with
  | Ok a => Ok a
  | Raise e => val (h e (state (m st)))
  end.
Proof. unfold try_except. destruct (val (m st)) eqn:H; [exact H | reflexivity]. Qed.

(** The Python copy never raises: an exception makes it return false. *)
Lemma python_sync_returns self source destination recursive st :
  exists b, val (FileManager._python_sync self source destination recursive st) = Ok b.
Proof.
  unfold FileManager._python_sync. rewrite val_bind. cbn [log_info emit val state].
  destruct (FileManager.dry_run self); [cbn; eauto|].
  rewrite val_try_except.
  match goal with |- context [match ?v with _ => _ end] => destruct v end; cbn; eauto.
Qed.

Lemma rsync_sync_returns self w source destination options st :
  rsync_keeps_dirs w ->
  (exists b, val (FileManager._rsync_sync self w source destination options st) = Ok b) /\
  dirs_kept st (state (FileManager._rsync_sync self w source destination options st)).
Proof.
  intros Hw. unfold FileManager._rsync_sync.
  destruct (negb _); [split; [cbn; eauto | apply dirs_kept_refl]|].
  unfold bind at 1. cbn.
  destruct (FileManager.dry_run self); [split; [cbn; eauto | apply dirs_kept_refl]|].
  unfold bind, run_rsync, log_info, log_warning, emit. cbn.
  match goal with |- context [rsync w ?cmd st] =>
    pose proof (Hw cmd st) as Hk; destruct (rsync w cmd st) as [[stderr|stdout] st'] end;
    cbn in *; split; eauto.
Qed.

Lemma file_manager_init w d st :
  exists tr, FileManager.init w d st
             = Out (Ok {| FileManager.dry_run := d; FileManager.rsync_path := which w "rsync" |})
                   st tr /\ no_exec tr.
Proof.
  unfold FileManager.init, FileManager._find_rsync.
  destruct (negb _); cbn; eexists; (split; [reflexivity | solve_no_exec]).
Qed.

Lemma fs_call_ok (f : fs -> res fs) st st' :
  f st = Ok st' -> fs_call f st = Out (Ok tt) st' [].
Proof. intros H. unfold fs_call. rewrite H. reflexivity. Qed.

Lemma fs_call_raise (f : fs -> res fs) st e :
  f st = Raise e -> fs_call f st = Out (Raise e) st [].
Proof. intros H. unfold fs_call. rewrite H. reflexivity. Qed.

(** [sync_directories] into an existing directory returns a truth value
    and removes no directory. *)
Lemma sync_directories_returns self w source destination options recursive st :
  rsync_keeps_dirs w ->
  Path.is_dir st destination = true ->
  (exists b, val (FileManager.sync_directories self w source destination options recursive st)
             = Ok b) /\
  dirs_kept st (state (FileManager.sync_directories self w source destination options
                         recursive st)).
Proof.
  intros Hw Hdst. unfold FileManager.sync_directories.
  rewrite val_bind, state_bind. cbn [get_fs val state].
  destruct (Path.exists_ st source); cbn [negb];
    [|cbn; split; [eauto | apply dirs_kept_refl]].
  rewrite val_bind, state_bind.
  rewrite (fs_call_ok _ st st (mkdir_parents_existing st destination Hdst)).
  cbn [val state]. destruct (Py.truthy_str _).
  - apply rsync_sync_returns. exact Hw.
  - split; [apply python_sync_returns | apply python_sync_keeps_dirs].
Qed.

(** ** The merge loop *)

Lemma bind_ext {A B} (m : M A) (k1 k2 : A -> M B) st :
  (forall a st', k1 a st' = k2 a st') -> bind m k1 st = bind m k2 st.
Proof. intros H. unfold bind. destruct (val (m st)); [rewrite H|]; reflexivity. Qed.

Lemma out_map_bind {A B C} (f : B -> C) (m : M A) (k : A -> M B) st :
  out_map f (bind m k st) = bind m (fun a st' => out_map f (k a st')) st.
Proof. unfold out_map, bind. destruct (val (m st)); reflexivity. Qed.

Lemma out_map_out_map {A B C} (f : A -> B) (g : B -> C) (o : out A) :
  out_map g (out_map f o) = out_map (fun a => g (f a)) o.
Proof. unfold out_map. cbn. destruct (val o); reflexivity. Qed.

Lemma out_map_ext {A B} (f g : A -> B) (o : out A) :
  (forall a, f a = g a) -> out_map f o = out_map g o.
Proof. intros H. unfold out_map. destruct (val o); cbn; [rewrite H|]; reflexivity. Qed.

(** A loop body that only lowers the flag it is given does the same
    work whatever the flag. *)
Lemma for_each_flag {A} (body : bool -> A -> M bool) :
  (forall b x st, body b x st = out_map (andb b) (body true x st)) ->
  forall l b st, for_each l b body st = out_map (andb b) (for_each l true body st).
Proof.
  intros Hbody. induction l as [|x l IH]; intros b st.
  - cbn. unfold out_map. cbn. rewrite andb_true_r. reflexivity.
  - cbn [for_each]. rewrite out_map_bind. unfold bind at 1 2.
    rewrite (Hbody b x st). unfold out_map at 1. cbn [val state trace].
    destruct (val (body true x st)) as [r|e]; [|reflexivity]. cbn [res_map].
    rewrite (IH (b && r)), (IH r), out_map_out_map.
    rewrite (out_map_ext (andb (b && r)) (fun a => b && (r && a))); [reflexivity|].
    intros a. symmetry. apply andb_assoc.
Qed.

Lemma merge_subdir_flag self w source target success subdir st :
  ReclassParser.merge_subdir self w source target success subdir st
  = out_map (andb success) (ReclassParser.merge_subdir self w source target true subdir st).
Proof.
  unfold ReclassParser.merge_subdir. rewrite out_map_bind. apply bind_ext. intros s st'.
  destruct (Path.exists_ s _).
  - rewrite out_map_bind. apply bind_ext. intros fm st''.
    rewrite out_map_bind. apply bind_ext. intros r st3. reflexivity.
  - unfold out_map. cbn. rewrite andb_true_r. reflexivity.
Qed.

Lemma merge_source_flag self w target success source st :
  ReclassParser.merge_source self w target success source st
  = out_map (andb success) (ReclassParser.merge_source self w target true source st).
Proof.
  unfold ReclassParser.merge_source. rewrite out_map_bind. apply bind_ext. intros s st'.
  destruct (negb _).
  - rewrite out_map_bind. apply bind_ext. intros _ st''.
    unfold out_map. cbn. rewrite andb_true_r. reflexivity.
  - apply for_each_flag. intros b x st''. apply merge_subdir_flag.
Qed.

Lemma merge_subdir_returns self w source target success subdir st :
  rsync_keeps_dirs w ->
  Path.is_dir st (Path.child target subdir) = true ->
  (exists b, val (ReclassParser.merge_subdir self w source target success subdir st) = Ok b) /\
  dirs_kept st (state (ReclassParser.merge_subdir self w source target success subdir st)).
Proof.
  intros Hw Hdir. unfold ReclassParser.merge_subdir.
  rewrite val_bind, state_bind. cbn [get_fs val state].
  destruct (Path.exists_ st _); [|cbn; split; [eauto | apply dirs_kept_refl]].
  destruct (file_manager_init w (ReclassParser.dry_run self) st) as (tr & Hinit & _).
  rewrite val_bind, state_bind, Hinit. cbn [val state].
  rewrite val_bind, state_bind.
  match goal with |- context [FileManager.sync_directories ?fm w ?s ?d ?o ?r st] =>
    destruct (sync_directories_returns fm w s d o r st Hw Hdir) as [[b Hb] Hk] end.
  rewrite Hb. cbn. split; [eauto | exact Hk].
Qed.

Lemma merge_source_returns self w target source st :
  rsync_keeps_dirs w ->
  Path.is_dir st (Path.child target "nodes") = true ->
  Path.is_dir st (Path.child target "classes") = true ->
  (exists b, val (ReclassParser.merge_source self w target true source st) = Ok b) /\
  dirs_kept st (state (ReclassParser.merge_source self w target true source st)).
Proof.
  intros Hw Hn Hc. unfold ReclassParser.merge_source.
  rewrite val_bind, state_bind. cbn [get_fs val state].
  destruct (negb _); [cbn; split; [eauto | apply dirs_kept_refl]|].
  cbn [for_each].
  destruct (merge_subdir_returns self w source target true "nodes" st Hw Hn)
    as [[b1 Hb1] Hk1].
  rewrite val_bind, state_bind, Hb1.
  set (st1 := state (ReclassParser.merge_subdir self w source target true "nodes" st)) in *.
  destruct (merge_subdir_returns self w source target b1 "classes" st1 Hw (Hk1 _ Hc))
    as [[b2 Hb2] Hk2].
  rewrite val_bind, state_bind, Hb2. cbn. split; [eauto|].
  eapply dirs_kept_trans; [exact Hk1 | exact Hk2].
Qed.


Lemma bind_fs_call_ok {B} (f : fs -> res fs) (k : unit -> M B) st st' :
  f st = Ok st' -> bind (fs_call f) k st = k tt st'.
Proof.
  intros H. unfold bind. rewrite (fs_call_ok _ _ _ H). cbn.
  destruct (k tt st'); reflexivity.
Qed.

Lemma bind_fs_call_raise {B} (f : fs -> res fs) (k : unit -> M B) st e :
  f st = Raise e -> bind (fs_call f) k st = Out (Raise e) st [].
Proof. intros H. unfold bind. rewrite (fs_call_raise _ _ _ H). reflexivity. Qed.

Lemma bind_log_info {B} msg (k : unit -> M B) st :
  bind (log_info msg) k st = Out (val (k tt st)) (state (k tt st)) (LogInfo msg :: trace (k tt st)).
Proof. reflexivity. Qed.

Lemma merge_inventories_prepared self w sources target st st1 :
  prepare_target target st = Ok st1 ->
  ReclassParser.merge_inventories self w sources target st
  = let o := for_each sources true (ReclassParser.merge_source self w target) st1 in
    Out (val o) (state o)
        (LogInfo ("Merging " ++ pretty (List.length sources)
                  ++ " inventory directories into " ++ Path.str target) :: trace o).
Proof.
  unfold prepare_target, ReclassParser.merge_inventories.
  destruct (Path.mkdir_parents st target) as [s1|] eqn:H1; [|discriminate].
  destruct (Path.mkdir_exist_ok s1 _) as [s2|] eqn:H2; [|discriminate].
  intros H3.
  rewrite (bind_fs_call_ok _ _ _ _ H1), (bind_fs_call_ok _ _ _ _ H2),
    (bind_fs_call_ok _ _ _ _ H3), bind_log_info.
  reflexivity.
Qed.

Lemma can_prepare_prepared target st :
  can_prepare target st = true -> prepare_target target st = Ok (prepared target st).
Proof.
  unfold can_prepare, prepared. destruct (prepare_target target st); [reflexivity|discriminate].
Qed.
















(** ** Dry runs *)

Lemma rsync_sync_dry self w source destination options st :
  FileManager.dry_run self = true ->
  Py.truthy_str (FileManager.rsync_path self) = true ->
  exists tr, FileManager._rsync_sync self w source destination options st
             = Out (Ok true) st tr /\ no_exec tr.
Proof.
  intros Hdry Hrp. unfold FileManager._rsync_sync. rewrite Hrp, Hdry. cbn [negb].
  rewrite bind_log_info. cbn. eexists. split; [reflexivity | solve_no_exec].
Qed.

Lemma python_sync_dry self source destination recursive st :
  FileManager.dry_run self = true ->
  exists tr, FileManager._python_sync self source destination recursive st
             = Out (Ok true) st tr /\ no_exec tr.
Proof.
  intros Hdry. unfold FileManager._python_sync. rewrite Hdry.
  rewrite bind_log_info. cbn. eexists. split; [reflexivity | solve_no_exec].
Qed.

(** A dry run of [sync_directories] on an existing source: it returns
    true once the destination directory is there, and only logs. *)
Lemma sync_directories_dry self w source destination options recursive st st' :
  FileManager.dry_run self = true ->
  Path.exists_ st source = true ->
  Path.mkdir_parents st destination = Ok st' ->
  exists tr, FileManager.sync_directories self w source destination options recursive st
             = Out (Ok true) st' tr /\ no_exec tr.
Proof.
  intros Hdry Hsrc Hmk. unfold FileManager.sync_directories.
  rewrite (bind_out get_fs _ st st st []) by reflexivity.
  rewrite Hsrc. cbn [negb].
  rewrite (bind_fs_call_ok _ _ _ _ Hmk).
  destruct (Py.truthy_str _) eqn:Hrp.
  - destruct (rsync_sync_dry self w source destination options st' Hdry Hrp) as (tr & -> & Hno).
    cbn. eauto.
  - destruct (python_sync_dry self source destination recursive st' Hdry) as (tr & -> & Hno).
    cbn. eauto.
Qed.

Lemma merge_subdir_dry self w source target success subdir st :
  ReclassParser.dry_run self = true ->
  Path.is_dir st (Path.child target subdir) = true ->
  exists tr, ReclassParser.merge_subdir self w source target success subdir st
             = Out (Ok success) st tr /\ no_exec tr.
Proof.
  intros Hdry Hdir. unfold ReclassParser.merge_subdir.
  rewrite (bind_out get_fs _ st st st []) by reflexivity.
  destruct (Path.exists_ st (Path.child source subdir)) eqn:Hsrc;
    [|cbn; eexists; split; [reflexivity | solve_no_exec]].
  destruct (file_manager_init w (ReclassParser.dry_run self) st) as (tr1 & Hinit & Hno1).
  rewrite (bind_out _ _ _ _ _ _ Hinit).
  set (fm := {| FileManager.dry_run := ReclassParser.dry_run self;
                FileManager.rsync_path := which w "rsync" |}).
  destruct (sync_directories_dry fm w (Path.child source subdir) (Path.child target subdir)
              FileManager.default_options true st st Hdry Hsrc
              (mkdir_parents_existing st _ Hdir)) as (tr2 & Hsync & Hno2).
  rewrite (bind_out _ _ _ _ _ _ Hsync). cbn. rewrite andb_true_r.
  eexists. split; [reflexivity|].
  rewrite app_nil_r. apply no_exec_app; assumption.
Qed.

Lemma merge_source_dry self w target success source st :
  ReclassParser.dry_run self = true ->
  Path.is_dir st (Path.child target "nodes") = true ->
  Path.is_dir st (Path.child target "classes") = true ->
  exists tr, ReclassParser.merge_source self w target success source st
             = Out (Ok success) st tr /\ no_exec tr.
Proof.
  intros Hdry Hn Hc. unfold ReclassParser.merge_source.
  rewrite (bind_out get_fs _ st st st []) by reflexivity.
  destruct (negb _); [cbn; eexists; split; [reflexivity | solve_no_exec]|].
  cbn [for_each].
  destruct (merge_subdir_dry self w source target success "nodes" st Hdry Hn)
    as (tr1 & H1 & Hno1).
  destruct (merge_subdir_dry self w source target success "classes" st Hdry Hc)
    as (tr2 & H2 & Hno2).
  rewrite (bind_out _ _ _ _ _ _ H1), (bind_out _ _ _ _ _ _ H2). cbn.
  eexists. split; [reflexivity|]. rewrite !app_nil_r.
  apply no_exec_app; assumption.
Qed.

Lemma merge_loop_dry self w target sources success st :
  ReclassParser.dry_run self = true ->
  Path.is_dir st (Path.child target "nodes") = true ->
  Path.is_dir st (Path.child target "classes") = true ->
  exists tr, for_each sources success (ReclassParser.merge_source self w target) st
             = Out (Ok success) st tr /\ no_exec tr.
Proof.
  intros Hdry Hn Hc. induction sources as [|s rest IH].
  - cbn. eexists. split; [reflexivity | solve_no_exec].
  - destruct (merge_source_dry self w target success s st Hdry Hn Hc) as (tr1 & H1 & Hno1).
    destruct IH as (tr2 & H2 & Hno2).
    cbn [for_each]. rewrite (bind_out _ _ _ _ _ _ H1), H2. cbn.
    eexists. split; [reflexivity|]. apply no_exec_app; assumption.
Qed.

(** C6, as stated, fails: in a dry run [sync_directories] returns false
    for a source that does not exist, and both operations create the
    directories they lack before they reach the dry-run branch. *)
Lemma dry_run_returns_false_and_creates_directories :
  val (FileManager.sync_directories dry_file_manager (fleet_world [])
         ["repo-a"] ["merged"] FileManager.default_options true source_tree) = Ok false /\
  Path.exists_ source_tree ["merged"] = false /\
  Path.is_dir (state (FileManager.sync_directories dry_file_manager (fleet_world [])
                        ["repo-b"] ["merged"] FileManager.default_options true source_tree))
    ["merged"] = true /\
  Path.is_dir (state (ReclassParser.merge_inventories dry_parser (fleet_world [])
                        [] ["merged"] source_tree))
    ["merged"; "nodes"] = true.
Proof. repeat split; vm_compute; reflexivity. Qed.

(** C6, amended: in a dry run [sync_directories] and [merge_inventories]
    execute no command and copy or overwrite no file, and only log;
    [merge_inventories] returns true, and [sync_directories] returns true
    when its source exists and false when it does not, unless a file stands
    where a directory is expected. *)
Theorem dry_run_copies_nothing fm self w source destination options recursive
    source_dirs target_dir st :
  FileManager.dry_run fm = true ->
  ReclassParser.dry_run self = true ->
  let s := FileManager.sync_directories fm w source destination options recursive st in
  let m := ReclassParser.merge_inventories self w source_dirs target_dir st in
  (no_exec (trace s) /\ same_files st (state s) /\
   val s = if Path.exists_ st source
           then match Path.mkdir_parents st destination with
                | Ok _ => Ok true
                | Raise e => Raise e
                end
           else Ok false) /\
  (no_exec (trace m) /\ same_files st (state m) /\
   val m = match prepare_target target_dir st with
           | Ok _ => Ok true
           | Raise e => Raise e
           end).
Proof.
  intros Hfm Hself s m. split.
  - subst s. destruct (Path.exists_ st source) eqn:Hsrc.
    + destruct (Path.mkdir_parents st destination) as [st'|e] eqn:Hmk.
      * destruct (sync_directories_dry fm w source destination options recursive st st'
                    Hfm Hsrc Hmk) as (tr & -> & Hno).
        cbn. apply mkdir_parents_ok in Hmk as (_ & Hf & _). auto.
      * unfold FileManager.sync_directories.
        rewrite (bind_out get_fs _ st st st []) by reflexivity.
        rewrite Hsrc. cbn [negb]. rewrite (bind_fs_call_raise _ _ _ _ Hmk). cbn.
        split; [solve_no_exec|]. split; [apply same_files_refl | reflexivity].
    + rewrite (sync_directories_missing_source _ _ _ _ _ _ _ Hsrc). cbn.
      split; [solve_no_exec|]. split; [apply same_files_refl | reflexivity].
  - subst m. destruct (prepare_target target_dir st) as [st'|e] eqn:Hprep.
    + rewrite (merge_inventories_prepared _ _ _ _ _ _ Hprep).
      destruct (prepare_target_ok _ _ _ Hprep) as (_ & Hf & Hn & Hc).
      destruct (merge_loop_dry self w target_dir source_dirs true st' Hself Hn Hc)
        as (tr & -> & Hno).
      cbn. split; [|auto].
      intros cmd Hin. apply elem_of_cons in Hin as [Hin|Hin]; [discriminate|].
      exact (Hno cmd Hin).
    + revert Hprep. unfold prepare_target, ReclassParser.merge_inventories.
      destruct (Path.mkdir_parents st target_dir) as [s1|e1] eqn:H1.
      * apply mkdir_parents_ok in H1 as H1'. destruct H1' as (_ & Hf1 & _).
        rewrite (bind_fs_call_ok _ _ _ _ H1).
        destruct (Path.mkdir_exist_ok s1 _) as [s2|e2] eqn:H2.
        -- apply mkdir_exist_ok_ok in H2 as H2'. destruct H2' as (_ & Hf2 & _).
           rewrite (bind_fs_call_ok _ _ _ _ H2). intros H3.
           rewrite (bind_fs_call_raise _ _ _ _ H3). cbn.
           split; [solve_no_exec|]. split; [|reflexivity].
           eapply same_files_trans; eassumption.
        -- intros [= ->]. rewrite (bind_fs_call_raise _ _ _ _ H2). cbn.
           split; [solve_no_exec|]. split; [exact Hf1 | reflexivity].
      * intros [= ->]. rewrite (bind_fs_call_raise _ _ _ _ H1). cbn.
        split; [solve_no_exec|]. split; [apply same_files_refl | reflexivity].
Qed.

Lemma dry_run_copies_nothing_witness :
  val (ReclassParser.merge_inventories dry_parser (fleet_world [])
         [["repo-a"]; ["repo-b"]] ["merged"] source_tree) = Ok true /\
  no_exec (trace (ReclassParser.merge_inventories dry_parser (fleet_world [])
                    [["repo-a"]; ["repo-b"]] ["merged"] source_tree)).
Proof.
  destruct (dry_run_copies_nothing dry_file_manager dry_parser (fleet_world [])
              ["repo-b"] ["merged"] FileManager.default_options true
              [["repo-a"]; ["repo-b"]] ["merged"] source_tree eq_refl eq_refl)
    as (_ & Hno & _ & Hval).
  split; [|exact Hno]. rewrite Hval. vm_compute. reflexivity.
Defined.

(** ** Each existing source is attempted *)

Lemma sync_directories_logs self w source destination options recursive st :
  Path.exists_ st source = true ->
  Path.is_dir st destination = true ->
  exists how,
    LogInfo ("Syncing " ++ Path.str source ++ " to " ++ Path.str destination
             ++ " using " ++ how)
    ∈ trace (FileManager.sync_directories self w source destination options recursive st).
Proof.
  intros Hsrc Hdst. unfold FileManager.sync_directories.
  rewrite (bind_out get_fs _ st st st []) by reflexivity.
  rewrite Hsrc. cbn [negb].
  rewrite (bind_fs_call_ok _ _ _ _ (mkdir_parents_existing st destination Hdst)).
  cbn [trace app]. destruct (Py.truthy_str _) eqn:Hrp.
  - exists "rsync". unfold FileManager._rsync_sync. rewrite Hrp. cbn [negb].
    rewrite bind_log_info. cbn [trace]. apply list_elem_of_here.
  - exists "Python". unfold FileManager._python_sync.
    rewrite bind_log_info. cbn [trace]. apply list_elem_of_here.
Qed.

(** A subtree of a source that exists is synchronised into the target:
    the attempt is logged, whatever the flag says about earlier sources. *)
Lemma merge_subdir_attempts self w source target success subdir st :
  Path.exists_ st (Path.child source subdir) = true ->
  Path.is_dir st (Path.child target subdir) = true ->
  exists how,
    LogInfo ("Syncing " ++ Path.str (Path.child source subdir) ++ " to "
             ++ Path.str (Path.child target subdir) ++ " using " ++ how)
    ∈ trace (ReclassParser.merge_subdir self w source target success subdir st).
Proof.
  intros Hsrc Hdst. unfold ReclassParser.merge_subdir.
  rewrite (bind_out get_fs _ st st st []) by reflexivity. rewrite Hsrc.
  destruct (file_manager_init w (ReclassParser.dry_run self) st) as (tr1 & Hinit & _).
  rewrite (bind_out _ _ _ _ _ _ Hinit). cbn [trace app].
  rewrite trace_bind.
  match goal with |- context [FileManager.sync_directories ?fm w ?s ?d ?o ?r st] =>
    destruct (sync_directories_logs fm w s d o r st Hsrc Hdst) as [how Hin];
    exists how; destruct (val (FileManager.sync_directories fm w s d o r st)) end;
    rewrite ?elem_of_app; auto.
Qed.

(** * Further properties of the code *)

(** ** The validators *)

Lemma in_range_single d c : Re.in_range (d, d) c = Ascii.eqb c d.
Proof.
  unfold Re.in_range, PyStr.code. cbn [fst snd].
  destruct (Ascii.eqb_spec c d) as [-> | Hne].
  - rewrite N.leb_refl. reflexivity.
  - apply andb_false_iff.
    destruct (N.leb_spec (N_of_ascii d) (N_of_ascii c)) as [H1|]; [|left; reflexivity].
    destruct (N.leb_spec (N_of_ascii c) (N_of_ascii d)) as [H2|]; [|right; reflexivity].
    exfalso. apply Hne. rewrite <- (ascii_N_embedding c), <- (ascii_N_embedding d).
    f_equal. lia.
Qed.

Lemma shell_class_char c :
  Re.atom_ok (Re.CharSet InputValidator.shell_chars) c = shell_char c.
Proof.
  unfold shell_char, Re.atom_ok, InputValidator.shell_chars. cbn [existsb].
  rewrite !in_range_single. reflexivity.
Qed.

Lemma module_class_char c :
  Re.atom_ok (Re.CharSet InputValidator.module_chars) c = module_char c.
Proof.
  unfold module_char, Re.is_alnum, Re.atom_ok, InputValidator.module_chars. cbn [existsb].
  rewrite !in_range_single, !orb_false_r, !orb_assoc. reflexivity.
Qed.

(** [search] for a one-character class finds a character of the class. *)
Lemma search_class cs s b :
  Re.search_from [Re.Rep (Re.CharSet cs) Re.Once] s b =
  negb (str_forall (fun c => negb (Re.atom_ok (Re.CharSet cs) c)) s).
Proof.
  revert b. induction s as [|c s IH]; intros b; [reflexivity|].
  cbn [Re.search_from Re.match_here str_forall]. rewrite IH, andb_true_r.
  rewrite negb_andb, negb_involutive. reflexivity.
Qed.

Lemma search_blacklist s :
  Re.search InputValidator.SHELL_BLACKLIST s = negb (shell_safe s).
Proof.
  unfold Re.search, InputValidator.SHELL_BLACKLIST, shell_safe. rewrite search_class.
  f_equal. apply str_forall_ext. intros c. rewrite shell_class_char. reflexivity.
Qed.

Lemma str_forall_lstrip p s : str_forall p s = true -> str_forall p (PyStr.lstrip s) = true.
Proof.
  induction s as [|c s IH]; [reflexivity|]. intros H. simpl.
  destruct (PyStr.isspace c); [|exact H].
  simpl in H. apply andb_true_iff in H as [_ H]. auto.
Qed.

Lemma str_forall_rstrip p s : str_forall p s = true -> str_forall p (PyStr.rstrip s) = true.
Proof.
  induction s as [|c s IH]; [reflexivity|]. intros H. simpl in *.
  apply andb_true_iff in H as [Hc H]. specialize (IH H).
  destruct (PyStr.rstrip s) as [|d r].
  - destruct (PyStr.isspace c); [reflexivity|]. simpl. rewrite Hc. reflexivity.
  - cbn [str_forall]. rewrite Hc. exact IH.
Qed.

Lemma str_forall_strip p s : str_forall p s = true -> str_forall p (PyStr.strip s) = true.
Proof. intros H. apply str_forall_rstrip, str_forall_lstrip, H. Qed.

Lemma lstrip_starts_clean s : starts_clean (PyStr.lstrip s) = true.
Proof.
  induction s as [|c s IH]; [reflexivity|]. simpl.
  destruct (PyStr.isspace c) eqn:Hc; [exact IH|]. simpl. rewrite Hc. reflexivity.
Qed.

Lemma lstrip_clean s : starts_clean s = true -> PyStr.lstrip s = s.
Proof.
  destruct s as [|c s]; [reflexivity|]. simpl. intros H.
  apply negb_true_iff in H. rewrite H. reflexivity.
Qed.

Lemma rstrip_starts_clean s : starts_clean s = true -> starts_clean (PyStr.rstrip s) = true.
Proof.
  destruct s as [|c s]; [reflexivity|]. simpl. intros H.
  destruct (PyStr.rstrip s).
  - apply negb_true_iff in H. rewrite H. simpl. rewrite H. reflexivity.
  - exact H.
Qed.

Lemma rstrip_idem s : PyStr.rstrip (PyStr.rstrip s) = PyStr.rstrip s.
Proof.
  induction s as [|c s IH]; [reflexivity|]. simpl.
  destruct (PyStr.rstrip s) as [|d r] eqn:Hr.
  - destruct (PyStr.isspace c) eqn:Hc; [reflexivity|]. simpl. rewrite Hc. reflexivity.
  - cbn [PyStr.rstrip]. cbn [PyStr.rstrip] in IH. rewrite IH. reflexivity.
Qed.

Lemma strip_idem s : PyStr.strip (PyStr.strip s) = PyStr.strip s.
Proof.
  unfold PyStr.strip.
  rewrite (lstrip_clean (PyStr.rstrip (PyStr.lstrip s))).
  - apply rstrip_idem.
  - apply rstrip_starts_clean, lstrip_starts_clean.
Qed.

Lemma str_forall_impl (p q : ascii -> bool) s :
  (forall c, p c = true -> q c = true) -> str_forall p s = true -> str_forall q s = true.
Proof.
  intros Hpq. induction s as [|c s IH]; [reflexivity|]. cbn [str_forall].
  intros H. apply andb_true_iff in H as [Hc H]. rewrite (Hpq _ Hc), (IH H). reflexivity.
Qed.

Lemma str_forall_contains p c s :
  str_forall p s = true -> p c = false -> PyStr.contains_char c s = false.
Proof.
  intros H Hc. induction s as [|d s IH]; [reflexivity|].
  cbn [str_forall] in H. apply andb_true_iff in H as [Hd H]. simpl.
  destruct (Ascii.eqb_spec c d) as [-> | _]; [congruence | auto].
Qed.

Lemma node_name_grammar_accepted m :
  node_name_grammar m = true -> PyStr.strip m = m -> InputValidator.sanitize_node_name m = Ok m.
Proof.
  unfold node_name_grammar. intros H Hs.
  apply andb_true_iff in H as [H Hlen]. apply andb_true_iff in H as [Hne Hall].
  apply negb_true_iff in Hne.
  unfold InputValidator.sanitize_node_name, InputValidator.NODE_NAME_PATTERN.
  rewrite Hne, Hs.
  rewrite (class_pattern_intro InputValidator.name_chars m);
    [| apply String.eqb_neq, Hne | exact Hall].
  cbn [negb]. apply Nat.leb_le in Hlen.
  destruct (Nat.ltb_spec 100 (String.length m)); [lia | reflexivity].
Qed.

Lemma filter_grammar_accepted q :
  filter_grammar q = true -> PyStr.strip q = q -> InputValidator.validate_filter_pattern q = Ok q.
Proof.
  unfold filter_grammar. intros H Hs. apply andb_true_iff in H as [Hne Hall].
  apply negb_true_iff in Hne.
  unfold InputValidator.validate_filter_pattern. rewrite Hs, Hne.
  unfold InputValidator.FILTER_PATTERN. rewrite class_pattern_intro; [reflexivity | |].
  - apply String.eqb_neq, Hne.
  - erewrite str_forall_ext; [exact Hall | apply filter_class_char].
Qed.

(** X1: A name [sanitize_node_name] returns is a fixed point of the
    validator, and [validate_filter_pattern] accepts it unchanged as a
    pattern without wildcard: a validated node name can be handed on as an
    exact-match filter. *)
Theorem sanitized_name_is_stable n m :
  InputValidator.sanitize_node_name n = Ok m ->
  InputValidator.sanitize_node_name m = Ok m /\
  InputValidator.validate_filter_pattern m = Ok m /\
  PyStr.contains_char "*" m = false.
Proof.
  intros H. apply sanitize_node_name_ok in H as [Hm Hg].
  assert (Hs : PyStr.strip m = m) by (rewrite Hm; apply strip_idem).
  split; [apply node_name_grammar_accepted; assumption|].
  unfold node_name_grammar in Hg.
  apply andb_true_iff in Hg as [Hg _]. apply andb_true_iff in Hg as [Hne Hall].
  split.
  - apply filter_grammar_accepted; [|exact Hs].
    unfold filter_grammar. rewrite Hne. cbn [andb].
    revert Hall. apply str_forall_impl. intros c Hc. unfold filter_char. rewrite Hc. reflexivity.
  - eapply str_forall_contains; [exact Hall | reflexivity].
Qed.

Lemma sanitized_name_is_stable_witness :
  InputValidator.sanitize_node_name "web-01" = Ok "web-01" /\
  InputValidator.validate_filter_pattern "web-01" = Ok "web-01" /\
  PyStr.contains_char "*" "web-01" = false.
Proof. apply (sanitized_name_is_stable "  web-01 "). vm_compute. reflexivity. Defined.

(** X2: [sanitize_shell_input] rejects its input exactly when one of the
    characters [;&|`$()<>] occurs in it; blanks, quotes and an empty
    input pass. *)
Theorem sanitize_shell_input_rejects s :
  (exists msg, InputValidator.sanitize_shell_input s = Raise (ValidationError msg)) <->
  shell_safe s = false.
Proof.
  unfold InputValidator.sanitize_shell_input. rewrite search_blacklist.
  destruct (shell_safe s); cbn [negb]; split.
  - intros [msg H]. discriminate.
  - discriminate.
  - reflexivity.
  - eauto.
Qed.

(** X3: What [sanitize_shell_input] returns is its input without the
    blanks around it, contains no character of the blacklist, and is a
    fixed point of the function. *)
Theorem sanitize_shell_input_result s t :
  InputValidator.sanitize_shell_input s = Ok t ->
  t = PyStr.strip s /\ shell_safe t = true /\
  InputValidator.sanitize_shell_input t = Ok t.
Proof.
  unfold InputValidator.sanitize_shell_input. rewrite !search_blacklist.
  destruct (shell_safe s) eqn:Hs; cbn [negb]; [|discriminate].
  intros [= <-]. split; [reflexivity|].
  assert (Ht : shell_safe (PyStr.strip s) = true) by (apply str_forall_strip, Hs).
  split; [exact Ht|]. rewrite Ht, strip_idem. reflexivity.
Qed.

Lemma sanitize_shell_input_result_witness :
  "web*:db" = PyStr.strip " web*:db " /\ shell_safe "web*:db" = true /\
  InputValidator.sanitize_shell_input "web*:db" = Ok "web*:db".
Proof. apply (sanitize_shell_input_result " web*:db "). vm_compute. reflexivity. Defined.

Lemma sanitize_args_loop_spec args acc :
  InputValidator.sanitize_args_loop args acc =
  match InputValidator.sanitize_args_loop args [] with
  | Ok out => Ok (acc ++ out)%list
  | Raise e => Raise e
  end.
Proof.
  revert acc. induction args as [|a args IH]; intros acc; simpl.
  - rewrite app_nil_r. reflexivity.
  - destruct (Re.search InputValidator.SHELL_BLACKLIST a); [reflexivity|].
    rewrite (IH (acc ++ _)%list), (IH [_]).
    destruct (InputValidator.sanitize_args_loop args []); [|reflexivity].
    rewrite <- app_assoc. reflexivity.
Qed.

(** X4: [sanitize_command_args] is [sanitize_shell_input] applied to each
    argument, all or nothing: it returns a list exactly when every argument
    is accepted on its own, and the list holds their results in order. *)
Theorem sanitize_command_args_pointwise args out :
  InputValidator.sanitize_command_args args = Ok out <->
  Forall2 (fun arg r => InputValidator.sanitize_shell_input arg = Ok r) args out.
Proof.
  unfold InputValidator.sanitize_command_args. revert out.
  induction args as [|a args IH]; intros out.
  - simpl. split.
    + intros [= <-]. constructor.
    + intros H. inversion H. reflexivity.
  - cbn [InputValidator.sanitize_args_loop]. rewrite sanitize_args_loop_spec.
    unfold InputValidator.sanitize_shell_input.
    destruct (Re.search InputValidator.SHELL_BLACKLIST a) eqn:Ha.
    + split; [discriminate|]. intros H.
      inversion H as [|? r ? l' Hr Hrest]; subst. rewrite Ha in Hr. discriminate.
    + destruct (InputValidator.sanitize_args_loop args []) as [l|e] eqn:Hl.
      * split.
        -- intros [= <-]. constructor; [rewrite Ha; reflexivity|]. apply IH. reflexivity.
        -- intros H. inversion H as [|? r ? l' Hr Hrest]; subst.
           rewrite Ha in Hr. injection Hr as <-. apply IH in Hrest.
           injection Hrest as <-. reflexivity.
      * split; [discriminate|]. intros H. inversion H as [|? r ? l' Hr Hrest]; subst.
        apply IH in Hrest. discriminate.
Qed.

(** X5: A name [validate_ansible_module_name] returns is not empty, is
    made of letters, digits, underscores and dots only, and passes both the
    validator and [sanitize_shell_input] unchanged. *)
Theorem module_name_is_stable n m :
  InputValidator.validate_ansible_module_name n = Ok m ->
  m = PyStr.strip n /\ module_name_grammar m = true /\
  InputValidator.validate_ansible_module_name m = Ok m /\
  InputValidator.sanitize_shell_input m = Ok m.
Proof.
  unfold InputValidator.validate_ansible_module_name at 1.
  destruct (String.eqb n ""); [discriminate|].
  destruct (Re.re_match InputValidator.MODULE_NAME_PATTERN (PyStr.strip n)) eqn:Hre;
    [|discriminate].
  cbn [negb]. intros [= <-]. split; [reflexivity|].
  pose proof Hre as Hre'. apply class_pattern_stripped in Hre' as [Hne Hall].
  assert (Hg : str_forall module_char (PyStr.strip n) = true).
  { erewrite str_forall_ext; [exact Hall | intros c; symmetry; apply module_class_char]. }
  split; [|split].
  - unfold module_name_grammar. rewrite Hg.
    apply String.eqb_neq in Hne. rewrite Hne. reflexivity.
  - unfold InputValidator.validate_ansible_module_name.
    apply String.eqb_neq in Hne. rewrite Hne, strip_idem, Hre. reflexivity.
  - unfold InputValidator.sanitize_shell_input. rewrite search_blacklist.
    assert (Hsafe : shell_safe (PyStr.strip n) = true).
    { revert Hg. apply str_forall_impl. intros c Hc.
      destruct (shell_char c) eqn:Hsc; [|reflexivity].
      unfold shell_char in Hsc. cbn [existsb] in Hsc.
      repeat (apply orb_true_iff in Hsc as [Hsc|Hsc];
              [apply Ascii.eqb_eq in Hsc; subst c; discriminate|]).
      discriminate. }
    rewrite Hsafe, strip_idem. reflexivity.
Qed.

Lemma module_name_is_stable_witness :
  "ansible.builtin.ping" = PyStr.strip "ansible.builtin.ping " /\
  module_name_grammar "ansible.builtin.ping" = true /\
  InputValidator.validate_ansible_module_name "ansible.builtin.ping" = Ok "ansible.builtin.ping" /\
  InputValidator.sanitize_shell_input "ansible.builtin.ping" = Ok "ansible.builtin.ping".
Proof. apply (module_name_is_stable "ansible.builtin.ping "). vm_compute. reflexivity. Defined.

(** ** Removing entries of the tree *)

Lemma stat_delete st q p :
  Path.stat (delete q st) p =
  match p with
  | [] => Some Dir
  | _ => if decide (q = p) then None else Path.stat st p
  end.
Proof.
  destruct p as [|c p]; [reflexivity|]. unfold Path.stat.
  destruct (decide (q = c :: p)) as [-> | Hne].
  - apply lookup_delete_eq.
  - apply lookup_delete_ne. exact Hne.
Qed.

Lemma lookup_remove_tree st p q :
  Path.remove_tree st p !! q = if Path.in_tree st p q then None else st !! q.
Proof.
  unfold Path.remove_tree. destruct (Path.in_tree st p q) eqn:H.
  - apply map_lookup_filter_None. right. intros x _ Hx. simpl in Hx. congruence.
  - destruct (st !! q) eqn:Hq.
    + apply map_lookup_filter_Some. split; [exact Hq | exact H].
    + apply map_lookup_filter_None. left. exact Hq.
Qed.

Lemma stat_remove_tree st p q :
  q <> [] ->
  Path.stat (Path.remove_tree st p) q = if Path.in_tree st p q then None else Path.stat st q.
Proof.
  intros Hq. destruct q as [|c q]; [congruence|]. unfold Path.stat. apply lookup_remove_tree.
Qed.

Lemma relative_to_intro (p rel : path) :
  rel <> [] -> Path.relative_to (p ++ rel)%list p = Some rel.
Proof.
  intros Hrel. induction p as [|a p IH]; simpl.
  - destruct rel; [congruence | reflexivity].
  - rewrite String.eqb_refl. exact IH.
Qed.

Lemma in_tree_prefix st p q : Path.in_tree st p q = true -> p `prefix_of` q.
Proof.
  unfold Path.in_tree. intros H. apply orb_true_iff in H as [H|H].
  - apply bool_decide_eq_true in H. subst. reflexivity.
  - destruct (Path.relative_to q p) as [rel|] eqn:Hrel; [|discriminate].
    apply relative_to_app in Hrel. exists rel. exact Hrel.
Qed.

Lemma in_tree_self st p : Path.in_tree st p p = true.
Proof. unfold Path.in_tree. rewrite bool_decide_eq_true_2; reflexivity. Qed.

Lemma is_dir_lookup st p : p <> [] -> Path.is_dir st p = true -> st !! p = Some Dir.
Proof.
  intros Hp. unfold Path.is_dir, Path.stat. destruct p; [congruence|].
  destruct (st !! _) as [[]|]; congruence.
Qed.

(** In a tree, what lies above an entry is a directory. *)
Lemma ancestor_dirs st a r :
  closed_tree st -> r <> [] -> is_Some (st !! (a ++ r)%list) -> Path.is_dir st a = true.
Proof.
  intros Hc. induction r as [|c r IH] using rev_ind; [congruence|].
  intros _ [e He]. pose proof (Hc _ _ He) as Hp. cbn beta in Hp.
  unfold Path.parent in Hp. rewrite app_assoc, removelast_last in Hp.
  destruct r as [|c' r]; [rewrite app_nil_r in Hp; exact Hp|].
  apply IH; [discriminate|]. apply is_dir_lookup in Hp; [eauto|].
  destruct a; discriminate.
Qed.

Lemma closed_reachable st :
  closed_tree st ->
  forall rel p, is_Some (st !! (p ++ rel)%list) -> Path.reachable st p rel = true.
Proof.
  intros Hc. induction rel as [|c rel IH]; intros p H; [reflexivity|].
  destruct rel as [|c' rel]; [reflexivity|].
  change (Path.reachable st p (c :: c' :: rel))
    with (Path.is_dir st (p ++ [c])%list && Path.reachable st (p ++ [c])%list (c' :: rel)).
  replace (p ++ c :: c' :: rel)%list with ((p ++ [c]) ++ c' :: rel)%list in H
    by (rewrite <- app_assoc; reflexivity).
  rewrite (ancestor_dirs st (p ++ [c])%list (c' :: rel)); [|exact Hc|discriminate|exact H].
  apply IH. exact H.
Qed.

Lemma closed_in_tree st p q :
  closed_tree st -> p `prefix_of` q -> is_Some (st !! q) -> Path.in_tree st p q = true.
Proof.
  intros Hc [rel ->] H. unfold Path.in_tree.
  destruct rel as [|c rel].
  - rewrite app_nil_r. rewrite bool_decide_eq_true_2; reflexivity.
  - rewrite relative_to_intro by discriminate.
    rewrite closed_reachable; [apply orb_true_r | exact Hc | exact H].
Qed.

(** In a tree, nothing lies below a path that does not exist. *)
Lemma closed_absent_below st p q :
  closed_tree st -> Path.stat st p = None -> p `prefix_of` q -> st !! q = None.
Proof.
  intros Hc Hp [rel ->]. destruct rel as [|c rel].
  - rewrite app_nil_r. destruct p; [discriminate | exact Hp].
  - destruct (st !! (p ++ c :: rel)%list) eqn:Hq; [|reflexivity].
    assert (Hd : Path.is_dir st p = true).
    { apply (ancestor_dirs st p (c :: rel)); [exact Hc | discriminate | eauto]. }
    unfold Path.is_dir in Hd. rewrite Hp in Hd. discriminate.
Qed.

Ltac run_op :=
  unfold bind, get_fs, log_info, log_warning, emit, try_except, fs_call, ret;
  cbv beta zeta; cbn [val state trace].

Ltac settle H := repeat progress (cbn [negb val state trace]; rewrite ?H).

(** X6: In a dry run [ensure_directory], [remove_file],
    [remove_directory] and [backup_file] leave the tree as it is, and the
    first three report success whatever stands at the path. *)
Theorem dry_run_changes_nothing self p backup_suffix st :
  FileManager.dry_run self = true ->
  (val (FileManager.ensure_directory self p st) = Ok true /\
   state (FileManager.ensure_directory self p st) = st) /\
  (val (FileManager.remove_file self p st) = Ok true /\
   state (FileManager.remove_file self p st) = st) /\
  (val (FileManager.remove_directory self p st) = Ok true /\
   state (FileManager.remove_directory self p st) = st) /\
  state (FileManager.backup_file self p backup_suffix st) = st.
Proof.
  intros Hdry.
  unfold FileManager.ensure_directory, FileManager.remove_file,
    FileManager.remove_directory, FileManager.backup_file.
  run_op. rewrite Hdry.
  destruct (Path.exists_ st p); cbn [negb val state trace];
    repeat split; try reflexivity.
  destruct (Path.with_suffix p _); reflexivity.
Qed.

Lemma dry_run_changes_nothing_witness :
  val (FileManager.ensure_directory dry_file_manager ["srv"; "work"] ∅) = Ok true /\
  state (FileManager.ensure_directory dry_file_manager ["srv"; "work"] ∅) = ∅.
Proof.
  destruct (dry_run_changes_nothing dry_file_manager ["srv"; "work"] ".backup" ∅) as [H _];
    [reflexivity | exact H].
Defined.

(** X7: When [ensure_directory] really runs and reports success, the
    path exists afterwards, as a directory unless a regular file stood
    there already (which the function takes for success); no directory
    and no file of the tree is lost or changed. *)
Theorem ensure_directory_postcondition self p st :
  FileManager.dry_run self = false ->
  val (FileManager.ensure_directory self p st) = Ok true ->
  let st' := state (FileManager.ensure_directory self p st) in
  Path.exists_ st' p = true /\
  (Path.is_file st p = false -> Path.is_dir st' p = true) /\
  dirs_kept st st' /\ same_files st st'.
Proof.
  intros Hreal. unfold FileManager.ensure_directory. run_op. rewrite Hreal.
  unfold Path.exists_, Path.is_file, Path.is_dir.
  destruct (Path.stat st p) as [e|] eqn:Hp; settle Hp.
  - intros _. split; [reflexivity|]. split.
    + destruct e; [discriminate | reflexivity].
    + split; [apply dirs_kept_refl | apply same_files_refl].
  - destruct (Path.mkdir_parents st p) as [st1|e] eqn:Hmk; cbn [val state]; [|discriminate].
    intros _. apply mkdir_parents_ok in Hmk as (Hd & Hf & Hdir).
    unfold Path.is_dir in Hdir.
    destruct (Path.stat st1 p) as [[]|]; try discriminate. auto.
Qed.

Lemma ensure_directory_postcondition_witness :
  let st' := state (FileManager.ensure_directory python_file_manager ["srv"; "work"] ∅) in
  Path.exists_ st' ["srv"; "work"] = true /\
  (Path.is_file ∅ ["srv"; "work"] = false -> Path.is_dir st' ["srv"; "work"] = true) /\
  dirs_kept ∅ st' /\ same_files ∅ st'.
Proof.
  apply (ensure_directory_postcondition python_file_manager ["srv"; "work"] ∅);
    vm_compute; reflexivity.
Defined.

Lemma plain_intro (p : path) : forallb (fun c => negb (String.eqb c "..")) p = true -> plain p.
Proof.
  intros H Hin. rewrite forallb_forall in H. apply list_elem_of_In, H in Hin.
  rewrite String.eqb_refl in Hin. discriminate.
Qed.

(** X8: [remove_file], really run on a path without [..], fails exactly
    on a directory, which it leaves in place; otherwise the path does not
    exist afterwards.  No other path without [..] is touched. *)
Theorem remove_file_postcondition self p st :
  FileManager.dry_run self = false ->
  plain p ->
  let o := FileManager.remove_file self p st in
  val o = Ok (negb (Path.is_dir st p)) /\
  (Path.is_dir st p = true -> state o = st) /\
  (Path.is_dir st p = false -> Path.exists_ (state o) p = false) /\
  (forall q, plain q -> q <> p -> Path.stat (state o) q = Path.stat st q).
Proof.
  intros Hreal _. unfold FileManager.remove_file, Path.unlink. run_op. rewrite Hreal.
  unfold Path.exists_, Path.is_dir.
  destruct (Path.stat st p) as [[c|]|] eqn:Hp; settle Hp.
  - split; [reflexivity|]. split; [discriminate|]. split.
    + intros _. rewrite stat_delete. destruct p; [discriminate|].
      rewrite decide_True; reflexivity.
    + intros q _ Hq. rewrite stat_delete. destruct q; [reflexivity|].
      rewrite decide_False; [reflexivity | congruence].
  - split; [reflexivity|]. split; [reflexivity|]. split; [discriminate | reflexivity].
  - split; [reflexivity|]. split; [discriminate|]. split; reflexivity.
Qed.

Lemma remove_file_postcondition_witness :
  let o := FileManager.remove_file python_file_manager ["repo-b"; "nodes"; "x.yml"]
             source_tree in
  val o = Ok true /\
  Path.exists_ (state o) ["repo-b"; "nodes"; "x.yml"] = false /\
  Path.stat (state o) ["repo-b"; "nodes"] = Path.stat source_tree ["repo-b"; "nodes"].
Proof.
  intros o.
  destruct (remove_file_postcondition python_file_manager ["repo-b"; "nodes"; "x.yml"]
              source_tree) as (Hv & _ & Hgone & Hframe).
  - reflexivity.
  - apply plain_intro. reflexivity.
  - split; [exact Hv|]. split; [apply Hgone; reflexivity|].
    apply Hframe; [apply plain_intro; reflexivity | discriminate].
Defined.

(** X9: [remove_directory], really run on a path without [..] other than
    the root of a tree, fails exactly on a regular file, which it leaves in
    place; otherwise nothing exists at or below the path afterwards.  What
    is not below the path, and is named without [..], is not touched. *)
Theorem remove_directory_postcondition self p st :
  FileManager.dry_run self = false ->
  p <> [] ->
  plain p ->
  closed_tree st ->
  let o := FileManager.remove_directory self p st in
  val o = Ok (negb (Path.is_file st p)) /\
  (Path.is_file st p = true -> state o = st) /\
  (Path.is_file st p = false ->
   forall q, p `prefix_of` q -> Path.stat (state o) q = None) /\
  (forall q, plain q -> ~ p `prefix_of` q -> Path.stat (state o) q = Path.stat st q).
Proof.
  intros Hreal Hne _ Hc. unfold FileManager.remove_directory, FileManager.rmtree. run_op.
  rewrite Hreal. unfold Path.exists_, Path.is_file.
  destruct (Path.stat st p) as [[c|]|] eqn:Hp; settle Hp.
  - split; [reflexivity|]. split; [reflexivity|]. split; [discriminate | reflexivity].
  - destruct p as [|c0 p0] eqn:Ep; [congruence|]. rewrite <- Ep in *. cbn [val state].
    split; [reflexivity|]. split; [discriminate|]. split.
    + intros _ q Hq.
      assert (Hq0 : q <> []).
      { intros ->. destruct Hq as [r Hr]. rewrite Ep in Hr. discriminate. }
      rewrite stat_remove_tree by exact Hq0.
      destruct (Path.in_tree st p q) eqn:Hin; [reflexivity|].
      destruct q as [|c' q']; [congruence|]. unfold Path.stat.
      destruct (st !! (c' :: q')) eqn:Hl; [|exact Hl].
      rewrite closed_in_tree in Hin; [discriminate | exact Hc | exact Hq | eauto].
    + intros q _ Hq. destruct q as [|c' q']; [reflexivity|].
      rewrite stat_remove_tree by discriminate.
      destruct (Path.in_tree st p (c' :: q')) eqn:Hin; [|reflexivity].
      apply in_tree_prefix in Hin. contradiction.
  - split; [reflexivity|]. split; [discriminate|]. split; [|reflexivity].
    intros _ q Hq. destruct q as [|c' q']; [destruct Hq as [r Hr]; destruct p; discriminate|].
    unfold Path.stat. eapply closed_absent_below; eauto.
Qed.

Lemma source_tree_closed : closed_tree source_tree.
Proof.
  unfold closed_tree, source_tree. intros q e H.
  do 3 (apply lookup_insert_Some in H as [[<- _] | [_ H]]; [vm_compute; reflexivity|]).
  discriminate H.
Qed.

Lemma remove_directory_postcondition_witness :
  let o := FileManager.remove_directory python_file_manager ["repo-b"; "nodes"]
             source_tree in
  val o = Ok true /\
  Path.stat (state o) ["repo-b"; "nodes"; "x.yml"] = None /\
  Path.stat (state o) ["repo-b"] = Path.stat source_tree ["repo-b"].
Proof.
  intros o.
  destruct (remove_directory_postcondition python_file_manager ["repo-b"; "nodes"]
              source_tree) as (Hv & _ & Hgone & Hframe).
  - reflexivity.
  - discriminate.
  - apply plain_intro. reflexivity.
  - apply source_tree_closed.
  - split; [exact Hv|]. split.
    + apply Hgone; [reflexivity|]. exists ["x.yml"]. reflexivity.
    + apply Hframe; [apply plain_intro; reflexivity|].
      intros [r Hr]. discriminate Hr.
Defined.

Lemma mkdir_parents_child st p :
  Path.stat st p = None -> Path.is_dir st (Path.parent p) = true ->
  Path.mkdir_parents st p = Ok (<[p := Dir]> st).
Proof.
  intros Hp Hd. destruct p as [|c p] using rev_ind; [discriminate|].
  unfold Path.parent in Hd. rewrite removelast_last in Hd.
  unfold Path.mkdir_parents. rewrite rev_unit. cbn [Path.mkdir_parents_rev].
  rewrite <- rev_unit, !rev_involutive, Hp.
  unfold Path.is_dir in Hd. destruct (Path.stat st p) as [[]|]; try discriminate. reflexivity.
Qed.

(** X10: In a tree, creating an absent directory in an existing one with
    [ensure_directory] and removing it with [remove_directory] gives back
    the tree one started from. *)
Theorem ensure_then_remove_directory self p st :
  FileManager.dry_run self = false ->
  closed_tree st ->
  Path.stat st p = None ->
  Path.is_dir st (Path.parent p) = true ->
  let created := FileManager.ensure_directory self p st in
  let removed := FileManager.remove_directory self p (state created) in
  val created = Ok true /\ Path.is_dir (state created) p = true /\
  val removed = Ok true /\ state removed = st.
Proof.
  intros Hreal Hc Hp Hd.
  assert (Hne : p <> []) by (intros ->; discriminate).
  assert (Hens : FileManager.ensure_directory self p st
                 = Out (Ok true) (<[p := Dir]> st)
                     (trace (FileManager.ensure_directory self p st))).
  { unfold FileManager.ensure_directory. run_op. rewrite Hreal.
    unfold Path.exists_. rewrite Hp. settle Hp.
    rewrite (mkdir_parents_child st p Hp Hd). reflexivity. }
  cbv zeta. rewrite Hens. cbn [val state].
  assert (Hnew : Path.stat (<[p := Dir]> st) p = Some Dir).
  { rewrite stat_insert. destruct p; [congruence|]. rewrite decide_True; reflexivity. }
  split; [reflexivity|]. split; [unfold Path.is_dir; rewrite Hnew; reflexivity|].
  unfold FileManager.remove_directory, FileManager.rmtree. run_op. rewrite Hreal.
  unfold Path.exists_. rewrite Hnew. settle Hnew.
  destruct p as [|c0 p0] eqn:Ep; [congruence|]. rewrite <- Ep in *. cbn [val state].
  split; [reflexivity|].
  apply map_eq. intros q. rewrite lookup_remove_tree.
  assert (Hlp : st !! p = None) by (rewrite Ep in *; exact Hp).
  destruct (Path.in_tree (<[p := Dir]> st) p q) eqn:Hin.
  - symmetry. apply in_tree_prefix in Hin. eapply closed_absent_below; eauto.
  - destruct (decide (p = q)) as [<- | Hpq].
    + rewrite in_tree_self in Hin. discriminate.
    + apply lookup_insert_ne. exact Hpq.
Qed.

Lemma ensure_then_remove_directory_witness :
  let created := FileManager.ensure_directory python_file_manager ["repo-b"; "classes"]
                   source_tree in
  let removed := FileManager.remove_directory python_file_manager ["repo-b"; "classes"]
                   (state created) in
  val created = Ok true /\ Path.is_dir (state created) ["repo-b"; "classes"] = true /\
  val removed = Ok true /\ state removed = source_tree.
Proof.
  apply (ensure_then_remove_directory python_file_manager ["repo-b"; "classes"] source_tree);
    [reflexivity | apply source_tree_closed | reflexivity | reflexivity].
Defined.

(** ** Backups *)

Lemma substring_cat s n :
  n <= String.length s ->
  String.substring 0 n s ++ String.substring n (String.length s - n) s = s.
Proof.
  revert n. induction s as [|c s IH]; intros n Hn.
  - destruct n; [reflexivity | simpl in Hn; lia].
  - destruct n as [|n].
    + change (String.substring 0 0 (String c s)) with "".
      rewrite Nat.sub_0_r. change ("" ++ ?x) with x. apply substring_all.
    + simpl in Hn. cbn [String.substring String.length Nat.sub].
      change (String c ?a ++ ?b) with (String c (a ++ b)). rewrite IH by lia. reflexivity.
Qed.

Lemma length_substring s n m :
  n + m <= String.length s -> String.length (String.substring n m s) = m.
Proof.
  revert n m. induction s as [|c s IH]; intros n m H; simpl in H.
  - assert (n = 0) by lia. assert (m = 0) by lia. subst. reflexivity.
  - destruct n as [|n].
    + destruct m as [|m]; [reflexivity|]. simpl. rewrite IH by lia. reflexivity.
    + simpl. apply IH. lia.
Qed.

Lemma substring_head s i m c :
  String.get i s = Some c ->
  String.substring i (S m) s = String c (String.substring (S i) m s).
Proof.
  revert i. induction s as [|a s IH]; intros i H; [destruct i; discriminate|].
  destruct i as [|i]; simpl in H.
  - injection H as ->. simpl. destruct s; destruct m; reflexivity.
  - cbn [String.substring]. apply IH. exact H.
Qed.

Lemma get_below s i : i < String.length s -> exists c, String.get i s = Some c.
Proof.
  revert i. induction s as [|a s IH]; intros i H; simpl in H; [lia|].
  destruct i as [|i]; [eexists; reflexivity|]. simpl. apply IH. lia.
Qed.

Lemma rfind_dot_get s k j :
  Path.rfind_dot s k = Some j -> k <= j /\ String.get (j - k) s = Some "."%char.
Proof.
  revert k. induction s as [|c s IH]; intros k H; [discriminate|].
  simpl in H. destruct (Path.rfind_dot s (S k)) as [j'|] eqn:Hr.
  - injection H as ->. apply IH in Hr as [Hle Hget]. split; [lia|].
    replace (j - k) with (S (j - S k)) by lia. exact Hget.
  - destruct (Ascii.eqb_spec c ".") as [-> | _]; [|discriminate].
    injection H as ->. rewrite Nat.sub_diag. split; [lia | reflexivity].
Qed.

(** The suffix of a name is empty, or a dot and at least one more
    character. *)
Lemma suffix_shape nm :
  Path.suffix nm = "" \/ exists c rest, Path.suffix nm = String "." (String c rest).
Proof.
  unfold Path.suffix. destruct (Path.rfind_dot nm 0) as [i|] eqn:Hr; [|left; reflexivity].
  destruct ((0 <? i)%nat && (i <? String.length nm - 1)%nat) eqn:Hc; [|left; reflexivity].
  right. apply andb_true_iff in Hc as [_ Hlt]. apply Nat.ltb_lt in Hlt.
  apply rfind_dot_get in Hr as [_ Hget]. rewrite Nat.sub_0_r in Hget.
  destruct (get_below nm (S i)) as [c Hc]; [lia|].
  destruct (String.length nm - i) as [|[|m]] eqn:Hm; [lia | lia |].
  rewrite (substring_head nm i (S m) "." Hget), (substring_head nm (S i) m c Hc). eauto.
Qed.

Lemma strip_suffix_suffix nm : Path.strip_suffix nm ++ Path.suffix nm = nm.
Proof.
  unfold Path.strip_suffix.
  assert (H : Path.suffix nm = "" \/
              exists i, i <= String.length nm /\
                        Path.suffix nm = String.substring i (String.length nm - i) nm).
  { unfold Path.suffix. destruct (Path.rfind_dot nm 0) as [i|] eqn:Hr; [|left; reflexivity].
    destruct ((0 <? i)%nat && (i <? String.length nm - 1)%nat) eqn:Hc; [|left; reflexivity].
    right. exists i. apply andb_true_iff in Hc as [_ Hlt]. apply Nat.ltb_lt in Hlt.
    split; [lia | reflexivity]. }
  destruct H as [-> | (i & Hi & ->)].
  - simpl. rewrite Nat.sub_0_r, substring_all. clear. induction nm; [reflexivity|].
    change (String a nm ++ "") with (String a (nm ++ "")). rewrite IHnm. reflexivity.
  - rewrite length_substring by lia.
    replace (String.length nm - (String.length nm - i)) with i by lia.
    apply substring_cat. exact Hi.
Qed.

Lemma contains_char_app c a b :
  PyStr.contains_char c (a ++ b) = PyStr.contains_char c a || PyStr.contains_char c b.
Proof.
  induction a as [|d a IH]; [reflexivity|].
  change (String d a ++ b) with (String d (a ++ b)). simpl.
  destruct (Ascii.eqb c d); [reflexivity | exact IH].
Qed.

Lemma string_length_app (a b : string) :
  String.length (a ++ b) = String.length a + String.length b.
Proof.
  induction a as [|d a IH]; [reflexivity|].
  change (String d a ++ b) with (String d (a ++ b)). simpl. rewrite IH. reflexivity.
Qed.

(** For a suffix pathlib accepts, [with_suffix] of the old suffix and the
    new one names the sibling [backup_path]. *)
Lemma with_suffix_backup p sfx :
  component (Path.name p) = true -> backup_suffix_ok sfx = true ->
  Path.with_suffix p (Path.suffix (Path.name p) ++ sfx) = Ok (backup_path p sfx).
Proof.
  unfold component, backup_suffix_ok. intros Hn Hs.
  apply andb_true_iff in Hn as [Hne Hsep]. apply negb_true_iff in Hne, Hsep.
  apply andb_true_iff in Hs as [Hs Hsl]. apply andb_true_iff in Hs as [Hdot Hlone].
  apply negb_true_iff in Hlone, Hsl.
  unfold Path.with_suffix. rewrite contains_char_app, Hsl, orb_false_r.
  assert (Hsuf : PyStr.contains_char "/" (Path.suffix (Path.name p)) = false).
  { unfold Path.suffix. destruct (Path.rfind_dot _ _); [|reflexivity].
    destruct (_ && _); [|reflexivity]. apply no_separator_substring. exact Hsep. }
  rewrite Hsuf. cbn [orb].
  assert (Hx : negb (String.eqb (Path.suffix (Path.name p) ++ sfx) "")
               && negb (PyStr.startswith "." (Path.suffix (Path.name p) ++ sfx))
               || String.eqb (Path.suffix (Path.name p) ++ sfx) "." = false).
  { destruct (suffix_shape (Path.name p)) as [-> | (c & rest & ->)].
    - change ("" ++ sfx) with sfx. rewrite Hdot, Hlone, andb_false_r. reflexivity.
    - reflexivity. }
  rewrite Hx, Hne. unfold backup_path, Path.parent.
  rewrite <- string_app_assoc, strip_suffix_suffix. reflexivity.
Qed.

Lemma backup_path_differs p sfx :
  p <> [] -> PyStr.startswith "." sfx = true -> p <> backup_path p sfx.
Proof.
  intros Hp Hs H. unfold backup_path, Path.parent, Path.name in H.
  rewrite (app_removelast_last "" Hp) in H at 1.
  apply app_inv_head in H. injection H as H.
  apply (f_equal String.length) in H. rewrite string_length_app in H.
  destruct sfx; [discriminate|]. simpl in H. lia.
Qed.

(** X11: In a tree, [backup_file] really run on a regular file, with a
    suffix that starts with a dot, copies the file to the sibling named by
    the whole name of the file followed by the suffix (the old extension
    is kept, not replaced), unless a directory stands there; the original
    and every other path stay as they are. *)
Theorem backup_file_copies self p sfx st content :
  FileManager.dry_run self = false ->
  closed_tree st ->
  Path.stat st p = Some (File content) ->
  component (Path.name p) = true ->
  backup_suffix_ok sfx = true ->
  Path.is_dir st (backup_path p sfx) = false ->
  let o := FileManager.backup_file self p sfx st in
  val o = Ok true /\
  Path.stat (state o) (backup_path p sfx) = Some (File content) /\
  Path.stat (state o) p = Some (File content) /\
  (forall q, q <> backup_path p sfx -> Path.stat (state o) q = Path.stat st q).
Proof.
  intros Hreal Hc Hp Hn Hs Hb.
  assert (Hne : p <> []) by (intros ->; discriminate).
  assert (Hdiff : p <> backup_path p sfx).
  { apply backup_path_differs; [exact Hne|]. unfold backup_suffix_ok in Hs.
    apply andb_true_iff in Hs as [Hs _]. apply andb_true_iff in Hs as [Hs _]. exact Hs. }
  assert (Hparent : Path.stat st (Path.parent (backup_path p sfx)) = Some Dir).
  { unfold backup_path, Path.parent at 1. rewrite removelast_last.
    assert (Hd : Path.is_dir st (Path.parent p) = true).
    { destruct p as [|c0 p0]; [congruence|]. exact (Hc _ _ Hp). }
    unfold Path.is_dir in Hd. destruct (Path.stat st (Path.parent p)) as [[]|]; congruence. }
  assert (Hcopy : FileManager.copy2 p (backup_path p sfx) st
                  = Ok (<[backup_path p sfx := File content]> st)).
  { unfold FileManager.copy2. rewrite Hb, Hp. rewrite decide_False by exact Hdiff.
    unfold Path.is_dir in Hb. rewrite Hparent.
    destruct (Path.stat st (backup_path p sfx)) as [[]|]; congruence. }
  unfold FileManager.backup_file. run_op. rewrite Hreal.
  unfold Path.exists_. rewrite Hp. settle Hp.
  rewrite (with_suffix_backup p sfx Hn Hs). unfold lift, ret. settle Hp.
  rewrite Hcopy. settle Hp.
  assert (Hbne : backup_path p sfx <> []) by (unfold backup_path; destruct (Path.parent p); discriminate).
  split; [reflexivity|]. split; [|split].
  - rewrite stat_insert. destruct (backup_path p sfx); [congruence|].
    rewrite decide_True; reflexivity.
  - rewrite stat_insert. destruct p; [congruence|]. rewrite decide_False; [exact Hp | congruence].
  - intros q Hq. rewrite stat_insert. destruct q; [reflexivity|].
    rewrite decide_False; [reflexivity | congruence].
Qed.

Lemma config_tree_closed : closed_tree config_tree.
Proof.
  unfold closed_tree, config_tree. intros q e H.
  do 2 (apply lookup_insert_Some in H as [[<- _] | [_ H]]; [vm_compute; reflexivity|]).
  discriminate H.
Qed.

Lemma backup_file_copies_witness :
  let o := FileManager.backup_file python_file_manager ["srv"; "pyestro.json"]
             FileManager.default_backup_suffix config_tree in
  val o = Ok true /\
  Path.stat (state o) ["srv"; "pyestro.json.backup"] = Some (File "{}") /\
  Path.stat (state o) ["srv"; "pyestro.json"] = Some (File "{}") /\
  (forall q, q <> ["srv"; "pyestro.json.backup"] ->
             Path.stat (state o) q = Path.stat config_tree q).
Proof.
  apply (backup_file_copies python_file_manager ["srv"; "pyestro.json"]
           FileManager.default_backup_suffix config_tree "{}");
    [reflexivity | apply config_tree_closed | reflexivity | reflexivity | reflexivity
    | vm_compute; reflexivity].
Defined.

(** ** Merging plain directories *)







(** ** What the Python copy leaves alone *)

Lemma grows_below_refl d st : grows_below d st st.
Proof. split; auto. Qed.

Lemma grows_below_trans d st1 st2 st3 :
  grows_below d st1 st2 -> grows_below d st2 st3 -> grows_below d st1 st3.
Proof.
  intros [E1 F1] [E2 F2]. split; [auto|].
  intros p Hp He. rewrite F2, F1; auto.
Qed.

Lemma adds_below_readonly {A} d (m : M A) : readonly m -> adds_below d m.
Proof. intros H st. rewrite H. apply grows_below_refl. Qed.

Lemma adds_below_bind {A B} d (m : M A) (f : A -> M B) :
  adds_below d m -> (forall a, adds_below d (f a)) -> adds_below d (bind m f).
Proof.
  intros Hm Hf st. rewrite state_bind. destruct (val (m st)); [|apply Hm].
  eapply grows_below_trans; [apply Hm | apply Hf].
Qed.

Lemma adds_below_try_except {A} d (m : M A) (h : exn -> M A) :
  adds_below d m -> (forall e, adds_below d (h e)) -> adds_below d (try_except m h).
Proof.
  intros Hm Hh st. unfold try_except. destruct (val (m st)) eqn:Hv; [apply Hm|].
  cbn [state]. eapply grows_below_trans; [apply Hm | apply Hh].
Qed.

Lemma adds_below_fs_call d (f : fs -> res fs) :
  (forall st st', f st = Ok st' -> grows_below d st st') -> adds_below d (fs_call f).
Proof.
  intros H st. unfold fs_call. destruct (f st) eqn:Hf; cbn [state];
    [apply H, Hf | apply grows_below_refl].
Qed.

Lemma adds_below_for_each {A B} d (l : list A) (body : B -> A -> M B) :
  (forall acc x, adds_below d (body acc x)) -> forall acc, adds_below d (for_each l acc body).
Proof.
  intros Hb. induction l as [|x l IH]; intros acc.
  - apply adds_below_readonly. intros st. reflexivity.
  - cbn [for_each]. apply adds_below_bind; [apply Hb | apply IH].
Qed.

Lemma exists_stat st p : Path.exists_ st p = true <-> Path.stat st p <> None.
Proof. unfold Path.exists_. destruct (Path.stat st p); split; congruence. Qed.

(** Creating directories changes no entry there is. *)
Lemma mkdir_parents_rev_frame st rp st' :
  Path.mkdir_parents_rev st rp = Ok st' ->
  forall p, Path.exists_ st p = true -> Path.stat st' p = Path.stat st p.
Proof.
  revert st'. induction rp as [|c rp IH]; intros st' H p Hp; simpl in H.
  - injection H as <-. reflexivity.
  - apply exists_stat in Hp.
    destruct (Path.stat st (rev rp ++ [c])%list) as [[]|] eqn:Hs; try discriminate.
    + injection H as <-. reflexivity.
    + assert (Hne : (rev rp ++ [c])%list <> p) by (intros <-; congruence).
      destruct (Path.stat st (rev rp)) as [[]|] eqn:Hpar; try discriminate.
      * injection H as <-. rewrite stat_insert. destruct p; [reflexivity|].
        rewrite decide_False; [reflexivity | exact Hne].
      * destruct (Path.mkdir_parents_rev st rp) as [st1|] eqn:Hrec; [|discriminate].
        injection H as <-. rewrite stat_insert. destruct p as [|a p]; [reflexivity|].
        rewrite decide_False by exact Hne. apply (IH st1 eq_refl). apply exists_stat, Hp.
Qed.

Lemma mkdir_parents_grows d st p st' :
  Path.mkdir_parents st p = Ok st' -> grows_below d st st'.
Proof.
  intros H. pose proof (mkdir_parents_rev_frame st (rev p) st' H) as Hf. split.
  - intros q Hq. apply exists_stat. rewrite (Hf q Hq). apply exists_stat, Hq.
  - intros q _ Hq. apply Hf, Hq.
Qed.

Lemma insert_grows d st q e :
  d `prefix_of` q -> grows_below d st (<[q := e]> st).
Proof.
  intros Hd. split.
  - intros p Hp. apply exists_stat. rewrite stat_insert. destruct p; [discriminate|].
    destruct (decide _); [discriminate | apply exists_stat, Hp].
  - intros p Hp _. rewrite stat_insert. destruct p; [reflexivity|].
    rewrite decide_False; [reflexivity | intros E; rewrite E in Hd; contradiction].
Qed.

Lemma copy2_grows d src dst st st' :
  d `prefix_of` dst -> FileManager.copy2 src dst st = Ok st' -> grows_below d st st'.
Proof.
  intros Hd. unfold FileManager.copy2.
  set (dst' := if Path.is_dir st dst then Path.child dst (Path.name src) else dst).
  assert (Hd' : d `prefix_of` dst').
  { subst dst'. destruct (Path.is_dir st dst); [|exact Hd].
    unfold Path.child. etransitivity; [exact Hd | apply prefix_app_r; reflexivity]. }
  destruct (Path.stat st src) as [[c|]|]; try discriminate.
  destruct (decide (src = dst')); [discriminate|].
  destruct (Path.stat st dst') as [[]|]; try discriminate;
    destruct (Path.stat st (Path.parent dst')) as [[]|]; try discriminate;
    intros [= <-]; apply insert_grows, Hd'.
Qed.

Lemma copy_item_adds destination item rel :
  adds_below destination (FileManager.copy_item destination item rel).
Proof.
  unfold FileManager.copy_item.
  destruct (_ && _); [apply adds_below_readonly; intros st; reflexivity|].
  apply adds_below_bind; [apply adds_below_readonly; intros st; reflexivity|].
  intros s. destruct (Path.is_file s item).
  - apply adds_below_bind; [|intros _]; apply adds_below_fs_call; intros st st' H.
    + eapply mkdir_parents_grows, H.
    + eapply copy2_grows; [|exact H]. apply prefix_app_r. reflexivity.
  - destruct (Path.is_dir s item); [|apply adds_below_readonly; intros st; reflexivity].
    apply adds_below_fs_call. intros st st' H. eapply mkdir_parents_grows, H.
Qed.

Lemma python_sync_adds self source destination recursive :
  adds_below destination (FileManager._python_sync self source destination recursive).
Proof.
  unfold FileManager._python_sync.
  apply adds_below_bind; [apply adds_below_readonly; intros st; reflexivity|]. intros _.
  destruct (FileManager.dry_run self).
  - apply adds_below_readonly. intros st. reflexivity.
  - apply adds_below_try_except; [|intros e; apply adds_below_readonly; intros st; reflexivity].
    apply adds_below_bind; [apply adds_below_readonly; intros st; reflexivity|]. intros s.
    apply adds_below_bind; [|intros _; apply adds_below_readonly; intros st; reflexivity].
    destruct (Path.is_file s source).
    + apply adds_below_fs_call. intros st st' H. eapply copy2_grows; [reflexivity | exact H].
    + destruct (_ && _); [|apply adds_below_readonly; intros st; reflexivity].
      apply adds_below_for_each. intros _ qr. apply copy_item_adds.
Qed.

(** X13: Without rsync, [sync_directories] to a destination without [..]
    only adds to the tree: no entry that exists is removed, in a dry run or
    not, and what exists outside the destination, named without [..], is
    left exactly as it is. *)
Theorem python_sync_only_adds self w source destination options recursive st :
  Py.truthy_str (FileManager.rsync_path self) = false ->
  plain destination ->
  let st' := state (FileManager.sync_directories self w source destination options
                      recursive st) in
  (forall p, Path.exists_ st p = true -> Path.exists_ st' p = true) /\
  (forall p, plain p -> ~ destination `prefix_of` p -> Path.exists_ st p = true ->
             Path.stat st' p = Path.stat st p).
Proof.
  intros Hno _ st'.
  assert (H : grows_below destination st st').
  { subst st'. revert st. change (adds_below destination
      (FileManager.sync_directories self w source destination options recursive)).
    unfold FileManager.sync_directories. rewrite Hno.
    apply adds_below_bind; [apply adds_below_readonly; intros st; reflexivity|]. intros s.
    destruct (negb _); [apply adds_below_readonly; intros st; reflexivity|].
    apply adds_below_bind.
    - apply adds_below_fs_call. intros st st0 H. eapply mkdir_parents_grows, H.
    - intros _. apply python_sync_adds. }
  destruct H as [H1 H2]. split; [exact H1|]. intros p _. apply H2.
Qed.

Lemma python_sync_only_adds_witness :
  let st' := state (FileManager.sync_directories python_file_manager (fleet_world [])
                      ["repo-b"] ["merged"] FileManager.default_options true source_tree) in
  Path.exists_ st' ["repo-b"; "nodes"; "x.yml"] = true /\
  Path.stat st' ["repo-b"; "nodes"; "x.yml"]
  = Path.stat source_tree ["repo-b"; "nodes"; "x.yml"].
Proof.
  intros st'.
  destruct (python_sync_only_adds python_file_manager (fleet_world [])
              ["repo-b"] ["merged"] FileManager.default_options true source_tree)
    as [H1 H2].
  - reflexivity.
  - apply plain_intro. reflexivity.
  - split; [apply H1; reflexivity|].
    apply H2; [apply plain_intro; reflexivity | | reflexivity].
    intros [r Hr]. discriminate Hr.
Defined.

(** ** What the Python copy carries over *)

Lemma mkdir_parents_snoc st (l : path) c :
  Path.mkdir_parents st (l ++ [c])%list =
  match Path.stat st (l ++ [c])%list with
  | Some Dir => Ok st
  | Some (File _) => Raise (OSError "FileExistsError")
  | None =>
      match Path.stat st l with
      | Some Dir => Ok (<[(l ++ [c])%list := Dir]> st)
      | Some (File _) => Raise (OSError "NotADirectoryError")
      | None =>
          match Path.mkdir_parents st l with
          | Ok st' => Ok (<[(l ++ [c])%list := Dir]> st')
          | Raise e => Raise e
          end
      end
  end.
Proof.
  unfold Path.mkdir_parents. rewrite rev_unit. cbn [Path.mkdir_parents_rev].
  rewrite <- rev_unit, !rev_involutive. reflexivity.
Qed.

Lemma is_dir_stat st p : Path.is_dir st p = true <-> Path.stat st p = Some Dir.
Proof. unfold Path.is_dir. destruct (Path.stat st p) as [[]|]; split; congruence. Qed.

Lemma is_file_stat st p :
  Path.is_file st p = false <-> forall c, Path.stat st p <> Some (File c).
Proof.
  unfold Path.is_file. destruct (Path.stat st p) as [[]|]; split; try congruence.
  intros H. exfalso. eapply H. reflexivity.
Qed.

(** [mkdir(parents=True)] below a directory [base] succeeds when no file
    stands on the way. *)
Lemma mkdir_parents_succeeds st (base r : path) :
  Path.is_dir st base = true ->
  (forall r', r' <> [] -> r' `prefix_of` r -> Path.is_file st (base ++ r')%list = false) ->
  exists st', Path.mkdir_parents st (base ++ r)%list = Ok st'.
Proof.
  intros Hb. induction r as [|c r IH] using rev_ind; intros Hr.
  - rewrite app_nil_r. rewrite mkdir_parents_existing by exact Hb. eauto.
  - rewrite app_assoc, mkdir_parents_snoc, <- app_assoc.
    assert (H1 : Path.is_file st (base ++ r ++ [c])%list = false).
    { apply Hr; [destruct r; discriminate | reflexivity]. }
    assert (H2 : Path.is_file st (base ++ r)%list = false).
    { destruct r as [|a r].
      - rewrite app_nil_r. apply is_dir_stat in Hb. unfold Path.is_file. rewrite Hb. reflexivity.
      - apply Hr; [discriminate | apply prefix_app_r; reflexivity]. }
    unfold Path.is_file in H1, H2.
    destruct (Path.stat st (base ++ r ++ [c])%list) as [[]|]; try discriminate; eauto.
    destruct (Path.stat st (base ++ r)%list) as [[]|]; try discriminate; eauto.
    destruct IH as [st' ->]; [|eauto].
    intros r' Hne Hp. apply Hr; [exact Hne|]. etransitivity; [exact Hp|].
    apply prefix_app_r. reflexivity.
Qed.

(** What it creates: directories on the way from [base], where nothing
    was. *)
Lemma mkdir_parents_below st (base r : path) st' :
  Path.is_dir st base = true ->
  Path.mkdir_parents st (base ++ r)%list = Ok st' ->
  forall x,
    Path.stat st' x = Path.stat st x \/
    exists r', r' <> [] /\ r' `prefix_of` r /\ x = (base ++ r')%list /\
               Path.stat st x = None /\ Path.stat st' x = Some Dir.
Proof.
  intros Hb. revert st'. induction r as [|c r IH] using rev_ind; intros st' H x.
  - rewrite app_nil_r, mkdir_parents_existing in H by exact Hb.
    injection H as <-. left. reflexivity.
  - rewrite app_assoc, mkdir_parents_snoc, <- app_assoc in H.
    destruct (Path.stat st (base ++ r ++ [c])%list) as [[]|] eqn:Ht; try discriminate.
    { injection H as <-. left. reflexivity. }
    assert (Hnew : forall s, Path.stat s x = Path.stat st x \/
                     (exists r', r' <> [] /\ r' `prefix_of` r /\ x = (base ++ r')%list /\
                                 Path.stat st x = None /\ Path.stat s x = Some Dir) ->
              Path.stat (<[(base ++ r ++ [c])%list := Dir]> s) x = Path.stat st x \/
              exists r', r' <> [] /\ r' `prefix_of` (r ++ [c])%list /\ x = (base ++ r')%list /\
                         Path.stat st x = None /\
                         Path.stat (<[(base ++ r ++ [c])%list := Dir]> s) x = Some Dir).
    { intros s Hs. rewrite !stat_insert. destruct x as [|a x]; [left; reflexivity|].
      destruct (decide ((base ++ r ++ [c])%list = a :: x)) as [E|E].
      - right. exists (r ++ [c])%list. rewrite <- E.
        split; [destruct r; discriminate|]. split; [reflexivity|].
        split; [reflexivity|]. split; [exact Ht|]. rewrite decide_True; reflexivity.
      - rewrite !decide_False by exact E.
        destruct Hs as [Hs | (r' & ? & ? & ? & ? & ?)]; [left; exact Hs|].
        right. exists r'. split; [assumption|].
        split; [etransitivity; [eassumption | apply prefix_app_r; reflexivity]|]. auto. }
    destruct (Path.stat st (base ++ r)%list) as [[]|] eqn:Hpar; try discriminate.
    + injection H as <-. apply Hnew. left. reflexivity.
    + destruct (Path.mkdir_parents st (base ++ r)%list) as [st1|] eqn:Hrec; [|discriminate].
      injection H as <-. apply Hnew. apply (IH st1 eq_refl).
Qed.

Lemma skip_check nm :
  PyStr.startswith "." nm && bool_decide (nm ∈ [".git"; ".keep"]) = negb (copied_name nm).
Proof.
  unfold copied_name. rewrite negb_involutive.
  destruct (String.eqb_spec nm ".git") as [-> | H1]; [reflexivity|].
  destruct (String.eqb_spec nm ".keep") as [-> | H2]; [reflexivity|].
  rewrite bool_decide_eq_false_2; [apply andb_false_r|].
  intros H. apply elem_of_cons in H as [H|H]; [congruence|].
  apply elem_of_cons in H as [H|H]; [congruence|]. inversion H.
Qed.

Lemma mirrors_refl st source destination s : mirrors st source destination s s.
Proof. intros x. left. reflexivity. Qed.

Lemma mirrors_trans st source destination s1 s2 s3 :
  mirrors st source destination s1 s2 -> mirrors st source destination s2 s3 ->
  mirrors st source destination s1 s3.
Proof.
  intros H12 H23 x.
  destruct (H23 x) as [E23 | (r & Hr & Hx & Hs & Hside)].
  - destruct (H12 x) as [E12 | (r & Hr & Hx & Hs & Hside)].
    + left. congruence.
    + right. exists r. rewrite E23. auto.
  - right. exists r. split; [exact Hr|]. split; [exact Hx|]. split; [exact Hs|].
    destruct (Path.stat st (source ++ r)%list) as [[]|] eqn:Hsrc; [exact Hside | | exact Hside].
    destruct (H12 x) as [E12 | (r2 & Hr2 & Hx2 & Hs2 & Hside2)]; [congruence|].
    rewrite Hside in Hs2. destruct (Path.stat st (source ++ r2)%list); [discriminate | contradiction].
Qed.

Section Copy.

Variables (st : fs) (source destination : path).
Hypothesis Hclosed : closed_tree st.
Hypothesis Hapart : apart source destination.
Hypothesis Hcompat : compatible st source destination.
Hypothesis Hdest : Path.is_dir st destination = true.

Lemma inv_outside s x :
  mirrors st source destination st s ->
  (forall r, r <> [] -> x <> (destination ++ r)%list) ->
  Path.stat s x = Path.stat st x.
Proof.
  intros Hinv Hx. destruct (Hinv x) as [E | (r & Hr & Hxr & _)]; [exact E|].
  exfalso. exact (Hx r Hr Hxr).
Qed.

Lemma inv_source s rel :
  mirrors st source destination st s ->
  Path.stat s (source ++ rel)%list = Path.stat st (source ++ rel)%list.
Proof.
  intros Hinv. apply inv_outside; [exact Hinv|]. intros r _ E.
  destruct Hapart as [H1 H2].
  destruct (prefix_weak_total source destination (source ++ rel)%list) as [H|H].
  - apply prefix_app_r. reflexivity.
  - rewrite E. apply prefix_app_r. reflexivity.
  - contradiction.
  - contradiction.
Qed.

Lemma inv_dest s :
  mirrors st source destination st s -> Path.is_dir s destination = true.
Proof.
  intros Hinv. unfold Path.is_dir. rewrite (inv_outside s destination Hinv).
  - exact Hdest.
  - intros r Hr E. apply (f_equal List.length) in E. rewrite List.length_app in E.
    destruct r; [congruence | simpl in E; lia].
Qed.

Lemma inv_dir_place s r :
  mirrors st source destination st s -> r <> [] ->
  Path.stat st (source ++ r)%list = Some Dir ->
  Path.is_file s (destination ++ r)%list = false.
Proof.
  intros Hinv Hr Hsrc. pose proof (Hcompat r Hr) as Hc. rewrite Hsrc in Hc.
  destruct (Hinv (destination ++ r)%list) as [E | (r2 & Hr2 & Hx & Hs & _)].
  - unfold Path.is_file in *. rewrite E. exact Hc.
  - apply app_inv_head in Hx. subst r2. unfold Path.is_file. rewrite Hs, Hsrc. reflexivity.
Qed.

Lemma inv_file_place s r c :
  mirrors st source destination st s -> r <> [] ->
  Path.stat st (source ++ r)%list = Some (File c) ->
  Path.is_dir s (destination ++ r)%list = false.
Proof.
  intros Hinv Hr Hsrc. pose proof (Hcompat r Hr) as Hc. rewrite Hsrc in Hc.
  destruct (Hinv (destination ++ r)%list) as [E | (r2 & Hr2 & Hx & Hs & _)].
  - unfold Path.is_dir in *. rewrite E. exact Hc.
  - apply app_inv_head in Hx. subst r2. unfold Path.is_dir. rewrite Hs, Hsrc. reflexivity.
Qed.

Lemma mirrors_keeps s s' r :
  mirrors st source destination s s' ->
  Path.stat s (destination ++ r)%list = Path.stat st (source ++ r)%list ->
  Path.stat s' (destination ++ r)%list = Path.stat st (source ++ r)%list.
Proof.
  intros Hm Hs. destruct (Hm (destination ++ r)%list) as [E | (r2 & Hr2 & Hx & Hs2 & _)].
  - congruence.
  - apply app_inv_head in Hx. subst r2. exact Hs2.
Qed.

(** Above an entry of the source there are directories only. *)
Lemma source_ancestor (r' rest : path) :
  rest <> [] -> Path.stat st (source ++ r' ++ rest)%list <> None ->
  Path.stat st (source ++ r')%list = Some Dir.
Proof.
  intros Hrest Hex. apply is_dir_stat.
  apply (ancestor_dirs st (source ++ r')%list rest Hclosed Hrest).
  rewrite <- app_assoc. unfold Path.stat in Hex.
  destruct (source ++ r' ++ rest)%list eqn:E.
  - apply app_eq_nil in E as [_ E]. apply app_eq_nil in E as [_ E]. congruence.
  - destruct (st !! (s :: l)) eqn:Hl; [eauto | exfalso; apply Hex; exact Hl].
Qed.

Lemma prefix_source (r' r : path) :
  r' `prefix_of` r -> Path.stat st (source ++ r)%list = Some Dir ->
  Path.stat st (source ++ r')%list = Some Dir.
Proof.
  intros [rest ->] H. destruct rest as [|a rest].
  - rewrite app_nil_r in H. exact H.
  - apply (source_ancestor r' (a :: rest)); [discriminate | congruence].
Qed.

(** Making the directory for [r] below the destination, where the source
    has a directory at [r]. *)
Lemma mkdir_mirror s r :
  mirrors st source destination st s ->
  Path.stat st (source ++ r)%list = Some Dir ->
  exists s', Path.mkdir_parents s (destination ++ r)%list = Ok s' /\
             mirrors st source destination s s' /\
             Path.is_dir s' (destination ++ r)%list = true.
Proof.
  intros Hinv Hsrc.
  destruct (mkdir_parents_succeeds s destination r (inv_dest s Hinv)) as [s' Hs'].
  { intros r' Hne Hp. apply inv_dir_place; [exact Hinv | exact Hne|].
    eapply prefix_source; eassumption. }
  exists s'. split; [exact Hs'|]. split.
  - intros x.
    destruct (mkdir_parents_below s destination r s' (inv_dest s Hinv) Hs' x)
      as [E | (r' & Hne & Hp & Hx & Hnone & Hnew)]; [left; exact E|].
    right. exists r'. split; [exact Hne|]. split; [exact Hx|].
    rewrite (prefix_source r' r Hp Hsrc). split; [exact Hnew | exact Hnone].
  - apply mkdir_parents_ok in Hs'. apply Hs'.
Qed.

Lemma copy_item_skipped s (rel : path) :
  copied_name (Path.name (source ++ rel)%list) = false ->
  FileManager.copy_item destination (source ++ rel)%list rel s = Out (Ok tt) s [].
Proof.
  intros H. unfold FileManager.copy_item. rewrite skip_check, H. reflexivity.
Qed.

Lemma copy_item_step s (rel : path) e :
  mirrors st source destination st s -> rel <> [] ->
  Path.stat st (source ++ rel)%list = Some e ->
  exists s',
    FileManager.copy_item destination (source ++ rel)%list rel s = Out (Ok tt) s' [] /\
    mirrors st source destination s s' /\
    (copied_name (Path.name (source ++ rel)%list) = true ->
     Path.stat s' (destination ++ rel)%list = Some e).
Proof.
  intros Hinv Hrel Hsrc.
  destruct (copied_name (Path.name (source ++ rel)%list)) eqn:Hname.
  2:{ exists s. rewrite copy_item_skipped by exact Hname.
      split; [reflexivity|]. split; [apply mirrors_refl | discriminate]. }
  unfold FileManager.copy_item. rewrite skip_check, Hname. cbn [negb].
  unfold bind at 1. cbn [get_fs val state trace].
  unfold Path.is_file, Path.is_dir. rewrite (inv_source s rel Hinv), Hsrc.
  destruct e as [c|].
  - (* a regular file *)
    assert (Hpar : Path.stat st (source ++ removelast rel)%list = Some Dir).
    { apply (source_ancestor (removelast rel) [List.last rel ""]); [discriminate|].
      rewrite <- (app_removelast_last "" Hrel). congruence. }
    destruct (mkdir_mirror s (removelast rel) Hinv Hpar) as (s1 & Hmk & Hm1 & Hd1).
    assert (Hinv1 : mirrors st source destination st s1)
      by (eapply mirrors_trans; eassumption).
    assert (Hparent : Path.parent (destination ++ rel)%list
                      = (destination ++ removelast rel)%list).
    { unfold Path.parent. apply removelast_app. exact Hrel. }
    assert (Hcopy : FileManager.copy2 (source ++ rel)%list (destination ++ rel)%list s1
                    = Ok (<[(destination ++ rel)%list := File c]> s1)).
    { unfold FileManager.copy2.
      pose proof (inv_file_place s1 rel c Hinv1 Hrel Hsrc) as Hnd.
      rewrite Hnd, (inv_source s1 rel Hinv1), Hsrc.
      rewrite decide_False.
      2:{ intros E. apply app_inv_tail in E. destruct Hapart as [H1 _]. apply H1.
          rewrite E. reflexivity. }
      rewrite Hparent. apply is_dir_stat in Hd1. rewrite Hd1.
      unfold Path.is_dir in Hnd.
      destruct (Path.stat s1 (destination ++ rel)%list) as [[]|];
        [reflexivity | discriminate Hnd | reflexivity]. }
    exists (<[(destination ++ rel)%list := File c]> s1). split; [|split].
    + rewrite Hparent. rewrite (bind_fs_call_ok _ _ _ _ Hmk).
      rewrite (fs_call_ok _ _ _ Hcopy). reflexivity.
    + eapply mirrors_trans; [exact Hm1|]. intros x. rewrite stat_insert.
      destruct x as [|a x]; [left; reflexivity|].
      destruct (decide ((destination ++ rel)%list = a :: x)) as [E|E];
        [rewrite decide_True by exact E | rewrite decide_False by exact E; left; reflexivity].
      right. exists rel. rewrite <- E, Hsrc. auto.
    + intros _. rewrite stat_insert. destruct (destination ++ rel)%list eqn:E.
      * apply app_eq_nil in E as [_ E]. congruence.
      * rewrite decide_True; reflexivity.
  - (* a directory *)
    destruct (mkdir_mirror s rel Hinv Hsrc) as (s1 & Hmk & Hm1 & Hd1).
    exists s1. split; [|split].
    + rewrite (fs_call_ok _ _ _ Hmk). reflexivity.
    + exact Hm1.
    + intros _. apply is_dir_stat. exact Hd1.
Qed.

Lemma copy_loop (l : list (path * path)) s :
  (forall qr, qr ∈ l ->
     snd qr <> [] /\ fst qr = (source ++ snd qr)%list /\ Path.stat st (fst qr) <> None) ->
  mirrors st source destination st s ->
  exists s',
    for_each l tt (fun _ qr => FileManager.copy_item destination (fst qr) (snd qr)) s
    = Out (Ok tt) s' [] /\
    mirrors st source destination s s' /\
    forall qr, qr ∈ l -> copied_name (Path.name (fst qr)) = true ->
      Path.stat s' (destination ++ snd qr)%list = Path.stat st (fst qr).
Proof.
  revert s. induction l as [|[q rel] l IH]; intros s Hl Hinv.
  - exists s. split; [reflexivity|]. split; [apply mirrors_refl|].
    intros qr H. inversion H.
  - destruct (Hl (q, rel)) as (Hrel & Hq & Hex); [left|]. cbn [fst snd] in *. subst q.
    destruct (Path.stat st (source ++ rel)%list) as [e|] eqn:Hsrc; [|congruence].
    destruct (copy_item_step s rel e Hinv Hrel Hsrc) as (s1 & Hstep & Hm1 & Hdone).
    destruct (IH s1) as (s' & Hloop & Hm' & Hrest).
    { intros qr Hin. apply Hl. right. exact Hin. }
    { eapply mirrors_trans; eassumption. }
    exists s'. split; [|split].
    + cbn [for_each fst snd]. unfold bind. rewrite Hstep. cbn [val state trace].
      rewrite Hloop. reflexivity.
    + eapply mirrors_trans; eassumption.
    + intros qr Hin Hname. apply elem_of_cons in Hin as [-> | Hin]; [|auto].
      cbn [fst snd] in *. rewrite Hsrc. rewrite <- Hsrc.
      apply (mirrors_keeps s1 s' rel Hm'). rewrite Hsrc. auto.
Qed.

End Copy.

Lemma relative_to_nonempty q p rel : Path.relative_to q p = Some rel -> rel <> [].
Proof.
  revert q. induction p as [|a p IH]; intros q H.
  - destruct q; [discriminate|]. injection H as <-. discriminate.
  - destruct q as [|b q]; [discriminate|]. simpl in H.
    destruct (String.eqb a b); [eauto | discriminate].
Qed.

Lemma rglob_all_elem st p qr :
  qr ∈ Path.rglob_all st p ->
  snd qr <> [] /\ fst qr = (p ++ snd qr)%list /\ Path.stat st (fst qr) <> None.
Proof.
  destruct qr as [q rel]. intros H. cbn [fst snd].
  destruct (rglob_all_in st p q rel H) as [Hq [e He]].
  assert (Hrel : rel <> []).
  { unfold Path.rglob_all in H. destruct (Path.is_dir st p); [|inversion H].
    apply list_elem_of_omap in H as (q' & _ & Hf).
    destruct (Path.relative_to q' p) as [rel'|] eqn:Hr; [|discriminate].
    destruct (Path.reachable st p rel'); [|discriminate].
    injection Hf as <- <-. eapply relative_to_nonempty, Hr. }
  split; [exact Hrel|]. split; [exact Hq|].
  destruct q as [|a q].
  - symmetry in Hq. apply app_eq_nil in Hq as [_ Hq]. congruence.
  - intros Hn. unfold Path.stat in Hn. pose proof (eq_trans (eq_sym He) Hn). discriminate.
Qed.

Lemma rglob_all_complete st (p rel : path) :
  closed_tree st -> Path.is_dir st p = true -> rel <> [] ->
  Path.stat st (p ++ rel)%list <> None ->
  ((p ++ rel)%list, rel) ∈ Path.rglob_all st p.
Proof.
  intros Hc Hd Hrel Hex. unfold Path.rglob_all. rewrite Hd.
  assert (Hl : is_Some (st !! (p ++ rel)%list)).
  { unfold Path.stat in Hex. destruct (p ++ rel)%list eqn:E.
    - apply app_eq_nil in E as [_ E]. congruence.
    - destruct (st !! (s :: l)) eqn:Hl; [eauto | exfalso; apply Hex; exact Hl]. }
  apply list_elem_of_omap. exists (p ++ rel)%list. split.
  - destruct Hl as [e He]. apply list_elem_of_fmap. exists ((p ++ rel)%list, e).
    split; [reflexivity|]. apply elem_of_map_to_list. exact He.
  - rewrite relative_to_intro by exact Hrel.
    rewrite closed_reachable; [reflexivity | exact Hc | exact Hl].
Qed.

(** Without rsync, and the destination there, [sync_directories] is the
    Python copy. *)
Lemma sync_directories_python self w source destination options recursive st :
  Py.truthy_str (FileManager.rsync_path self) = false ->
  Path.is_dir st source = true ->
  Path.is_dir st destination = true ->
  FileManager.sync_directories self w source destination options recursive st
  = FileManager._python_sync self source destination recursive st.
Proof.
  intros Hno Hsrc Hdst. unfold FileManager.sync_directories.
  rewrite bind_get_fs. unfold Path.exists_. apply is_dir_stat in Hsrc. rewrite Hsrc.
  cbn [negb]. rewrite (bind_fs_call_ok _ _ _ _ (mkdir_parents_existing st destination Hdst)).
  rewrite Hno. reflexivity.
Qed.

(** The Python copy of a directory whose loop runs to its end. *)
Lemma python_sync_directory self source destination st s' :
  FileManager.dry_run self = false ->
  Path.is_dir st source = true ->
  for_each (Path.rglob_all st source) tt
    (fun _ qr => FileManager.copy_item destination (fst qr) (snd qr)) st
  = Out (Ok tt) s' [] ->
  FileManager._python_sync self source destination true st
  = Out (Ok true) s'
      [LogInfo ("Syncing " ++ Path.str source ++ " to " ++ Path.str destination
                ++ " using Python");
       LogInfo ("Successfully synced " ++ Path.str source ++ " to "
                ++ Path.str destination)].
Proof.
  intros Hreal Hsrc Hloop. unfold FileManager._python_sync.
  rewrite bind_log_info, Hreal. unfold try_except.
  rewrite bind_get_fs. unfold Path.is_file. rewrite Hsrc.
  apply is_dir_stat in Hsrc. rewrite Hsrc. cbn [andb].
  rewrite (bind_out _ _ _ _ _ _ Hloop). reflexivity.
Qed.

(** X14: The Python copy of a directory into a directory apart from it,
    in a tree where no file of the one stands against a directory of the
    other: [sync_directories] returns true; every file and directory below
    the source that is not itself named [.git] or [.keep] is afterwards
    below the destination at the same relative path, files with their
    content (what lies inside a [.git] directory included); and every
    entry of the tree is as it was or is the copy of the source entry at
    the same relative path, which for a file has neither of the two
    names. *)
Theorem python_sync_copies self w source destination options st :
  FileManager.dry_run self = false ->
  Py.truthy_str (FileManager.rsync_path self) = false ->
  closed_tree st ->
  Path.is_dir st source = true ->
  Path.is_dir st destination = true ->
  apart source destination ->
  compatible st source destination ->
  let o := FileManager.sync_directories self w source destination options true st in
  val o = Ok true /\
  (forall rel e, rel <> [] ->
     Path.stat st (source ++ rel)%list = Some e ->
     copied_name (Path.name (source ++ rel)%list) = true ->
     Path.stat (state o) (destination ++ rel)%list = Some e) /\
  (forall x,
     Path.stat (state o) x = Path.stat st x \/
     exists rel e, rel <> [] /\ x = (destination ++ rel)%list /\
       Path.stat st (source ++ rel)%list = Some e /\ Path.stat (state o) x = Some e /\
       (Path.is_file st (source ++ rel)%list = true ->
        copied_name (Path.name (source ++ rel)%list) = true)).
Proof.
  intros Hreal Hno Hc Hsrc Hdst Hapart Hcompat.
  destruct (copy_loop st source destination Hc Hapart Hcompat Hdst
              (Path.rglob_all st source) st)
    as (s' & Hloop & Hm & Hcopied).
  { intros qr Hin. apply rglob_all_elem in Hin. exact Hin. }
  { apply mirrors_refl. }
  assert (Hrun : FileManager.sync_directories self w source destination options true st
                 = Out (Ok true) s'
                     (trace (FileManager.sync_directories self w source destination
                               options true st))).
  { rewrite (sync_directories_python self w source destination options true st Hno Hsrc Hdst).
    rewrite (python_sync_directory self source destination st s' Hreal Hsrc Hloop).
    reflexivity. }
  cbv zeta. rewrite Hrun. cbn [val state]. split; [reflexivity|]. split.
  - intros rel e Hrel He Hname.
    rewrite <- He.
    apply (Hcopied ((source ++ rel)%list, rel)); [|exact Hname].
    apply rglob_all_complete; [exact Hc | exact Hsrc | exact Hrel | congruence].
  - intros x. destruct (Hm x) as [E | (r & Hr & Hx & Hs & Hside)]; [left; exact E|].
    right. unfold Path.is_file.
    destruct (Path.stat st (source ++ r)%list) as [e|] eqn:He; [|contradiction].
    exists r, e. do 4 (split; [auto|]).
    destruct e; [intros _; exact Hside | intros H; rewrite He in H; discriminate H].
Qed.

Lemma checkout_tree_closed : closed_tree checkout_tree.
Proof.
  unfold closed_tree, checkout_tree. intros q e H.
  do 7 (apply lookup_insert_Some in H as [[<- _] | [_ H]]; [vm_compute; reflexivity|]).
  discriminate H.
Qed.

Lemma checkout_tree_merged_empty (rel : path) :
  rel <> [] -> Path.stat checkout_tree ("merged" :: rel) = None.
Proof.
  intros Hrel. unfold checkout_tree.
  do 6 (rewrite stat_insert, decide_False by discriminate).
  rewrite stat_insert, decide_False by congruence. reflexivity.
Qed.

Lemma python_sync_copies_witness :
  let o := FileManager.sync_directories python_file_manager (fleet_world [])
             ["repo"] ["merged"] FileManager.default_options true checkout_tree in
  val o = Ok true /\
  Path.stat (state o) ["merged"; "nodes"; "x.yml"] = Some (File "classes: [web]") /\
  Path.stat (state o) ["merged"; ".git"; "config"] = Some (File "[core]").
Proof.
  destruct (python_sync_copies python_file_manager (fleet_world [])
              ["repo"] ["merged"] FileManager.default_options checkout_tree)
    as (Hval & Hcopy & _).
  - reflexivity.
  - reflexivity.
  - apply checkout_tree_closed.
  - vm_compute. reflexivity.
  - vm_compute. reflexivity.
  - split; intros [r Hr]; discriminate.
  - intros rel Hrel. unfold Path.is_dir, Path.is_file.
    change (["merged"] ++ rel)%list with ("merged" :: rel).
    rewrite (checkout_tree_merged_empty rel Hrel).
    destruct (Path.stat checkout_tree (["repo"] ++ rel)%list) as [[]|]; auto.
  - split; [exact Hval|]. split.
    + apply (Hcopy ["nodes"; "x.yml"]); [discriminate | reflexivity | reflexivity].
    + apply (Hcopy [".git"; "config"]); [discriminate | reflexivity | reflexivity].
Defined.

(** ** The node listing and the parameter search of [ReclassParser] *)





Lemma lookup_setitem k d k' v :
  Py.lookup k (Py.setitem d k' v) = if String.eqb k k' then Some v else Py.lookup k d.
Proof.
  induction d as [|[k0 v0] d IH]; simpl.
  - destruct (String.eqb k k'); reflexivity.
  - destruct (String.eqb_spec k' k0) as [-> | Hne]; simpl.
    + destruct (String.eqb k k0); reflexivity.
    + rewrite IH. destruct (String.eqb_spec k k0) as [-> | Hne'].
      * destruct (String.eqb_spec k0 k'); [congruence | reflexivity].
      * reflexivity.
Qed.


Lemma parser_list_nodes_ro self w : readonly (ReclassParser.list_nodes self w).
Proof.
  unfold ReclassParser.list_nodes, ReclassParser._scan_nodes_from_filesystem. ro.
Qed.





(** ** Validation of an inventory by [ReclassParser] *)

(** X17: In a dry run with the classifier installed,
    [ReclassParser.validate_inventory] passes exactly when the inventory
    directory and its [nodes] and [classes] entries exist: the nodes it
    counts are the two placeholders of the dry run, whatever the
    inventory holds. *)
Theorem parser_validate_inventory_dry self w st :
  ReclassParser.dry_run self = true ->
  Py.truthy_str (ReclassParser.reclass_path self) = true ->
  val (ReclassParser.validate_inventory self w st)
  = Ok (Path.exists_ st (ReclassParser.inventory_dir self)
        && Path.exists_ st (Path.child (ReclassParser.inventory_dir self) "nodes")
        && Path.exists_ st (Path.child (ReclassParser.inventory_dir self) "classes")).
Proof.
  intros Hdry Hrp. unfold ReclassParser.validate_inventory.
  rewrite bind_get_fs.
  destruct (Path.exists_ st (ReclassParser.inventory_dir self)); [|reflexivity].
  cbn [negb andb List.find].
  destruct (Path.exists_ st (Path.child _ "nodes")); [|reflexivity].
  destruct (Path.exists_ st (Path.child _ "classes")); [|reflexivity].
  cbn [negb andb]. rewrite (val_bind_ro _ _ _ (parser_list_nodes_ro self w)).
  unfold ReclassParser.list_nodes. rewrite Hrp, Hdry. reflexivity.
Qed.

Lemma parser_validate_inventory_dry_witness :
  val (ReclassParser.validate_inventory dry_parser (fleet_world []) ∅) = Ok false.
Proof.
  rewrite (parser_validate_inventory_dry dry_parser (fleet_world []) ∅); reflexivity.
Defined.

(** X18: In a dry run with the classifier installed, and no file standing
    where the inventory directory or its [nodes] and [classes] are to be
    made, a merge into the inventory directory of the parser followed by
    its validation reports success twice, whatever the sources are: the
    merge makes the directories validation looks for, and a dry run with
    the classifier installed looks no further. *)
Theorem dry_merge_then_validate self w source_dirs st :
  ReclassParser.dry_run self = true ->
  Py.truthy_str (ReclassParser.reclass_path self) = true ->
  can_prepare (ReclassParser.inventory_dir self) st = true ->
  let merged := ReclassParser.merge_inventories self w source_dirs
                  (ReclassParser.inventory_dir self) st in
  val merged = Ok true /\
  val (ReclassParser.validate_inventory self w (state merged)) = Ok true.
Proof.
  intros Hdry Hrp Hcan merged. apply can_prepare_prepared in Hcan as Hprep.
  destruct (prepare_target_ok _ _ _ Hprep) as (_ & _ & Hn & Hc).
  destruct (merge_loop_dry self w (ReclassParser.inventory_dir self) source_dirs true
              (prepared (ReclassParser.inventory_dir self) st) Hdry Hn Hc)
    as (tr & Hloop & _).
  subst merged. rewrite (merge_inventories_prepared _ _ _ _ _ _ Hprep), Hloop.
  cbn [val state]. split; [reflexivity|].
  rewrite (parser_validate_inventory_dry self w _ Hdry Hrp).
  assert (He : forall p, Path.is_dir (prepared (ReclassParser.inventory_dir self) st) p = true ->
                         Path.exists_ (prepared (ReclassParser.inventory_dir self) st) p = true).
  { intros p. unfold Path.is_dir, Path.exists_. destruct (Path.stat _ p) as [[]|]; congruence. }
  rewrite (He _ Hn), (He _ Hc), !andb_true_r. f_equal. apply He.
  unfold prepare_target in Hprep.
  destruct (Path.mkdir_parents st _) as [s1|] eqn:H1; [|discriminate].
  destruct (Path.mkdir_exist_ok s1 _) as [s2|] eqn:H2; [|discriminate].
  apply mkdir_parents_ok in H1 as (_ & _ & Hd).
  apply mkdir_exist_ok_ok in H2 as (Hk2 & _ & _).
  apply mkdir_exist_ok_ok in Hprep as (Hk3 & _ & _).
  apply Hk3, Hk2, Hd.
Qed.

Lemma dry_merge_then_validate_witness :
  let merged := ReclassParser.merge_inventories dry_parser (fleet_world [])
                  [["repo-a"]] ["merged"] source_tree in
  val merged = Ok true /\
  val (ReclassParser.validate_inventory dry_parser (fleet_world []) (state merged)) = Ok true.
Proof.
  apply (dry_merge_then_validate dry_parser (fleet_world []) [["repo-a"]] source_tree);
    [reflexivity | reflexivity | vm_compute; reflexivity].
Defined.

(** ** Filters only narrow *)

Lemma keep_name_subset q (s : gset string) : keep_name q s ⊆ s.
Proof.
  unfold keep_name. destruct (PyStr.contains_char "*" q).
  - destruct (Re.compile _); [|reflexivity]. intros n Hn. apply elem_of_filter in Hn. tauto.
  - intros n Hn. apply elem_of_filter in Hn. tauto.
Qed.

Lemma keep_name_mono q (s s' : gset string) : s ⊆ s' -> keep_name q s ⊆ keep_name q s'.
Proof.
  intros Hs. unfold keep_name. destruct (PyStr.contains_char "*" q).
  - destruct (Re.compile _); [|exact Hs]. intros n Hn.
    apply elem_of_filter in Hn as [Hm Hn]. apply elem_of_filter. auto.
  - intros n Hn. apply elem_of_filter in Hn as [Hm Hn]. apply elem_of_filter. auto.
Qed.

Lemma stage_subset fv (keep : string -> gset string -> gset string) s :
  (forall q, keep q s ⊆ s) -> stage fv keep s ⊆ s.
Proof.
  intros Hk. unfold stage. destruct (Py.truthy_str fv); [|reflexivity].
  destruct (InputValidator.validate_filter_pattern _); [apply Hk | reflexivity].
Qed.

Lemma stage_mono fv (keep : string -> gset string -> gset string) s s' :
  (forall q, keep q s ⊆ keep q s') -> s ⊆ s' -> stage fv keep s ⊆ stage fv keep s'.
Proof.
  intros Hk Hs. unfold stage. destruct (Py.truthy_str fv); [|exact Hs].
  destruct (InputValidator.validate_filter_pattern _); [apply Hk | exact Hs].
Qed.

Lemma stage_weaker fv fv' (keep : string -> gset string -> gset string) s s' :
  weaker fv' fv ->
  (forall q, keep q s ⊆ s) -> (forall q, keep q s ⊆ keep q s') -> s ⊆ s' ->
  stage fv keep s ⊆ stage fv' keep s'.
Proof.
  intros [-> | ->] Hshrink Hmono Hs.
  - apply stage_mono; assumption.
  - etransitivity; [apply stage_subset, Hshrink | exact Hs].
Qed.

Lemma keep_class_subset self w st q (s : gset string) : keep_class self w st q s ⊆ s.
Proof. unfold keep_class. intros n Hn. apply elem_of_intersection in Hn. tauto. Qed.

Lemma keep_class_mono self w st q (s s' : gset string) :
  s ⊆ s' -> keep_class self w st q s ⊆ keep_class self w st q s'.
Proof.
  unfold keep_class. intros Hs n Hn. apply elem_of_intersection in Hn as [Hn Hc].
  apply elem_of_intersection. auto.
Qed.

Lemma keep_project_subset self w st q (s : gset string) : keep_project self w st q s ⊆ s.
Proof. intros n Hn. apply elem_of_filter in Hn. tauto. Qed.

Lemma keep_project_mono self w st q (s s' : gset string) :
  s ⊆ s' -> keep_project self w st q s ⊆ keep_project self w st q s'.
Proof.
  intros Hs n Hn. apply elem_of_filter in Hn as [Hp Hn]. apply elem_of_filter. auto.
Qed.

(** The result of [filter_nodes], as a set. *)
Lemma filter_nodes_members self w nf cf pf st :
  documented self w ->
  exists l,
    val (ReclassManager.filter_nodes self w nf cf pf st) = Ok l /\
    forall n, n ∈ l <->
      n ∈ stage pf (keep_project self w st)
            (stage cf (keep_class self w st)
               (stage nf keep_name (list_to_set (inventory_nodes self w st).*1))).
Proof.
  intros Hdoc. rewrite (filter_nodes_val self w nf cf pf st Hdoc).
  eexists. split; [reflexivity|]. intros n.
  destruct (any_filter nf cf pf) eqn:Hany.
  - rewrite elem_of_sorted, elem_of_elements. reflexivity.
  - unfold any_filter in Hany. apply orb_false_iff in Hany as [Hany Hpf].
    apply orb_false_iff in Hany as [Hnf Hcf].
    unfold stage. rewrite Hnf, Hcf, Hpf. rewrite elem_of_list_to_set. reflexivity.
Qed.

(** X19: Leaving a filter out never removes a node from the result of
    [filter_nodes]: with a documented classifier, the nodes returned for
    three filters are among those returned when any of the filters is
    left out, and so among the nodes listed. *)
Theorem filter_nodes_narrows self w nf cf pf nf' cf' pf' st :
  documented self w ->
  weaker nf' nf -> weaker cf' cf -> weaker pf' pf ->
  exists l l',
    val (ReclassManager.filter_nodes self w nf cf pf st) = Ok l /\
    val (ReclassManager.filter_nodes self w nf' cf' pf' st) = Ok l' /\
    forall n, n ∈ l -> n ∈ l'.
Proof.
  intros Hdoc Hnf Hcf Hpf.
  destruct (filter_nodes_members self w nf cf pf st Hdoc) as (l & Hl & Hin).
  destruct (filter_nodes_members self w nf' cf' pf' st Hdoc) as (l' & Hl' & Hin').
  exists l, l'. split; [exact Hl|]. split; [exact Hl'|].
  intros n Hn. apply Hin'. apply Hin in Hn. revert n Hn.
  set (s0 := list_to_set (inventory_nodes self w st).*1 : gset string).
  assert (H1 : stage nf keep_name s0 ⊆ stage nf' keep_name s0).
  { apply stage_weaker; [exact Hnf | intros q; apply keep_name_subset
                        | intros q; reflexivity | reflexivity]. }
  assert (H2 : stage cf (keep_class self w st) (stage nf keep_name s0)
               ⊆ stage cf' (keep_class self w st) (stage nf' keep_name s0)).
  { apply stage_weaker; [exact Hcf | intros q; apply keep_class_subset
                        | intros q; apply keep_class_mono, H1 | exact H1]. }
  apply stage_weaker; [exact Hpf | intros q; apply keep_project_subset
                      | intros q; apply keep_project_mono, H2 | exact H2].
Qed.

Lemma filter_nodes_narrows_witness :
  exists l l',
    val (ReclassManager.filter_nodes live_manager (fleet_world three_nodes)
           (Some "a*") (Some "web") (Some "p1") ∅) = Ok l /\
    val (ReclassManager.filter_nodes live_manager (fleet_world three_nodes)
           None (Some "web") None ∅) = Ok l' /\
    forall n, n ∈ l -> n ∈ l'.
Proof.
  apply (filter_nodes_narrows live_manager (fleet_world three_nodes)).
  - apply fleet_world_documented. reflexivity.
  - right. reflexivity.
  - left. reflexivity.
  - right. reflexivity.
Defined.

(** ** Filtering without the classifier *)

Lemma quiet_ret {A} (a : A) : quiet (ret a) a.
Proof. intros st. exists []. split; [reflexivity | solve_no_exec]. Qed.

Lemma quiet_bind {A B} (m : M A) (k : A -> M B) a b :
  quiet m a -> quiet (k a) b -> quiet (bind m k) b.
Proof.
  intros Hm Hk st. destruct (Hm st) as (tr1 & E1 & N1). destruct (Hk st) as (tr2 & E2 & N2).
  exists (tr1 ++ tr2)%list. split; [|apply no_exec_app; assumption].
  rewrite (bind_out _ _ _ _ _ _ E1), E2. reflexivity.
Qed.

Lemma quiet_log_info msg : quiet (log_info msg) tt.
Proof. intros st. eexists. split; [reflexivity | solve_no_exec]. Qed.

Lemma quiet_log_warning msg : quiet (log_warning msg) tt.
Proof. intros st. eexists. split; [reflexivity | solve_no_exec]. Qed.

Lemma quiet_inventory_data self w :
  Py.truthy_str (ReclassManager.reclass_path self) = false \/
  ReclassManager.dry_run self = true ->
  exists d, quiet (ReclassManager.get_inventory_data self w) d /\
            (d = None \/ d = Some ReclassManager.dry_inventory_data).
Proof.
  intros Hoff. unfold ReclassManager.get_inventory_data.
  destruct (Py.truthy_str (ReclassManager.reclass_path self)) eqn:Hrp; cbn [negb].
  - destruct Hoff as [Hoff | Hdry]; [discriminate|]. rewrite Hdry.
    exists (Some ReclassManager.dry_inventory_data). split; [|right; reflexivity].
    eapply quiet_bind; [apply quiet_log_info|].
    eapply quiet_bind; [apply quiet_log_info | apply quiet_ret].
  - exists None. split; [|left; reflexivity].
    eapply quiet_bind; [apply quiet_log_warning | apply quiet_ret].
Qed.

Lemma quiet_list_nodes self w :
  Py.truthy_str (ReclassManager.reclass_path self) = false \/
  ReclassManager.dry_run self = true ->
  quiet (ReclassManager.list_nodes self w) [].
Proof.
  intros Hoff. destruct (quiet_inventory_data self w Hoff) as (d & Hq & Hd).
  unfold ReclassManager.list_nodes. eapply quiet_bind; [exact Hq|].
  destruct Hd as [-> | ->]; cbn; apply quiet_ret.
Qed.

Lemma quiet_nodes_by_class self w c :
  Py.truthy_str (ReclassManager.reclass_path self) = false \/
  ReclassManager.dry_run self = true ->
  quiet (ReclassManager.get_nodes_by_class self w c) [].
Proof.
  intros Hoff. destruct (quiet_inventory_data self w Hoff) as (d & Hq & Hd).
  unfold ReclassManager.get_nodes_by_class. eapply quiet_bind; [exact Hq|].
  destruct Hd as [-> | ->]; cbn; apply quiet_ret.
Qed.

Lemma quiet_node_filter nf : quiet (ReclassManager.apply_node_filter nf ∅) ∅.
Proof.
  unfold ReclassManager.apply_node_filter.
  destruct (Py.truthy_str nf); [|apply quiet_ret].
  destruct (InputValidator.validate_filter_pattern _) as [q|e] eqn:Hv.
  - apply validate_filter_pattern_ok in Hv as [_ Hg].
    unfold filter_grammar in Hg. apply andb_true_iff in Hg as [_ Hg].
    rewrite (compile_replace q Hg).
    destruct (PyStr.contains_char "*" q); cbv beta iota;
      (rewrite (filter_empty_L (C := gset string)); [apply quiet_ret | apply _]).
  - apply validate_filter_pattern_raises in Hv as [msg ->].
    eapply quiet_bind; [apply quiet_log_warning | apply quiet_ret].
Qed.

Lemma quiet_class_filter self w cf :
  Py.truthy_str (ReclassManager.reclass_path self) = false \/
  ReclassManager.dry_run self = true ->
  quiet (ReclassManager.apply_class_filter self w cf ∅) ∅.
Proof.
  intros Hoff. unfold ReclassManager.apply_class_filter.
  destruct (Py.truthy_str cf); [|apply quiet_ret].
  destruct (InputValidator.validate_filter_pattern _) as [q|e] eqn:Hv.
  - eapply quiet_bind; [apply quiet_nodes_by_class, Hoff|].
    cbn [list_to_set foldr]. rewrite intersection_empty_l_L. apply quiet_ret.
  - apply validate_filter_pattern_raises in Hv as [msg ->].
    eapply quiet_bind; [apply quiet_log_warning | apply quiet_ret].
Qed.

Lemma quiet_project_filter self w pf :
  quiet (ReclassManager.apply_project_filter self w pf ∅) ∅.
Proof.
  unfold ReclassManager.apply_project_filter.
  destruct (Py.truthy_str pf); [|apply quiet_ret].
  destruct (InputValidator.validate_filter_pattern _) as [q|e] eqn:Hv.
  - rewrite elements_empty. apply quiet_ret.
  - apply validate_filter_pattern_raises in Hv as [msg ->].
    eapply quiet_bind; [apply quiet_log_warning | apply quiet_ret].
Qed.

(** X20: Without the classifier, or in a dry run, [filter_nodes]
    returns the empty list for every combination of filters, valid or
    not: nothing is executed, the tree is left as it is, and the inventory
    on disk is not looked at. *)
Theorem filter_nodes_offline self w nf cf pf st :
  Py.truthy_str (ReclassManager.reclass_path self) = false \/
  ReclassManager.dry_run self = true ->
  exists tr,
    ReclassManager.filter_nodes self w nf cf pf st = Out (Ok []) st tr /\ no_exec tr.
Proof.
  intros Hoff. revert st. change (quiet (ReclassManager.filter_nodes self w nf cf pf) []).
  unfold ReclassManager.filter_nodes.
  eapply quiet_bind; [apply quiet_list_nodes, Hoff|].
  destruct (negb _); [apply quiet_ret|].
  cbn [list_to_set foldr].
  eapply quiet_bind; [apply quiet_node_filter|].
  eapply quiet_bind; [apply quiet_class_filter, Hoff|].
  eapply quiet_bind; [apply quiet_project_filter|].
  rewrite elements_empty. apply quiet_ret.
Qed.

Lemma filter_nodes_offline_witness :
  exists tr,
    ReclassManager.filter_nodes
      {| ReclassManager.inventory_dir := ["srv"; "inventory"];
         ReclassManager.dry_run := true;
         ReclassManager.reclass_path := Some "/usr/bin/reclass" |}
      (fleet_world three_nodes) (Some "a*") (Some "web") None ∅
    = Out (Ok []) ∅ tr /\ no_exec tr.
Proof. apply filter_nodes_offline. right. reflexivity. Defined.

(** ** The class filter and [get_nodes_by_class] *)

Lemma list_filter_sublist {A} (f : A -> bool) (l : list A) : List.filter f l `sublist_of` l.
Proof.
  induction l as [|x l IH]; [constructor|]. simpl.
  destruct (f x); [apply sublist_skip | apply sublist_cons]; exact IH.
Qed.

Lemma validated_not_empty p q :
  InputValidator.validate_filter_pattern p = Ok q -> Py.truthy_str (Some p) = true.
Proof.
  unfold InputValidator.validate_filter_pattern. cbn [Py.truthy_str].
  destruct (String.eqb_spec p "") as [-> | _]; [|reflexivity].
  discriminate.
Qed.

(** X21: For a class filter whose value without surrounding blanks,
    [class_name], is in the filter grammar, and a documented classifier:
    [get_nodes_by_class] returns exactly the listed nodes that carry
    [class_name] among the classes of their inventory entry, in the order
    of the listing, as a subsequence of [list_nodes]; [filter_nodes] with
    that filter as its only one returns the same nodes sorted and without
    duplicates. *)
Theorem class_filter_is_nodes_by_class self w class_filter st :
  documented self w ->
  filter_grammar (PyStr.strip class_filter) = true ->
  let class_name := PyStr.strip class_filter in
  exists by_class all_nodes,
    val (ReclassManager.get_nodes_by_class self w class_name st) = Ok by_class /\
    val (ReclassManager.list_nodes self w st) = Ok all_nodes /\
    by_class `sublist_of` all_nodes /\
    (forall n, n ∈ by_class <-> carries self w st n class_name) /\
    val (ReclassManager.filter_nodes self w None (Some class_filter) None st)
    = Ok (normalise by_class).
Proof.
  intros Hdoc Hg class_name.
  pose proof (validate_filter_pattern_accepts _ Hg) as Hv. fold class_name in Hv.
  exists (fst <$> List.filter (fun e => class_member class_name (snd e))
                    (inventory_nodes self w st)),
         (inventory_nodes self w st).*1.
  split; [apply get_nodes_by_class_val, Hdoc|].
  split; [apply list_nodes_val, Hdoc|].
  assert (Hsub : (fst <$> List.filter (fun e => class_member class_name (snd e))
                            (inventory_nodes self w st))
                 `sublist_of` (inventory_nodes self w st).*1).
  { apply fmap_sublist, list_filter_sublist. }
  split; [exact Hsub|].
  split.
  { intros n. unfold carries. rewrite <- inventory_nodes_listed, list_elem_of_fmap. split.
    - intros ([k v] & -> & Hin). apply list_elem_of_In, filter_In in Hin as [Hin Hc].
      exists v. split; [apply list_elem_of_In; exact Hin | apply class_member_spec; exact Hc].
    - intros (v & Hin & Hc). exists (n, v). split; [reflexivity|].
      apply list_elem_of_In, filter_In. split; [apply list_elem_of_In; exact Hin|].
      apply class_member_spec. exact Hc. }
  rewrite (filter_nodes_val self w None (Some class_filter) None st Hdoc).
  unfold any_filter. rewrite (validated_not_empty _ _ Hv). cbn [Py.truthy_str orb].
  unfold stage at 1 3. cbn [Py.truthy_str].
  unfold stage. rewrite (validated_not_empty _ _ Hv). cbn [default from_option id].
  rewrite Hv. unfold normalise, keep_class. do 3 f_equal.
  apply set_eq. intros n. rewrite elem_of_intersection, !elem_of_list_to_set.
  split; [tauto|]. intros Hn. split; [|exact Hn]. eapply elem_of_sublist; eassumption.
Qed.

Lemma class_filter_is_nodes_by_class_witness :
  exists by_class all_nodes,
    val (ReclassManager.get_nodes_by_class live_manager (fleet_world three_nodes) "web" ∅)
    = Ok by_class /\
    val (ReclassManager.list_nodes live_manager (fleet_world three_nodes) ∅) = Ok all_nodes /\
    by_class `sublist_of` all_nodes /\
    (forall n, n ∈ by_class <-> carries live_manager (fleet_world three_nodes) ∅ n "web") /\
    val (ReclassManager.filter_nodes live_manager (fleet_world three_nodes)
           None (Some " web ") None ∅)
    = Ok (normalise by_class).
Proof.
  apply (class_filter_is_nodes_by_class live_manager (fleet_world three_nodes) " web ").
  - apply fleet_world_documented. reflexivity.
  - reflexivity.
Defined.

(** ** The parameter search of [ReclassManager] *)

Lemma split_char_absent sep s :
  PyStr.contains_char sep s = false -> PyStr.split_char sep s = [s].
Proof.
  induction s as [|c s IH]; [reflexivity|]. simpl.
  rewrite Ascii.eqb_sym. destruct (Ascii.eqb c sep); [discriminate|].
  intros H. rewrite (IH H). reflexivity.
Qed.

Lemma split_char_app sep a s :
  PyStr.contains_char sep a = false ->
  PyStr.split_char sep (a ++ String sep s) = a :: PyStr.split_char sep s.
Proof.
  induction a as [|c a IH]; intros H.
  - change ("" ++ String sep s) with (String sep s). simpl.
    rewrite Ascii.eqb_refl. reflexivity.
  - change (String c a ++ String sep s) with (String c (a ++ String sep s)).
    simpl in *. rewrite Ascii.eqb_sym in H. destruct (Ascii.eqb c sep); [discriminate|].
    rewrite (IH H). reflexivity.
Qed.

(** [split] undoes [join]. *)
Lemma split_join parts :
  parts <> [] -> Forall no_colon parts ->
  PyStr.split_char ":" (PyStr.join ":" parts) = parts.
Proof.
  induction parts as [|x parts IH]; [congruence|]. intros _ Hall.
  apply Forall_cons in Hall as [Hx Hall]. destruct parts as [|y parts].
  - apply split_char_absent. exact Hx.
  - change (PyStr.join ":" (x :: y :: parts))
      with (x ++ String ":" (PyStr.join ":" (y :: parts))).
    rewrite split_char_app by exact Hx. f_equal. apply IH; [discriminate | exact Hall].
Qed.

Lemma navigate_dig parts v :
  ReclassManager.navigate parts v = default JNull (dig parts v).
Proof.
  revert v. induction parts as [|k parts IH]; intros v; [reflexivity|]. simpl.
  destruct v; try reflexivity. destruct (Py.lookup k d); [apply IH | reflexivity].
Qed.

Lemma lookup_elem (items : list (string * json)) n nd :
  NoDup items.*1 -> (Py.lookup n items = Some nd <-> (n, nd) ∈ items).
Proof.
  induction items as [|[k v] items IH]; intros Hnd.
  - split; [discriminate | intros H; inversion H].
  - cbn [fmap list_fmap fst] in Hnd. apply NoDup_cons in Hnd as [Hk Hnd]. simpl.
    destruct (String.eqb_spec n k) as [-> | Hne].
    + split.
      * intros [= ->]. left.
      * intros H. apply elem_of_cons in H as [[= ->] | H]; [reflexivity|].
        exfalso. apply Hk. apply list_elem_of_fmap. exists (k, nd). split; [reflexivity | exact H].
    + rewrite (IH Hnd). rewrite elem_of_cons. split; [auto|].
      intros [[= -> ->] | H]; [congruence | exact H].
Qed.

(** A loop that records [f] of each item that has one under the key of
    the item. *)
Lemma lookup_fold_items (f : json -> option json) (items : list (string * json)) acc n :
  NoDup items.*1 ->
  Py.lookup n (fold_left (fun results (item : string * json) =>
                            match f (snd item) with
                            | Some v => Py.setitem results (fst item) v
                            | None => results
                            end) items acc)
  = match Py.lookup n items with
    | Some nd => match f nd with Some v => Some v | None => Py.lookup n acc end
    | None => Py.lookup n acc
    end.
Proof.
  revert acc. induction items as [|[k nd] items IH]; intros acc Hnd; [reflexivity|].
  cbn [fmap list_fmap fst] in Hnd. apply NoDup_cons in Hnd as [Hk Hnd].
  cbn [fold_left fst snd]. rewrite (IH _ Hnd). simpl.
  destruct (String.eqb_spec n k) as [-> | Hne].
  - assert (Hnone : Py.lookup k items = None).
    { destruct (Py.lookup k items) as [x|] eqn:Hl; [|reflexivity].
      exfalso. apply Hk. apply (lookup_elem items k x Hnd) in Hl.
      apply list_elem_of_fmap. exists (k, x). split; [reflexivity | exact Hl]. }
    rewrite Hnone. destruct (f nd) as [v|]; [|reflexivity].
    rewrite lookup_setitem, String.eqb_refl. reflexivity.
  - assert (Hacc : Py.lookup n (match f nd with
                                | Some v => Py.setitem acc k v
                                | None => acc
                                end) = Py.lookup n acc).
    { destruct (f nd); [|reflexivity]. rewrite lookup_setitem.
      destruct (String.eqb_spec n k); [congruence | reflexivity]. }
    rewrite Hacc. reflexivity.
Qed.

(** X22: With a documented classifier whose inventory lists each node
    once, [ReclassManager.search_parameter] on the keys [parts] joined by
    colons returns a mapping that has a node exactly when the parameters
    of its inventory entry hold a value at the nested keys [parts] that is
    not null, with that value. *)
Theorem manager_search_parameter_finds self w parts st :
  documented self w ->
  parts <> [] -> Forall no_colon parts ->
  NoDup (inventory_nodes self w st).*1 ->
  exists results,
    val (ReclassManager.search_parameter self w (PyStr.join ":" parts) st) = Ok results /\
    forall n v,
      Py.lookup n results = Some v <->
      v <> JNull /\
      exists d ps, (n, JDict d) ∈ inventory_nodes self w st /\
                   Py.lookup "parameters" d = Some ps /\ dig parts ps = Some v.
Proof.
  intros Hdoc Hne Hparts Hnd.
  set (f := fun nd => match nd with
                      | JDict d =>
                          match Py.lookup "parameters" d with
                          | Some ps =>
                              match ReclassManager.navigate parts ps with
                              | JNull => None
                              | c => Some c
                              end
                          | None => None
                          end
                      | _ => None
                      end).
  set (g := fun results (item : string * json) =>
              match f (snd item) with
              | Some v => Py.setitem results (fst item) v
              | None => results
              end).
  assert (Hval : val (ReclassManager.search_parameter self w (PyStr.join ":" parts) st)
                 = Ok (fold_left g (inventory_nodes self w st) [])).
  { unfold ReclassManager.search_parameter.
    rewrite val_bind_ro by apply get_inventory_data_ro.
    destruct (inventory_data_shape self w st Hdoc) as [Hv | (d & Hv & Hd)].
    - unfold inventory_nodes. rewrite Hv. reflexivity.
    - destruct (inventory_nodes_entry self w st d Hv Hd) as [Hn Hall]. rewrite Hv.
      rewrite val_bind_ro by apply readonly_lift. rewrite present_dict. cbn [lift ret val].
      destruct (Py.lookup "nodes" d) as [v|] eqn:Hl.
      + subst v. cbn [negb]. rewrite val_bind_ro by apply readonly_lift.
        cbn [default from_option id Py.getitem]. rewrite Hl. cbn [lift ret val].
        rewrite val_bind_ro by apply readonly_lift. cbn [Py.items lift ret val].
        rewrite (split_join parts Hne Hparts).
        apply for_each_pure.
        * intros acc x. ro.
        * intros acc [k nd] Hx. cbn [fst snd].
          rewrite forallb_forall in Hall. apply list_elem_of_In in Hx.
          specialize (Hall _ Hx). cbn [snd] in Hall.
          destruct nd as [| | | | |dn]; try discriminate.
          rewrite val_bind_ro by apply readonly_lift. cbn [Py.contains lift ret val].
          unfold g, f. cbn [fst snd].
          destruct (Py.lookup "parameters" dn) as [ps|] eqn:Hps; cbn [negb]; [|reflexivity].
          rewrite val_bind_ro by apply readonly_lift. cbn [Py.getitem]. rewrite Hps.
          cbn [lift ret val].
          destruct (ReclassManager.navigate parts ps); reflexivity.
      + rewrite Hn. reflexivity. }
  eexists. split; [exact Hval|]. intros n v.
  unfold g. rewrite (lookup_fold_items f _ [] n Hnd). cbn [Py.lookup].
  split.
  - destruct (Py.lookup n (inventory_nodes self w st)) as [nd|] eqn:Hl; [|discriminate].
    apply (lookup_elem _ _ _ Hnd) in Hl. unfold f.
    destruct nd as [| | | | |d]; try discriminate.
    destruct (Py.lookup "parameters" d) as [ps|] eqn:Hps; [|discriminate].
    rewrite navigate_dig. destruct (dig parts ps) as [c|] eqn:Hdig; [|discriminate].
    cbn [default from_option id]. intros H.
    assert (c = v /\ v <> JNull) as [-> Hnull] by (destruct c; inversion H; split; congruence).
    split; [exact Hnull|]. eauto.
  - intros (Hnull & d & ps & Hin & Hps & Hdig).
    apply (lookup_elem _ _ _ Hnd) in Hin. rewrite Hin. unfold f. rewrite Hps, navigate_dig, Hdig.
    cbn [default from_option id]. destruct v; congruence.
Qed.

Lemma manager_search_parameter_finds_witness :
  exists results,
    val (ReclassManager.search_parameter live_manager (fleet_world nested_nodes) "app:port" ∅)
    = Ok results /\
    forall n v,
      Py.lookup n results = Some v <->
      v <> JNull /\
      exists d ps, (n, JDict d) ∈ inventory_nodes live_manager (fleet_world nested_nodes) ∅ /\
                   Py.lookup "parameters" d = Some ps /\ dig ["app"; "port"] ps = Some v.
Proof.
  apply (manager_search_parameter_finds live_manager (fleet_world nested_nodes)
           ["app"; "port"] ∅).
  - apply fleet_world_documented. reflexivity.
  - discriminate.
  - repeat constructor.
  - apply (bool_decide_unpack _). vm_compute. exact I.
Defined.

(** ** Validation of an inventory by [ReclassManager] *)



(** ** The commands of a filtering run *)

Lemma runs_only_bind {A B} allowed (m : M A) (k : A -> M B) :
  runs_only allowed m -> (forall a, runs_only allowed (k a)) -> runs_only allowed (bind m k).
Proof.
  intros Hm Hk st cmd. rewrite trace_bind. destruct (val (m st)); [|apply Hm].
  intros H. apply elem_of_app in H as [H|H]; [eapply Hm | eapply Hk]; exact H.
Qed.

Lemma runs_only_quiet {A} allowed (m : M A) :
  (forall st, no_exec (trace (m st))) -> runs_only allowed m.
Proof. intros H st cmd Hin. exfalso. exact (H st cmd Hin). Qed.

Lemma runs_only_ret {A} allowed (a : A) : runs_only allowed (ret a).
Proof. apply runs_only_quiet. intros st. solve_no_exec. Qed.

Lemma runs_only_raise {A} allowed e : runs_only allowed (@raise A e).
Proof. apply runs_only_quiet. intros st. solve_no_exec. Qed.

Lemma runs_only_lift {A} allowed (r : res A) : runs_only allowed (lift r).
Proof. destruct r; [apply runs_only_ret | apply runs_only_raise]. Qed.

Lemma runs_only_emit allowed e :
  (forall cmd, e <> Exec cmd) -> runs_only allowed (emit e).
Proof.
  intros He st cmd Hin. apply elem_of_cons in Hin as [Hin|Hin].
  - exfalso. eapply He. symmetry. exact Hin.
  - inversion Hin.
Qed.

Lemma runs_only_run_reclass (allowed : list string -> Prop) w cmd :
  allowed cmd -> runs_only allowed (run_reclass w cmd).
Proof.
  intros Hc st cmd' Hin. apply elem_of_cons in Hin as [Hin|Hin]; [|inversion Hin].
  injection Hin as ->. exact Hc.
Qed.

Lemma runs_only_for_each {A B} allowed (l : list A) (body : B -> A -> M B) :
  (forall acc x, runs_only allowed (body acc x)) ->
  forall acc, runs_only allowed (for_each l acc body).
Proof.
  intros Hb. induction l as [|x l IH]; intros acc; [apply runs_only_ret|].
  cbn [for_each]. apply runs_only_bind; [apply Hb | apply IH].
Qed.

Ltac only_step :=
  first [ apply runs_only_bind; [|intros ?]
        | apply runs_only_for_each; intros ? ?
        | apply runs_only_ret | apply runs_only_raise | apply runs_only_lift
        | apply runs_only_emit; discriminate
        | match goal with |- runs_only _ (if ?b then _ else _) => destruct b end ].

Lemma inventory_data_runs self w :
  runs_only (manager_query self) (ReclassManager.get_inventory_data self w).
Proof.
  unfold ReclassManager.get_inventory_data, log_info, log_warning. repeat only_step.
  - apply runs_only_run_reclass. left. reflexivity.
  - destruct a0; [repeat only_step|]. destruct (json_loads w stdout); repeat only_step.
Qed.

Lemma node_data_runs self w name :
  runs_only (manager_query self) (ReclassManager.get_node_data self w name).
Proof.
  unfold ReclassManager.get_node_data, log_info, log_warning. only_step; [repeat only_step|].
  destruct (InputValidator.sanitize_node_name name) as [n|e] eqn:Hs.
  - apply sanitize_node_name_ok in Hs as [_ Hg]. repeat only_step.
    + apply runs_only_run_reclass. right. exists n. split; [exact Hg | reflexivity].
    + destruct a0; [repeat only_step|]. destruct (json_loads w stdout); repeat only_step.
  - destruct e; repeat only_step.
Qed.

Ltac query_step :=
  first [ apply inventory_data_runs | apply node_data_runs | only_step ].

Lemma list_nodes_runs self w :
  runs_only (manager_query self) (ReclassManager.list_nodes self w).
Proof. unfold ReclassManager.list_nodes. repeat query_step. Qed.

Lemma nodes_by_class_runs self w c :
  runs_only (manager_query self) (ReclassManager.get_nodes_by_class self w c).
Proof. unfold ReclassManager.get_nodes_by_class. repeat query_step. Qed.

Lemma node_parameters_runs self w n :
  runs_only (manager_query self) (ReclassManager.get_node_parameters self w n).
Proof. unfold ReclassManager.get_node_parameters. repeat query_step. Qed.

Lemma node_filter_runs self nf s :
  runs_only (manager_query self) (ReclassManager.apply_node_filter nf s).
Proof.
  unfold ReclassManager.apply_node_filter, log_warning. only_step; [|only_step].
  destruct (InputValidator.validate_filter_pattern _) as [q|[]]; repeat only_step.
  destruct (Re.compile _); repeat only_step.
Qed.

Lemma class_filter_runs self w cf s :
  runs_only (manager_query self) (ReclassManager.apply_class_filter self w cf s).
Proof.
  unfold ReclassManager.apply_class_filter, log_warning. only_step; [|only_step].
  destruct (InputValidator.validate_filter_pattern _) as [q|[]];
    try solve [repeat only_step].
  apply runs_only_bind; [apply nodes_by_class_runs | intros l; only_step].
Qed.

Lemma project_filter_runs self w pf s :
  runs_only (manager_query self) (ReclassManager.apply_project_filter self w pf s).
Proof.
  unfold ReclassManager.apply_project_filter, log_warning. only_step; [|only_step].
  destruct (InputValidator.validate_filter_pattern _) as [q|[]];
    try solve [repeat only_step].
  apply runs_only_for_each. intros acc node.
  apply runs_only_bind; [apply node_parameters_runs|]. intros params. repeat only_step.
Qed.

(** X24: Every command [filter_nodes] runs is the inventory query or the
    query of one node whose name is in the naming grammar, with the
    classifier and directory of the manager: whatever the filters are, no
    text of a filter and no unvalidated name reaches a command line. *)
Theorem filter_nodes_runs_queries_only self w nf cf pf st cmd :
  Exec cmd ∈ trace (ReclassManager.filter_nodes self w nf cf pf st) ->
  manager_query self cmd.
Proof.
  revert st cmd. change (runs_only (manager_query self)
                           (ReclassManager.filter_nodes self w nf cf pf)).
  unfold ReclassManager.filter_nodes.
  only_step; [apply list_nodes_runs|]. only_step; [only_step|].
  only_step; [apply node_filter_runs|].
  only_step; [apply class_filter_runs|].
  only_step; [apply project_filter_runs|]. only_step.
Qed.

Lemma filter_nodes_runs_queries_only_witness :
  manager_query live_manager
    ["/usr/bin/reclass"; "-b"; "/srv/inventory"; "-n"; "a1"; "--output"; "json"].
Proof.
  apply (filter_nodes_runs_queries_only live_manager (fleet_world three_nodes)
           (Some "a1") None (Some "p1") ∅).
  vm_compute. do 3 right. left.
Defined.

(** ** Names of devices as path components *)

Lemma upper_char_capital c :
  capital_or_digit (ascii_upper_char c) = true ->
  PyStr.upper_char c = [PyStr.code (ascii_upper_char c)].
Proof.
  destruct c as [[] [] [] [] [] [] [] []]; vm_compute; intros H;
    first [reflexivity | discriminate H].
Qed.

Lemma upper_codes s :
  str_forall capital_or_digit (ascii_upper s) = true ->
  PyStr.upper s = PyStr.codes (ascii_upper s).
Proof.
  induction s as [|c s IH]; [reflexivity|]. cbn [ascii_upper str_forall].
  intros H. apply andb_true_iff in H as [Hc H].
  cbn [PyStr.upper]. rewrite (upper_char_capital c Hc), (IH H). reflexivity.
Qed.

Lemma reserved_capital r :
  r ∈ InputValidator.reserved_names -> str_forall capital_or_digit r = true.
Proof.
  unfold InputValidator.reserved_names. intros H.
  repeat (apply elem_of_cons in H as [-> | H]; [reflexivity|]).
  inversion H.
Qed.

(** X25: A name that is, up to the case of its letters [a]-[z] and
    blanks around it, one of the reserved device names ([CON], [PRN],
    [AUX], [NUL], [COM1]-[COM9], [LPT1]-[LPT9]) is rejected by
    [validate_path_component], and so by
    [TemplateEngine.validate_project_name]. *)
Theorem reserved_names_rejected name :
  ascii_upper (PyStr.strip name) ∈ InputValidator.reserved_names ->
  InputValidator.validate_path_component name = false /\
  TemplateEngine.validate_project_name name = false.
Proof.
  intros Hr.
  assert (Hv : InputValidator.validate_path_component name = false).
  { unfold InputValidator.validate_path_component.
    destruct (String.eqb name ""); [reflexivity|].
    destruct (existsb _ _); [reflexivity|].
    rewrite bool_decide_eq_true_2; [reflexivity|].
    rewrite (upper_codes _ (reserved_capital _ Hr)).
    apply list_elem_of_fmap. eexists. split; [reflexivity | exact Hr]. }
  split; [exact Hv|].
  unfold TemplateEngine.validate_project_name. rewrite Hv.
  destruct (String.eqb name ""); reflexivity.
Qed.

Lemma reserved_names_rejected_witness :
  InputValidator.validate_path_component " Com1 " = false /\
  TemplateEngine.validate_project_name " Com1 " = false.
Proof.
  apply reserved_names_rejected. apply (bool_decide_unpack _). vm_compute. exact I.
Defined.

Lemma strip_empty_head c s : PyStr.strip (String c s) = "" -> PyStr.isspace c = true.
Proof.
  unfold PyStr.strip. cbn [PyStr.lstrip].
  destruct (PyStr.isspace c) eqn:Hc; [reflexivity|].
  cbn [PyStr.rstrip]. rewrite Hc. destruct (PyStr.rstrip s); discriminate.
Qed.

(** X26: [validate_path_component] tests for the empty name before it
    strips the blanks: a name that is not empty and consists of blanks
    only is accepted, and [TemplateEngine.validate_project_name] accepts
    it as well when it has at most 100 characters. *)
Theorem blank_names_accepted name :
  name <> "" -> PyStr.strip name = "" ->
  InputValidator.validate_path_component name = true /\
  ((String.length name <= 100)%nat -> TemplateEngine.validate_project_name name = true).
Proof.
  intros Hne Hs.
  assert (Hv : InputValidator.validate_path_component name = true).
  { unfold InputValidator.validate_path_component. rewrite Hs.
    apply String.eqb_neq in Hne. rewrite Hne. vm_compute. reflexivity. }
  split; [exact Hv|]. intros Hlen.
  unfold TemplateEngine.validate_project_name. rewrite Hv.
  destruct name as [|c s]; [congruence|].
  apply strip_empty_head in Hs.
  assert (Hdot : Ascii.eqb "." c = false).
  { destruct (Ascii.eqb_spec "."%char c) as [<- | _]; [discriminate Hs | reflexivity]. }
  assert (Hdash : Ascii.eqb "-" c = false).
  { destruct (Ascii.eqb_spec "-"%char c) as [<- | _]; [discriminate Hs | reflexivity]. }
  cbn [String.eqb negb PyStr.startswith]. rewrite Hdot, Hdash. cbn [andb orb].
  destruct (Nat.ltb_spec 100 (String.length (String c s))); [lia | reflexivity].
Qed.

Lemma blank_names_accepted_witness :
  InputValidator.validate_path_component "   " = true /\
  ((String.length "   " <= 100)%nat -> TemplateEngine.validate_project_name "   " = true).
Proof. apply blank_names_accepted; [discriminate | reflexivity]. Defined.
